(** * Raja-Mantri-Chor-Sipahi backend: the room session state machine

    A shallow embedding of [src/server/server.js] and the properties of its
    room registry, role assignment, round scoring and membership handling.

    Conventions of the embedding.
    - Socket ids, room codes, names and avatars are strings.
    - [room.players] is a JavaScript [Map] and [gameState.characters],
      [gameState.scores] and [results.pointChanges] are plain objects keyed by
      socket ids.  All of them enumerate their entries in insertion order
      (object keys that are canonical array indices would come first, but
      socket ids and the key ["null"] are not of that form), and the code
      iterates over them, so they are modelled as insertion-ordered
      association lists ([omap]).
    - The two process-wide registries [rooms] and [players] are only ever
      accessed by key, so they are finite maps ([gmap]).
    - Numbers are integers ([Z]); scores stay far below 2^53, where the
      JavaScript number type is exact.
    - [Math.random] is an input: the draws a handler consumes are carried by
      the action that triggers it. *)

From Stdlib Require Import ZArith String List Lia.
From stdpp Require Import gmap strings list fin_maps.

Local Open Scope string_scope.
Local Open Scope Z_scope.

(** ** Insertion-ordered maps (JavaScript [Map] and plain objects) *)

Section omap.
Context {V : Type}.

  (** [m.get(k)], [o[k]] *)
Fixpoint oget (k : string) (m : list (string * V)) : option V :=
    match m with
    | [] => None
    | (k', v) :: m' => if String.eqb k k' then Some v else oget k m'
    end.

  (** [m.set(k, v)], [o[k] = v]: an existing key keeps its position, a new
      key goes last. *)
Fixpoint oset (k : string) (v : V) (m : list (string * V)) : list (string * V) :=
    match m with
    | [] => [(k, v)]
    | (k', v') :: m' =>
        if String.eqb k k' then (k, v) :: m' else (k', v') :: oset k v m'
    end.

  (** [m.delete(k)], [delete o[k]] *)
Fixpoint odel (k : string) (m : list (string * V)) : list (string * V) :=
    match m with
    | [] => []
    | (k', v') :: m' =>
        if String.eqb k k' then m' else (k', v') :: odel k m'
    end.

  (** [Array.from(m.keys())] *)
Definition okeys (m : list (string * V)) : list string := map fst m.

  (** [Array.from(m.values())] *)
Definition ovalues (m : list (string * V)) : list V := map snd m.

  (** [m.size] *)
Definition osize (m : list (string * V)) : nat := length m.
End omap.

Abbreviation omap V := (list (string * V)).

(** ** Data model *)

(** The keys of [CHARACTERS]. *)
Inductive Character := Raja | Mantri | Chor | Sipahi.

Global Instance Character_eq_dec : EqDecision Character.
Proof. solve_decision. Defined.

(** [CHARACTERS[c].points] *)
Definition points (c : Character) : Z :=
  match c with
  | Raja => 2000
  | Mantri => 900
  | Chor => 0
  | Sipahi => 700
  end.

(** [gameState.status] *)
Inductive Status := waiting | playing | finished.

Global Instance Status_eq_dec : EqDecision Status.
Proof. solve_decision. Defined.

(** An entry of [room.players]. *)
Record Player := mkPlayer {
  id : string;
  name : string;
  avatar : string;
  isHost : bool;
  isReady : bool
}.

(** The object returned by [calculateRoundResults].  A socket id field that
    may hold [null] is an [option]. *)
Record Results := mkResults {
  res_sipahiId : option string;
  res_chorId : option string;
  suspectedPlayerId : option string;
  isCorrectGuess : bool;
  pointChanges : omap Z
}.

Record GameState := mkGameState {
  status : Status;
  currentRound : Z;
  totalRounds : Z;
  characters : omap Character;
  scores : omap Z;
  sipahiId : option string;
  chorId : option string;
  currentGuess : option string;
  roundResults : option Results
}.

Record Settings := mkSettings {
  maxPlayers : nat;
  rounds : Z
}.

Record Room := mkRoom {
  code : string;
  hostId : string;
  players : omap Player;
  gameState : GameState;
  settings : Settings
}.

(** An entry of the global [players] map. *)
Record PlayerRef := mkPlayerRef {
  ref_id : string;
  roomCode : option string
}.

(** The two global maps, [rooms] and [players]. *)
Record Server := mkServer {
  rooms : gmap string Room;
  playerRefs : gmap string PlayerRef
}.

(** Field updates, as the assignments of the source perform them. *)
Definition set_status (s : Status) (g : GameState) : GameState :=
  mkGameState s (currentRound g) (totalRounds g) (characters g) (scores g)
    (sipahiId g) (chorId g) (currentGuess g) (roundResults g).
Definition set_currentRound (n : Z) (g : GameState) : GameState :=
  mkGameState (status g) n (totalRounds g) (characters g) (scores g)
    (sipahiId g) (chorId g) (currentGuess g) (roundResults g).
Definition set_totalRounds (n : Z) (g : GameState) : GameState :=
  mkGameState (status g) (currentRound g) n (characters g) (scores g)
    (sipahiId g) (chorId g) (currentGuess g) (roundResults g).
Definition set_characters (c : omap Character) (g : GameState) : GameState :=
  mkGameState (status g) (currentRound g) (totalRounds g) c (scores g)
    (sipahiId g) (chorId g) (currentGuess g) (roundResults g).
Definition set_scores (s : omap Z) (g : GameState) : GameState :=
  mkGameState (status g) (currentRound g) (totalRounds g) (characters g) s
    (sipahiId g) (chorId g) (currentGuess g) (roundResults g).
Definition set_sipahiId (i : option string) (g : GameState) : GameState :=
  mkGameState (status g) (currentRound g) (totalRounds g) (characters g) (scores g)
    i (chorId g) (currentGuess g) (roundResults g).
Definition set_chorId (i : option string) (g : GameState) : GameState :=
  mkGameState (status g) (currentRound g) (totalRounds g) (characters g) (scores g)
    (sipahiId g) i (currentGuess g) (roundResults g).
Definition set_roundResults (r : option Results) (g : GameState) : GameState :=
  mkGameState (status g) (currentRound g) (totalRounds g) (characters g) (scores g)
    (sipahiId g) (chorId g) (currentGuess g) r.

Definition set_gameState (g : GameState) (r : Room) : Room :=
  mkRoom (code r) (hostId r) (players r) g (settings r).
Definition set_players (p : omap Player) (r : Room) : Room :=
  mkRoom (code r) (hostId r) p (gameState r) (settings r).
Definition set_hostId (h : string) (r : Room) : Room :=
  mkRoom (code r) h (players r) (gameState r) (settings r).

Definition set_isHost (b : bool) (p : Player) : Player :=
  mkPlayer (id p) (name p) (avatar p) b (isReady p).

(** [x || d] on a number that may be missing: [undefined] and [0] are both
    falsy. *)
Definition or_default (x : option Z) (d : Z) : Z :=
  match x with
  | Some v => if Z.eqb v 0 then d else v
  | None => d
  end.

(** ** Utility functions *)

Section shuffle.
Context {A : Type}.

  (** [[a[i], a[j]] = [a[j], a[i]]] *)
Definition swap (i j : nat) (a : list A) : list A :=
    match a !! i, a !! j with
    | Some x, Some y => <[j := x]> (<[i := y]> a)
    | _, _ => a
    end.

  (** The loop of [shuffleArray], counting [i] down to 1.  [rnd i] is the
      draw made at index [i]; [Math.floor(Math.random() * (i + 1))] is an
      integer of [0 .. i], so the draw is reduced into that range. *)
Fixpoint shuffle_loop (rnd : nat -> nat) (i : nat) (a : list A) : list A :=
    match i with
    | O => a
    | S i' => shuffle_loop rnd i' (swap i (rnd i mod (i + 1))%nat a)
    end.

Definition shuffleArray (rnd : nat -> nat) (array : list A) : list A :=
    shuffle_loop rnd (length array - 1)%nat array.
End shuffle.

(** ** Room creation *)

(** The fields of the [create-room] payload that the server reads. *)
Record HostData := mkHostData {
  hd_name : string;
  hd_avatar : string;
  hd_rounds : option Z
}.

(** The [do ... while (rooms.has(roomCode))] loop.  [draws] are the
    successive results of [generateRoomCode()]; the loop stops at the first
    one that the registry does not hold.  [None]: every supplied draw is
    taken, the loop would go on drawing. *)
Fixpoint fresh_code (rs : gmap string Room) (draws : list string) : option string :=
  match draws with
  | [] => None
  | c :: draws' =>
      match rs !! c with
      | Some _ => fresh_code rs draws'
      | None => Some c
      end
  end.

Definition new_room (roomCode hostId : string) (hostData : HostData) : Room :=
  let room :=
    mkRoom roomCode hostId []
      (mkGameState waiting 1 (or_default (hd_rounds hostData) 5) [] []
         None None None None)
      (mkSettings 4 (or_default (hd_rounds hostData) 5)) in
  let room :=
    set_players
      (oset hostId (mkPlayer hostId (hd_name hostData) (hd_avatar hostData) true true)
         (players room)) room in
  set_gameState (set_scores (oset hostId 0 (scores (gameState room))) (gameState room)) room.

Definition createRoom (draws : list string) (hostId : string) (hostData : HostData)
    (rs : gmap string Room) : option (Room * gmap string Room) :=
  match fresh_code rs draws with
  | None => None
  | Some roomCode =>
      let room := new_room roomCode hostId hostData in
      Some (room, <[roomCode := room]> rs)
  end.

(** ** Role assignment *)

Definition all_characters : list Character := [Raja; Mantri; Chor; Sipahi].

(** [shuffledCharacters[index] || characters[index % characters.length]] *)
Definition pick (shuffled : list Character) (index : nat) : Character :=
  match shuffled !! index with
  | Some c => c
  | None => default Raja (all_characters !! (index mod length all_characters)%nat)
  end.

(** The body of the [forEach] callback. *)
Definition assign_one (playerId : string) (character : Character) (g : GameState)
    : GameState :=
  let g := set_characters (oset playerId character (characters g)) g in
  match character with
  | Sipahi => set_sipahiId (Some playerId) g
  | Chor => set_chorId (Some playerId) g
  | _ => g
  end.

Fixpoint assign_loop (shuffled : list Character) (index : nat)
    (playerIds : list string) (g : GameState) : GameState :=
  match playerIds with
  | [] => g
  | playerId :: rest =>
      assign_loop shuffled (S index) rest (assign_one playerId (pick shuffled index) g)
  end.

Definition assignCharacters (rnd : nat -> nat) (room : Room) : Room :=
  let playerIds := okeys (players room) in
  let shuffledCharacters := shuffleArray rnd all_characters in
  set_gameState (assign_loop shuffledCharacters 0 playerIds (gameState room)) room.

(** ** Round results *)

(** A socket id used as a property key: [o[null]] is [o["null"]]. *)
Definition key_of (i : option string) : string :=
  match i with
  | Some s => s
  | None => "null"
  end.

(** "Award points to Raja and Mantri": the callback over
    [Object.entries(room.gameState.characters)]. *)
Definition award (pc : omap Z) (e : string * Character) : omap Z :=
  match snd e with
  | Raja => oset (fst e) (points Raja) pc
  | Mantri => oset (fst e) (points Mantri) pc
  | _ => pc
  end.

(** "Update actual scores": the callback over
    [Object.entries(results.pointChanges)]. *)
Definition add_points (sc : omap Z) (e : string * Z) : omap Z :=
  oset (fst e) (or_default (oget (fst e) sc) 0 + snd e) sc.

(** [results.pointChanges] as [calculateRoundResults] builds it. *)
Definition point_changes (room : Room) (suspected : option string) : omap Z :=
  let g := gameState room in
  let pc := fold_left (fun pc playerId => oset playerId 0 pc) (okeys (players room)) [] in
  let pc :=
    if bool_decide (suspected = chorId g)
    then oset (key_of (chorId g)) (points Chor)
           (oset (key_of (sipahiId g)) (points Sipahi) pc)
    else oset (key_of (chorId g)) (points Sipahi)
           (oset (key_of (sipahiId g)) (points Chor) pc) in
  fold_left award (characters g) pc.

(** [calculateRoundResults(room, suspectedPlayerId)]: the returned object
    and the room after the update of its scores. *)
Definition calculateRoundResults (room : Room) (suspected : option string)
    : Results * Room :=
  let g := gameState room in
  let results :=
    mkResults (sipahiId g) (chorId g) suspected
      (bool_decide (suspected = chorId g)) (point_changes room suspected) in
  (results,
   set_gameState (set_scores (fold_left add_points (pointChanges results) (scores g)) g) room).

(** ** Winner *)

Section sort.
Context {A : Type} (cmp : A -> A -> Z).

Fixpoint insert_sorted (x : A) (l : list A) : list A :=
    match l with
    | [] => [x]
    | y :: l' => if cmp x y <=? 0 then x :: y :: l' else y :: insert_sorted x l'
    end.

  (** [array.sort(cmp)].  The sort of the language is stable, and for a
      comparator that is a total preorder its result is determined: it is
      the one a stable insertion sort computes. *)
Definition sort (l : list A) : list A := fold_right insert_sorted [] l.
End sort.

(** [{ ...player, score: room.gameState.scores[id] || 0 }] *)
Definition with_score (sc : omap Z) (e : string * Player) : Player * Z :=
  (snd e, or_default (oget (fst e) sc) 0).

(** The [winner] of the [next-round] handler; [None] is [undefined]. *)
Definition winner_of (room : Room) : option (Player * Z) :=
  head (sort (fun a b => snd b - snd a)
          (map (with_score (scores (gameState room))) (players room))).

(** ** Messages *)

(** Whom a message is sent to: [socket.emit] and [io.to(id)],
    [io.to(roomCode)], [socket.to(roomCode)]. *)
Inductive target :=
  | ToSocket (socketId : string)
  | ToRoom (roomCode : string)
  | ToRoomExcept (roomCode socketId : string).

Inductive event :=
  | room_created (roomCode : string) (ps : list Player) (s : Settings)
  | room_joined (roomCode : string) (ps : list Player) (s : Settings)
  | player_joined (ps : list Player) (newPlayer : string)
  | error (message : string)
  | game_started (currentRound totalRounds : Z)
  | character_assigned (character : option Character) (isSipahi : bool)
  | round_results (results : Results) (currentScores : omap Z)
      (chars : omap Character) (roundNumber : Z)
  | round_started (currentRound totalRounds : Z)
  | game_finished (winner : option (Player * Z)) (finalScores : omap Z)
      (ps : list Player)
  | player_left (ps : list Player) (leftPlayerId : string)
  | new_host (newHostId : string) (ps : list Player).

Abbreviation output := (list (target * event)).

(** The [character-assigned] messages, one per member. *)
Definition character_messages (room : Room) : output :=
  map (fun playerId =>
         (ToSocket playerId,
          character_assigned (oget playerId (characters (gameState room)))
            (bool_decide (sipahiId (gameState room) = Some playerId))))
      (okeys (players room)).

(** ** The handlers of the socket events *)

(** The payloads, with the fields the server reads. *)
Record JoinData := mkJoinData {
  jd_roomCode : string;
  jd_name : string;
  jd_avatar : string
}.

Record StartData := mkStartData {
  sd_roomCode : string;
  sd_rounds : option Z
}.

Record GuessData := mkGuessData {
  gd_roomCode : string;
  gd_suspectedPlayerId : option string
}.

Definition update_room (roomCode : string) (room : Room) (st : Server) : Server :=
  mkServer (<[roomCode := room]> (rooms st)) (playerRefs st).

(** [players.get(socket.id).roomCode = roomCode] *)
Definition set_roomCode (socketId roomCode : string) (p : PlayerRef) (st : Server)
    : Server :=
  mkServer (rooms st) (<[socketId := mkPlayerRef (ref_id p) (Some roomCode)]> (playerRefs st)).

(** [io.on('connection', ...)] *)
Definition on_connection (socketId : string) (st : Server) : Server * output :=
  (mkServer (rooms st) (<[socketId := mkPlayerRef socketId None]> (playerRefs st)), []).

(** [socket.on('create-room', ...)].  [None]: the supplied draws of
    [generateRoomCode] are all taken.  The read of [players.get(socket.id)]
    throws for an unknown socket, after [createRoom] has registered the room;
    the [catch] reports the failure. *)
Definition on_create_room (draws : list string) (socketId : string) (data : HostData)
    (st : Server) : option (Server * output) :=
  match createRoom draws socketId data (rooms st) with
  | None => None
  | Some (room, rs) =>
      let st := mkServer rs (playerRefs st) in
      match playerRefs st !! socketId with
      | None => Some (st, [(ToSocket socketId, error "Failed to create room")])
      | Some p =>
          Some (set_roomCode socketId (code room) p st,
                [(ToSocket socketId,
                  room_created (code room) (ovalues (players room)) (settings room))])
      end
  end.

(** [socket.on('join-room', ...)] *)
Definition on_join_room (socketId : string) (data : JoinData) (st : Server)
    : Server * output :=
  match rooms st !! jd_roomCode data with
  | None => (st, [(ToSocket socketId, error "Room not found")])
  | Some room =>
      if (maxPlayers (settings room) <=? osize (players room))%nat
      then (st, [(ToSocket socketId, error "Room is full")])
      else if bool_decide (status (gameState room) = playing)
      then (st, [(ToSocket socketId, error "Game already in progress")])
      else
        match List.find (fun p => String.eqb (name p) (jd_name data))
                (ovalues (players room)) with
        | Some _ => (st, [(ToSocket socketId, error "Name already taken")])
        | None =>
            let room :=
              set_players
                (oset socketId
                   (mkPlayer socketId (jd_name data) (jd_avatar data) false true)
                   (players room)) room in
            let room :=
              set_gameState
                (set_scores (oset socketId 0 (scores (gameState room))) (gameState room))
                room in
            let st := update_room (jd_roomCode data) room st in
            match playerRefs st !! socketId with
            | None => (st, [(ToSocket socketId, error "Failed to join room")])
            | Some p =>
                (set_roomCode socketId (jd_roomCode data) p st,
                 [(ToRoom (jd_roomCode data),
                   player_joined (ovalues (players room)) (jd_name data));
                  (ToSocket socketId,
                   room_joined (jd_roomCode data) (ovalues (players room))
                     (settings room))])
            end
        end
  end.

(** "Reset scores for new game" *)
Definition reset_scores (room : Room) : Room :=
  set_gameState
    (set_scores
       (fold_left (fun sc playerId => oset playerId 0 sc) (okeys (players room))
          (scores (gameState room)))
       (gameState room))
    room.

(** [socket.on('start-game', ...)] *)
Definition on_start_game (rnd : nat -> nat) (socketId : string) (data : StartData)
    (st : Server) : Server * output :=
  match rooms st !! sd_roomCode data with
  | None => (st, [(ToSocket socketId, error "Not authorized to start game")])
  | Some room =>
      if negb (String.eqb (hostId room) socketId)
      then (st, [(ToSocket socketId, error "Not authorized to start game")])
      else if (osize (players room) <? 2)%nat
      then (st, [(ToSocket socketId, error "Need at least 2 players")])
      else
        let g := gameState room in
        let g := set_totalRounds (or_default (sd_rounds data) (rounds (settings room))) g in
        let g := set_status playing g in
        let g := set_currentRound 1 g in
        let room := reset_scores (set_gameState g room) in
        let room := assignCharacters rnd room in
        (update_room (sd_roomCode data) room st,
         (ToRoom (sd_roomCode data),
          game_started (currentRound (gameState room)) (totalRounds (gameState room)))
           :: character_messages room)
  end.

(** [socket.on('make-guess', ...)] *)
Definition on_make_guess (socketId : string) (data : GuessData) (st : Server)
    : Server * output :=
  match rooms st !! gd_roomCode data with
  | None => (st, [(ToSocket socketId, error "Not your turn or invalid room")])
  | Some room =>
      if negb (bool_decide (sipahiId (gameState room) = Some socketId))
      then (st, [(ToSocket socketId, error "Not your turn or invalid room")])
      else
        let '(results, room) := calculateRoundResults room (gd_suspectedPlayerId data) in
        let room := set_gameState (set_roundResults (Some results) (gameState room)) room in
        (update_room (gd_roomCode data) room st,
         [(ToRoom (gd_roomCode data),
           round_results results (scores (gameState room)) (characters (gameState room))
             (currentRound (gameState room)))])
  end.

(** [socket.on('next-round', ...)] *)
Definition on_next_round (rnd : nat -> nat) (socketId roomCode : string) (st : Server)
    : Server * output :=
  match rooms st !! roomCode with
  | None => (st, [(ToSocket socketId, error "Not authorized")])
  | Some room =>
      if negb (String.eqb (hostId room) socketId)
      then (st, [(ToSocket socketId, error "Not authorized")])
      else
        let g := gameState room in
        let room := set_gameState (set_currentRound (currentRound g + 1) g) room in
        if totalRounds (gameState room) <? currentRound (gameState room)
        then
          let room := set_gameState (set_status finished (gameState room)) room in
          (update_room roomCode room st,
           [(ToRoom roomCode,
             game_finished (winner_of room) (scores (gameState room))
               (ovalues (players room)))])
        else
          let room := assignCharacters rnd room in
          (update_room roomCode room st,
           (ToRoom roomCode,
            round_started (currentRound (gameState room)) (totalRounds (gameState room)))
             :: character_messages room)
  end.

(** The room the [disconnect] handler works on: [player && player.roomCode]
    (the empty string is falsy), then [rooms.get(player.roomCode)]. *)
Definition room_of (socketId : string) (st : Server) : option (string * Room) :=
  match playerRefs st !! socketId with
  | None => None
  | Some player =>
      match roomCode player with
      | None => None
      | Some c =>
          if String.eqb c "" then None
          else match rooms st !! c with
               | None => None
               | Some room => Some (c, room)
               end
      end
  end.

(** [room.players.get(newHostId).isHost = true]; [newHostId] is a key of
    the map, read from it just before. *)
Definition promote (newHostId : string) (ps : omap Player) : omap Player :=
  match oget newHostId ps with
  | Some p => oset newHostId (set_isHost true p) ps
  | None => ps
  end.

(** [socket.on('disconnect', ...)] *)
Definition on_disconnect (socketId : string) (st : Server) : Server * output :=
  let '(rs, out) :=
    match room_of socketId st with
    | None => (rooms st, [])
    | Some (c, room) =>
        let room := set_players (odel socketId (players room)) room in
        let room :=
          set_gameState
            (set_scores (odel socketId (scores (gameState room))) (gameState room))
            room in
        let left :=
          (ToRoomExcept c socketId, player_left (ovalues (players room)) socketId) in
        if String.eqb (hostId room) socketId
        then
          match okeys (players room) with
          | newHostId :: _ =>
              let room := set_hostId newHostId room in
              let room := set_players (promote newHostId (players room)) room in
              (<[c := room]> (rooms st),
               [left; (ToRoom c, new_host newHostId (ovalues (players room)))])
          | [] => (delete c (rooms st), [left])
          end
        else (<[c := room]> (rooms st), [left])
    end in
  (mkServer rs (delete socketId (playerRefs st)), out).

(** The periodic clean-up of empty rooms. *)
Definition on_cleanup (st : Server) : Server * output :=
  (mkServer (filter (fun e => osize (players (snd e)) <> O) (rooms st)) (playerRefs st),
   []).

(** ** The server as a transition system *)

Inductive action :=
  | connection (socketId : string)
  | create_room (socketId : string) (data : HostData) (draws : list string)
  | join_room (socketId : string) (data : JoinData)
  | start_game (socketId : string) (data : StartData) (rnd : nat -> nat)
  | make_guess (socketId : string) (data : GuessData)
  | next_round (socketId : string) (roomCode : string) (rnd : nat -> nat)
  | disconnect (socketId : string)
  | cleanup.

Definition handle (a : action) (st : Server) : option (Server * output) :=
  match a with
  | connection s => Some (on_connection s st)
  | create_room s data draws => on_create_room draws s data st
  | join_room s data => Some (on_join_room s data st)
  | start_game s data rnd => Some (on_start_game rnd s data st)
  | make_guess s data => Some (on_make_guess s data st)
  | next_round s c rnd => Some (on_next_round rnd s c st)
  | disconnect s => Some (on_disconnect s st)
  | cleanup => Some (on_cleanup st)
  end.

Definition connected (socketId : string) (st : Server) : bool :=
  bool_decide (is_Some (playerRefs st !! socketId)).

(** A connection brings a socket id that is not in use; the events of a
    socket are handled between its connection and its disconnection. *)
Definition enabled (a : action) (st : Server) : bool :=
  match a with
  | connection s => negb (connected s st)
  | create_room s _ _ | join_room s _ | start_game s _ _ | make_guess s _
  | next_round s _ _ | disconnect s => connected s st
  | cleanup => true
  end.

Definition initial : Server := mkServer ∅ ∅.

Inductive reachable : Server -> Prop :=
  | reachable_initial : reachable initial
  | reachable_step st a st' out :
      reachable st -> enabled a st = true -> handle a st = Some (st', out) ->
      reachable st'.

(** Running a list of actions from a state; [None] when one of them is not
    enabled or does not complete. *)
Fixpoint run (acts : list action) (st : Server) : option Server :=
  match acts with
  | [] => Some st
  | a :: acts' =>
      if enabled a st
      then match handle a st with
           | Some (st', _) => run acts' st'
           | None => None
           end
      else None
  end.

(** ** Notions used in the statements *)

(** The label each member receives in [assignCharacters], in the order of
    the [forEach]. *)
Fixpoint assigned_from (shuffled : list Character) (index : nat)
    (playerIds : list string) : omap Character :=
  match playerIds with
  | [] => []
  | playerId :: rest =>
      (playerId, pick shuffled index) :: assigned_from shuffled (S index) rest
  end.

Definition assigned (rnd : nat -> nat) (room : Room) : omap Character :=
  assigned_from (shuffleArray rnd all_characters) 0 (okeys (players room)).

(** [playerId] is a current member of [room] and holds [character]. *)
Definition holds (room : Room) (playerId : string) (character : Character) : Prop :=
  playerId ∈ okeys (players room) /\
  oget playerId (characters (gameState room)) = Some character.

(** Exactly one current member holds [character]. *)
Definition one_holder (room : Room) (character : Character) : Prop :=
  exists playerId,
    holds room playerId character /\
    forall q, holds room q character -> q = playerId.

(** Every current member has a role and no role is given twice. *)
Definition roles_distinct (room : Room) : Prop :=
  (forall p, p ∈ okeys (players room) ->
     is_Some (oget p (characters (gameState room)))) /\
  (forall p q c, holds room p c -> holds room q c -> p = q).

(** What every room of the registry satisfies: it is stored under its own
    code, its member ids and the keys of [characters] are distinct (the
    containers are maps), it has at most [maxPlayers = 4] members and its
    host is one of them. *)
Record room_ok (c : string) (room : Room) : Prop := mk_room_ok {
  ok_code : code room = c;
  ok_players : NoDup (okeys (players room));
  ok_characters : NoDup (okeys (characters (gameState room)));
  ok_size : (osize (players room) <= 4)%nat;
  ok_maxPlayers : maxPlayers (settings room) = 4%nat;
  ok_host : hostId room ∈ okeys (players room)
}.

Definition server_ok (st : Server) : Prop :=
  forall c room, rooms st !! c = Some room -> room_ok c room.

(** ** Concrete runs *)

(** Draws of the shuffle: no swap at all, which leaves
    [Raja; Mantri; Chor; Sipahi]. *)
Definition rnd_keep (i : nat) : nat := i.

(** Draws that give [Sipahi; Chor; Mantri; Raja]. *)
Definition rnd_sipahi_first (i : nat) : nat :=
  match i with
  | 3%nat => 0%nat
  | _ => 1%nat
  end.

(** Draws that give [Raja; Sipahi; Mantri; Chor]. *)
Definition rnd_sipahi_second (i : nat) : nat :=
  match i with
  | 3%nat => 2%nat
  | _ => 1%nat
  end.

(** Draws that give [Raja; Mantri; Sipahi; Chor]. *)
Definition rnd_chor_last (i : nat) : nat :=
  match i with
  | 3%nat => 2%nat
  | 2%nat => 2%nat
  | _ => 1%nat
  end.

(** Alice creates room [ABC123] for three rounds and Bob joins. *)
Definition lobby_two : list action :=
  [connection "A";
   create_room "A" (mkHostData "Alice" "cat" (Some 3)) ["ABC123"];
   connection "B";
   join_room "B" (mkJoinData "ABC123" "Bob" "dog")].

Definition lobby_three : list action :=
  (lobby_two ++
   [connection "C"; join_room "C" (mkJoinData "ABC123" "Carol" "owl")])%list.

Definition lobby_four : list action :=
  (lobby_three ++
   [connection "D"; join_room "D" (mkJoinData "ABC123" "Dave" "fox")])%list.

(** The state a run ends in. *)
Definition state_after (acts : list action) : Server := default initial (run acts initial).

(** The room [ABC123] of a state. *)
Definition room_in (st : Server) : Room :=
  default (new_room "" "" (mkHostData "" "" None)) (rooms st !! "ABC123").

(** A game of two in which neither Sipahi nor Chor is handed out. *)
Definition game_without_sipahi : list action :=
  (lobby_two ++ [start_game "A" (mkStartData "ABC123" None) rnd_keep])%list.

(** A game of four, Alice being Sipahi and Bob Chor. *)
Definition game_of_four : list action :=
  (lobby_four ++ [start_game "A" (mkStartData "ABC123" None) rnd_sipahi_first])%list.

(** The entry of [pointChanges] under the key [k], read off the four
    stages of [calculateRoundResults]: the Raja and Mantri awards are
    written last, the Chor entry after the Sipahi entry, the zeroes of the
    members first. *)
Definition delta (room : Room) (suspected : option string) (k : string) : option Z :=
  let g := gameState room in
  let correct := bool_decide (suspected = chorId g) in
  match oget k (characters g) with
  | Some Raja => Some (points Raja)
  | Some Mantri => Some (points Mantri)
  | _ =>
      if String.eqb k (key_of (chorId g))
      then Some (if correct then points Chor else points Sipahi)
      else if String.eqb k (key_of (sipahiId g))
      then Some (if correct then points Sipahi else points Chor)
      else if bool_decide (k ∈ okeys (players room)) then Some 0 else None
  end.

(** Three players; in round 1 Alice is Sipahi and Bob is Chor, in round 2
    Bob is Sipahi and nobody is Chor, so [chorId] still names Bob. *)
Definition game_stale_chor : list action :=
  (lobby_three ++
   [start_game "A" (mkStartData "ABC123" None) rnd_sipahi_first;
    next_round "A" "ABC123" rnd_sipahi_second])%list.

(** The room after an accepted make-guess. *)
Definition guessed (room : Room) (suspected : option string) : Room :=
  let room1 := snd (calculateRoundResults room suspected) in
  set_gameState
    (set_roundResults (Some (fst (calculateRoundResults room suspected)))
       (gameState room1))
    room1.

(** The same socket sending one make-guess after the other. *)
Fixpoint guess_all (s c : string) (suspects : list (option string)) (st : Server)
    : Server :=
  match suspects with
  | [] => st
  | x :: rest => guess_all s c rest (fst (on_make_guess s (mkGuessData c x) st))
  end.

(** The sum over these guesses of the delta of [k]. *)
Fixpoint total_delta (room : Room) (suspects : list (option string)) (k : string) : Z :=
  match suspects with
  | [] => 0
  | x :: rest => default 0 (delta room x k) + total_delta room rest k
  end.

(** The preconditions under which [join-room] adds the caller. *)
Definition join_allowed (data : JoinData) (st : Server) : Prop :=
  exists room,
    rooms st !! jd_roomCode data = Some room /\
    (osize (players room) < maxPlayers (settings room))%nat /\
    status (gameState room) <> playing /\
    forall p, p ∈ ovalues (players room) -> name p <> jd_name data.

(** A game of two and one round, Alice being Sipahi and Bob Chor, advanced
    past its last round. *)
Definition game_finished_two : list action :=
  (lobby_two ++
   [start_game "A" (mkStartData "ABC123" (Some 1)) rnd_sipahi_first;
    next_round "A" "ABC123" rnd_keep])%list.

(** The keys of the scores are distinct and are ids of current members. *)
Definition scores_within (room : Room) : Prop :=
  NoDup (okeys (scores (gameState room))) /\
  forall k, k ∈ okeys (scores (gameState room)) -> k ∈ okeys (players room).

Definition is_make_guess (a : action) : bool :=
  match a with
  | make_guess _ _ => true
  | _ => false
  end.

(** A game of two, Alice being Sipahi and Bob Chor; Bob leaves. *)
Definition game_chor_left : list action :=
  (lobby_two ++
   [start_game "A" (mkStartData "ABC123" None) rnd_sipahi_first;
    disconnect "B"])%list.


(** ** Further notions *)

(** The draws of a shuffle of four elements: [a] at index 3, [b] at index
    2, [c] at index 1. *)
Definition draws3 (a b c : nat) (i : nat) : nat :=
  match i with
  | 3%nat => a
  | 2%nat => b
  | _ => c
  end.

(** The sum of the values of an object with numeric values. *)
Definition total (m : omap Z) : Z := fold_right Z.add 0 (map snd m).

(** More of what every room of the registry satisfies: display names are
    distinct, an entry of [players] carries its own key as [id], a member
    flagged [isHost] is the host, no score is negative, the round counter
    is at least 1 and the keys of the scores are distinct. *)
Record room_fine (room : Room) : Prop := mk_room_fine {
  fine_names : NoDup (map name (ovalues (players room)));
  fine_ids : Forall (fun e => id (snd e) = fst e) (players room);
  fine_flag :
    Forall (fun e => isHost (snd e) = true -> fst e = hostId room) (players room);
  fine_scores : Forall (fun e => 0 <= snd e) (scores (gameState room));
  fine_round : 1 <= currentRound (gameState room);
  fine_score_keys : NoDup (okeys (scores (gameState room)))
}.

Definition server_fine (st : Server) : Prop :=
  forall c room, rooms st !! c = Some room -> room_fine room.

(** The room recorded for a socket exists and has the socket as a member. *)
Definition refs_ok (st : Server) : Prop :=
  forall s ref c,
    playerRefs st !! s = Some ref -> roomCode ref = Some c ->
    exists room, rooms st !! c = Some room /\ s ∈ okeys (players room).

(** The counts reported by the [/health] endpoint: [rooms.size] and
    [players.size]. *)
Definition health (st : Server) : nat * nat :=
  (size (rooms st), size (playerRefs st)).

(** The socket whose event an action is; the clean-up timer has none. *)
Definition socket_of (a : action) : option string :=
  match a with
  | connection s | create_room s _ _ | join_room s _ | start_game s _ _
  | make_guess s _ | next_round s _ _ | disconnect s => Some s
  | cleanup => None
  end.

(** What one event may do to a room that stays in the registry: the code
    and the settings are kept, and a game that has left [waiting] does not
    return to it. *)
Definition room_step (r r' : Room) : Prop :=
  code r' = code r /\ settings r' = settings r /\
  (status (gameState r) <> waiting -> status (gameState r') <> waiting).

(** A game of four and one round, Alice being Sipahi, Bob Chor, Carol
    Mantri and Dave Raja, after Alice's right guess. *)
Definition game_last_round : list action :=
  (lobby_four ++
   [start_game "A" (mkStartData "ABC123" (Some 1)) rnd_sipahi_first;
    make_guess "A" (mkGuessData "ABC123" (Some "B"))])%list.


(** ** Reachable states *)

Lemma run_reachable acts st st' :
  reachable st -> run acts st = Some st' -> reachable st'.
Proof.
  revert st. induction acts as [|a acts IH]; simpl; intros st Hst Hrun.
  - congruence.
  - destruct (enabled a st) eqn:Hen; [|discriminate].
    destruct (handle a st) as [[st1 out]|] eqn:Hh; [|discriminate].
    eapply IH; [|exact Hrun]. eapply reachable_step; eauto.
Qed.

(** * Properties *)

(** ** Insertion-ordered maps *)

Section omap_facts.
Context {V : Type}.
Implicit Types (m : omap V) (k : string) (v : V).

Lemma oget_oset k k' v m :
  oget k' (oset k v m) = if String.eqb k' k then Some v else oget k' m.
Proof.
  induction m as [|[k0 v0] m IH]; simpl.
  - destruct (String.eqb_spec k' k); reflexivity.
  - destruct (String.eqb_spec k k0) as [->|Hne]; simpl.
    + destruct (String.eqb_spec k' k0); reflexivity.
    + rewrite IH. destruct (String.eqb_spec k' k0) as [->|Hne'].
      * destruct (String.eqb_spec k0 k); congruence.
      * reflexivity.
Qed.

Lemma oget_oset_eq k v m : oget k (oset k v m) = Some v.
Proof. rewrite oget_oset, String.eqb_refl. reflexivity. Qed.

Lemma oget_oset_ne k k' v m : k' <> k -> oget k' (oset k v m) = oget k' m.
Proof.
  intros Hne. rewrite oget_oset. destruct (String.eqb_spec k' k); congruence.
Qed.

Lemma oget_None k m : oget k m = None <-> k ∉ okeys m.
Proof.
  induction m as [|[k0 v0] m IH]; simpl.
  - split; [intros _; apply not_elem_of_nil | reflexivity].
  - rewrite not_elem_of_cons. destruct (String.eqb_spec k k0) as [->|Hne].
    + split; [discriminate | intros [? _]; congruence].
    + rewrite IH. tauto.
Qed.

Lemma oget_is_Some k m : is_Some (oget k m) <-> k ∈ okeys m.
Proof.
  rewrite <- not_eq_None_Some, oget_None.
  destruct (decide (k ∈ okeys m)); tauto.
Qed.

Lemma oget_Some_elem k v m : oget k m = Some v -> (k, v) ∈ m.
Proof.
  induction m as [|[k0 v0] m IH]; simpl; [discriminate|].
  destruct (String.eqb_spec k k0) as [->|Hne].
  - intros [= ->]. apply list_elem_of_here.
  - intros H. apply list_elem_of_further, IH, H.
Qed.

Lemma elem_okeys k v m : (k, v) ∈ m -> k ∈ okeys m.
Proof. intros H. apply (list_elem_of_fmap_2 fst) in H. exact H. Qed.

Lemma elem_oget k v m : NoDup (okeys m) -> (k, v) ∈ m -> oget k m = Some v.
Proof.
  induction m as [|[k0 v0] m IH]; simpl; intros Hnd Hin.
  - apply elem_of_nil in Hin. contradiction.
  - apply NoDup_cons in Hnd as [Hk0 Hnd]. apply elem_of_cons in Hin as [Heq|Hin].
    + injection Heq as -> ->. rewrite String.eqb_refl. reflexivity.
    + destruct (String.eqb_spec k k0) as [->|Hne]; [|auto].
      exfalso. apply Hk0. apply (list_elem_of_fmap_2 fst) in Hin. exact Hin.
Qed.

Lemma okeys_oset k v m :
  okeys (oset k v m) =
    match oget k m with Some _ => okeys m | None => (okeys m ++ [k])%list end.
Proof.
  unfold okeys. induction m as [|[k0 v0] m IH]; simpl; [reflexivity|].
  destruct (String.eqb_spec k k0) as [->|Hne]; simpl; [reflexivity|].
  rewrite IH. destruct (oget k m); reflexivity.
Qed.

Lemma elem_okeys_oset k k' v m : k' ∈ okeys (oset k v m) <-> k' = k \/ k' ∈ okeys m.
Proof.
  rewrite <- !oget_is_Some, oget_oset.
  destruct (String.eqb_spec k' k) as [->|Hne].
  - split; [auto | intros _; eexists; reflexivity].
  - split; [auto | intros [?|?]; [contradiction | assumption]].
Qed.

Lemma NoDup_oset k v m : NoDup (okeys m) -> NoDup (okeys (oset k v m)).
Proof.
  intros Hnd. rewrite okeys_oset. destruct (oget k m) eqn:Hg; [exact Hnd|].
  apply NoDup_app. split; [exact Hnd|]. split; [|apply NoDup_singleton].
  intros x Hx Hx'. apply list_elem_of_singleton in Hx' as ->.
  apply oget_None in Hg. contradiction.
Qed.

Lemma osize_oset k v m :
  osize (oset k v m) =
    match oget k m with Some _ => osize m | None => S (osize m) end.
Proof.
  unfold osize. rewrite <- !(length_map fst). fold (okeys m) (okeys (oset k v m)).
  rewrite okeys_oset. destruct (oget k m); [reflexivity|].
  rewrite length_app. simpl. lia.
Qed.

Lemma okeys_odel k m : okeys (odel k m) ⊆ okeys m.
Proof.
  induction m as [|[k0 v0] m IH]; simpl; [reflexivity|].
  destruct (String.eqb k k0); simpl; intros x Hx.
  - apply list_elem_of_further, Hx.
  - apply elem_of_cons in Hx as [->|Hx].
    + apply list_elem_of_here.
    + apply list_elem_of_further, IH, Hx.
Qed.

Lemma NoDup_odel k m : NoDup (okeys m) -> NoDup (okeys (odel k m)).
Proof.
  induction m as [|[k0 v0] m IH]; simpl; [auto|].
  intros Hnd. apply NoDup_cons in Hnd as [Hk0 Hnd].
  destruct (String.eqb k k0); simpl; [exact Hnd|].
  apply NoDup_cons. split; [|auto].
  intros Hin. apply Hk0. eapply okeys_odel, Hin.
Qed.

Lemma oget_odel_ne k k' m : k' <> k -> oget k' (odel k m) = oget k' m.
Proof.
  intros Hne. induction m as [|[k0 v0] m IH]; simpl; [reflexivity|].
  destruct (String.eqb_spec k k0) as [->|Hne0]; simpl.
  - destruct (String.eqb_spec k' k0); congruence.
  - rewrite IH. reflexivity.
Qed.

Lemma oget_odel_eq k m : NoDup (okeys m) -> oget k (odel k m) = None.
Proof.
  induction m as [|[k0 v0] m IH]; simpl; [reflexivity|].
  intros Hnd. apply NoDup_cons in Hnd as [Hk0 Hnd].
  destruct (String.eqb_spec k k0) as [->|Hne]; simpl.
  - apply oget_None. exact Hk0.
  - destruct (String.eqb_spec k k0); [contradiction|]. auto.
Qed.

Lemma elem_okeys_odel k k' m :
  NoDup (okeys m) -> k' ∈ okeys (odel k m) <-> k' <> k /\ k' ∈ okeys m.
Proof.
  intros Hnd. rewrite <- !oget_is_Some. destruct (decide (k' = k)) as [->|Hne].
  - rewrite oget_odel_eq by exact Hnd. split; [intros [? ?]; discriminate | tauto].
  - rewrite oget_odel_ne by exact Hne. tauto.
Qed.

Lemma osize_odel_le k m : (osize (odel k m) <= osize m)%nat.
Proof.
  unfold osize. induction m as [|[k0 v0] m IH]; simpl; [lia|].
  destruct (String.eqb k k0); simpl; lia.
Qed.

End omap_facts.

Section omap_folds.
Context {V : Type}.
Implicit Types (m : omap V) (k : string) (v : V).

(** Writing the entries of [l] one after the other. *)
Lemma oget_fold_oset (l : omap V) m k :
  NoDup (okeys l) ->
  oget k (fold_left (fun m e => oset (fst e) (snd e) m) l m) =
    match oget k l with Some v => Some v | None => oget k m end.
Proof.
  revert m. induction l as [|[k0 v0] l IH]; simpl; intros m Hnd; [reflexivity|].
  apply NoDup_cons in Hnd as [Hk0 Hnd]. rewrite IH by exact Hnd.
  destruct (String.eqb_spec k k0) as [->|Hne].
  - apply oget_None in Hk0. rewrite Hk0. apply oget_oset_eq.
  - rewrite oget_oset_ne by exact Hne. reflexivity.
Qed.

Lemma NoDup_fold_oset (l : omap V) m :
  NoDup (okeys m) ->
  NoDup (okeys (fold_left (fun m e => oset (fst e) (snd e) m) l m)).
Proof.
  revert m. induction l as [|e l IH]; simpl; intros m Hnd; [exact Hnd|].
  apply IH, NoDup_oset, Hnd.
Qed.

(** Writing one value under each of the keys [ks]. *)
Lemma oget_fold_const (ks : list string) v m k :
  oget k (fold_left (fun m k' => oset k' v m) ks m) =
    if bool_decide (k ∈ ks) then Some v else oget k m.
Proof.
  revert m. induction ks as [|k0 ks IH]; simpl; intros m; [reflexivity|].
  rewrite IH. destruct (decide (k = k0)) as [->|Hne].
  - rewrite oget_oset_eq, (bool_decide_eq_true_2 (k0 ∈ k0 :: ks)) by apply list_elem_of_here.
    destruct (bool_decide (k0 ∈ ks)); reflexivity.
  - rewrite oget_oset_ne by exact Hne.
    destruct (decide (k ∈ ks)) as [Hin|Hnin].
    + rewrite !bool_decide_eq_true_2; [reflexivity | apply list_elem_of_further, Hin | exact Hin].
    + rewrite !bool_decide_eq_false_2; [reflexivity | | exact Hnin].
      rewrite not_elem_of_cons. auto.
Qed.

Lemma NoDup_fold_const (ks : list string) v m :
  NoDup (okeys m) -> NoDup (okeys (fold_left (fun m k' => oset k' v m) ks m)).
Proof.
  revert m. induction ks as [|k0 ks IH]; simpl; intros m Hnd; [exact Hnd|].
  apply IH, NoDup_oset, Hnd.
Qed.

Lemma elem_okeys_fold_const (ks : list string) v m k :
  k ∈ okeys (fold_left (fun m k' => oset k' v m) ks m) <-> k ∈ ks \/ k ∈ okeys m.
Proof.
  rewrite <- !oget_is_Some, oget_fold_const.
  destruct (decide (k ∈ ks)) as [Hin|Hnin].
  - rewrite bool_decide_eq_true_2 by exact Hin. split; [auto | intros _; eexists; reflexivity].
  - rewrite bool_decide_eq_false_2 by exact Hnin. tauto.
Qed.
End omap_folds.

Lemma NoDup_snd_inj {A B} (l : list (A * B)) a1 a2 b :
  NoDup (map snd l) -> (a1, b) ∈ l -> (a2, b) ∈ l -> a1 = a2.
Proof.
  induction l as [|[a0 b0] l IH]; simpl; intros Hnd H1 H2.
  - apply elem_of_nil in H1. contradiction.
  - apply NoDup_cons in Hnd as [Hb0 Hnd].
    apply elem_of_cons in H1 as [H1|H1]; apply elem_of_cons in H2 as [H2|H2].
    + congruence.
    + injection H1 as -> ->. exfalso. apply Hb0.
      apply (list_elem_of_fmap_2 snd) in H2. exact H2.
    + injection H2 as -> ->. exfalso. apply Hb0.
      apply (list_elem_of_fmap_2 snd) in H1. exact H1.
    + auto.
Qed.

(** ** The shuffle *)

Section shuffle_facts.
Context {A : Type}.
Implicit Types (a : list A).

Lemma insert_head_Permutation a j x y :
  a !! j = Some y -> y :: <[j := x]> a ≡ₚ x :: a.
Proof.
  revert j. induction a as [|z a IH]; intros [|j]; simpl; try discriminate.
  - intros [= ->]. apply perm_swap.
  - intros Hj. rewrite (perm_swap z y), (IH _ Hj). apply perm_swap.
Qed.

Lemma swap_Permutation i j a : swap i j a ≡ₚ a.
Proof.
  unfold swap. destruct (a !! i) as [x|] eqn:Hi; [|reflexivity].
  destruct (a !! j) as [y|] eqn:Hj; [|reflexivity].
  revert i j Hi Hj. induction a as [|z a IH]; intros [|i] [|j]; simpl; try discriminate.
  - intros [= ->] [= ->]. reflexivity.
  - intros [= ->] Hj. apply insert_head_Permutation, Hj.
  - intros Hi [= ->]. apply insert_head_Permutation, Hi.
  - intros Hi Hj. apply perm_skip, IH; assumption.
Qed.

Lemma shuffle_loop_Permutation rnd i a : shuffle_loop rnd i a ≡ₚ a.
Proof.
  revert a. induction i as [|i IH]; simpl; intros a; [reflexivity|].
  rewrite IH. apply swap_Permutation.
Qed.

Lemma shuffleArray_Permutation rnd a : shuffleArray rnd a ≡ₚ a.
Proof. apply shuffle_loop_Permutation. Qed.
End shuffle_facts.

Lemma NoDup_all_characters : NoDup all_characters.
Proof. apply (bool_decide_unpack _). reflexivity. Qed.

Lemma shuffled_NoDup rnd : NoDup (shuffleArray rnd all_characters).
Proof.
  rewrite shuffleArray_Permutation. apply NoDup_all_characters.
Qed.

Lemma shuffled_length rnd : length (shuffleArray rnd all_characters) = 4%nat.
Proof. rewrite (Permutation_length (shuffleArray_Permutation rnd _)). reflexivity. Qed.

Lemma shuffled_elem rnd c : c ∈ shuffleArray rnd all_characters.
Proof.
  rewrite (shuffleArray_Permutation rnd all_characters).
  destruct c; apply (bool_decide_unpack _); reflexivity.
Qed.

(** ** Role assignment *)

Lemma okeys_assigned_from sh i ids : okeys (assigned_from sh i ids) = ids.
Proof.
  unfold okeys. revert i. induction ids as [|p ids IH]; simpl; intros i; [reflexivity|].
  rewrite IH. reflexivity.
Qed.

Lemma labels_assigned_from sh i ids :
  (i + length ids <= length sh)%nat ->
  map snd (assigned_from sh i ids) = take (length ids) (drop i sh).
Proof.
  revert i. induction ids as [|p ids IH]; simpl; intros i Hlen; [reflexivity|].
  unfold pick. destruct (sh !! i) as [c|] eqn:Hc.
  - rewrite (drop_S _ _ _ Hc). simpl. rewrite IH by lia. reflexivity.
  - apply lookup_ge_None in Hc. lia.
Qed.

Lemma assign_loop_characters sh i ids g :
  characters (assign_loop sh i ids g) =
    fold_left (fun m e => oset (fst e) (snd e) m) (assigned_from sh i ids) (characters g).
Proof.
  revert i g. induction ids as [|p ids IH]; simpl; intros i g; [reflexivity|].
  rewrite IH. destruct (pick sh i); reflexivity.
Qed.

(** The fields of the game state that the loop leaves alone. *)
Lemma assign_loop_frame sh i ids g :
  let g' := assign_loop sh i ids g in
  status g' = status g /\ currentRound g' = currentRound g /\
  totalRounds g' = totalRounds g /\ scores g' = scores g /\
  currentGuess g' = currentGuess g /\ roundResults g' = roundResults g.
Proof.
  revert i g. induction ids as [|p ids IH]; simpl; intros i g; [tauto|].
  specialize (IH (S i) (assign_one p (pick sh i) g)). simpl in IH.
  destruct IH as (-> & -> & -> & -> & -> & ->).
  destruct (pick sh i); simpl; tauto.
Qed.

(** A cached id is overwritten by the last member that receives the label,
    and kept when no member receives it. *)
Lemma assign_loop_sipahiId sh i ids g :
  let g' := assign_loop sh i ids g in
  ((forall p, (p, Sipahi) ∉ assigned_from sh i ids) /\ sipahiId g' = sipahiId g) \/
  (exists p, (p, Sipahi) ∈ assigned_from sh i ids /\ sipahiId g' = Some p).
Proof.
  revert i g. induction ids as [|p ids IH]; simpl; intros i g.
  - left. split; [intros p; apply not_elem_of_nil | reflexivity].
  - destruct (IH (S i) (assign_one p (pick sh i) g)) as [[Hno Heq]|(q & Hq & Heq)].
    + rewrite Heq. destruct (pick sh i) eqn:Hc; simpl.
      1-3: left; split; [|reflexivity]; intros q; rewrite not_elem_of_cons;
           split; [congruence | apply Hno].
      right. exists p. split; [apply list_elem_of_here | reflexivity].
    + right. exists q. split; [apply list_elem_of_further, Hq | exact Heq].
Qed.

Lemma assign_loop_chorId sh i ids g :
  let g' := assign_loop sh i ids g in
  ((forall p, (p, Chor) ∉ assigned_from sh i ids) /\ chorId g' = chorId g) \/
  (exists p, (p, Chor) ∈ assigned_from sh i ids /\ chorId g' = Some p).
Proof.
  revert i g. induction ids as [|p ids IH]; simpl; intros i g.
  - left. split; [intros p; apply not_elem_of_nil | reflexivity].
  - destruct (IH (S i) (assign_one p (pick sh i) g)) as [[Hno Heq]|(q & Hq & Heq)].
    + rewrite Heq. destruct (pick sh i) eqn:Hc; simpl.
      3: right; exists p; split; [apply list_elem_of_here | reflexivity].
      all: left; split; [|reflexivity]; intros q; rewrite not_elem_of_cons;
           split; [congruence | apply Hno].
    + right. exists q. split; [apply list_elem_of_further, Hq | exact Heq].
Qed.

(** With distinct member ids, a member's entry of [characters] after the
    assignment is the label it received. *)
Lemma assigned_characters rnd room p :
  NoDup (okeys (players room)) ->
  p ∈ okeys (players room) ->
  oget p (characters (gameState (assignCharacters rnd room))) = oget p (assigned rnd room)
  /\ is_Some (oget p (assigned rnd room)).
Proof.
  intros Hnd Hp. unfold assignCharacters, assigned. simpl.
  assert (Hs : is_Some (oget p (assigned_from (shuffleArray rnd all_characters) 0
                                  (okeys (players room))))).
  { apply oget_is_Some. rewrite okeys_assigned_from. exact Hp. }
  split; [|exact Hs].
  rewrite assign_loop_characters, oget_fold_oset.
  - destruct Hs as [c ->]. reflexivity.
  - rewrite okeys_assigned_from. exact Hnd.
Qed.

(** With at most four members the labels handed out are pairwise distinct. *)
Lemma assigned_labels_NoDup rnd room :
  (osize (players room) <= 4)%nat -> NoDup (map snd (assigned rnd room)).
Proof.
  intros Hsz. unfold assigned. rewrite labels_assigned_from.
  - rewrite drop_0. eapply sublist_NoDup; [apply shuffled_NoDup | apply sublist_take].
  - rewrite shuffled_length. unfold okeys. rewrite length_map. exact Hsz.
Qed.

(** With exactly four members every label is handed out. *)
Lemma assigned_labels_full rnd room c :
  osize (players room) = 4%nat -> exists p, (p, c) ∈ assigned rnd room.
Proof.
  intros Hsz.
  assert (Hc : c ∈ map snd (assigned rnd room)).
  { unfold assigned. rewrite labels_assigned_from.
    - rewrite drop_0. unfold okeys. rewrite length_map. unfold osize in Hsz. rewrite Hsz.
      rewrite <- (shuffled_length rnd), firstn_all. apply shuffled_elem.
    - rewrite shuffled_length. unfold okeys. rewrite length_map. unfold osize in Hsz. lia. }
  apply list_elem_of_fmap in Hc as ([p c'] & -> & Hin). exists p. exact Hin.
Qed.

(** ** The invariant of the registry *)

Lemma fresh_code_spec rs draws c :
  fresh_code rs draws = Some c -> c ∈ draws /\ rs !! c = None.
Proof.
  induction draws as [|d draws IH]; simpl; [discriminate|].
  destruct (rs !! d) eqn:Hd.
  - intros H. destruct (IH H) as [Hin Hc]. split; [apply list_elem_of_further, Hin | exact Hc].
  - intros [= <-]. split; [apply list_elem_of_here | exact Hd].
Qed.

Lemma fresh_code_complete rs draws c :
  c ∈ draws -> rs !! c = None -> is_Some (fresh_code rs draws).
Proof.
  induction draws as [|d draws IH]; simpl; intros Hin Hc.
  - apply elem_of_nil in Hin. contradiction.
  - destruct (rs !! d) eqn:Hd; [|eexists; reflexivity].
    apply elem_of_cons in Hin as [->|Hin]; [congruence | auto].
Qed.

Lemma new_room_ok c h data : room_ok c (new_room c h data).
Proof.
  split; simpl; try reflexivity.
  - apply NoDup_singleton.
  - apply NoDup_nil_2.
  - lia.
  - apply list_elem_of_here.
Qed.

Lemma server_ok_insert c room (rs : gmap string Room) pr :
  (forall c' r', rs !! c' = Some r' -> room_ok c' r') ->
  room_ok c room ->
  server_ok (mkServer (<[c := room]> rs) pr).
Proof.
  intros Hst Hroom c' r'. simpl. rewrite lookup_insert.
  destruct (decide (c = c')) as [->|Hne]; [intros [= <-]; exact Hroom | apply Hst].
Qed.

Lemma assignCharacters_ok rnd c room : room_ok c room -> room_ok c (assignCharacters rnd room).
Proof.
  intros [H1 H2 H3 H4 H5 H6]. split; simpl; try assumption.
  rewrite assign_loop_characters. apply NoDup_fold_oset, H3.
Qed.

Lemma okeys_promote h (ps : omap Player) : okeys (promote h ps) = okeys ps.
Proof.
  unfold promote. destruct (oget h ps) eqn:Hh; [|reflexivity].
  rewrite okeys_oset, Hh. reflexivity.
Qed.

Lemma on_create_room_ok draws s data st st' out :
  server_ok st -> on_create_room draws s data st = Some (st', out) -> server_ok st'.
Proof.
  intros Hst. unfold on_create_room, createRoom.
  destruct (fresh_code (rooms st) draws) as [c|] eqn:Hc; [|discriminate]. simpl.
  destruct (playerRefs st !! s); intros [= <- <-];
    apply server_ok_insert; auto using new_room_ok.
Qed.

Lemma on_join_room_ok s data st : server_ok st -> server_ok (fst (on_join_room s data st)).
Proof.
  intros Hst. unfold on_join_room.
  destruct (rooms st !! jd_roomCode data) as [room|] eqn:Hroom; [|exact Hst].
  destruct (Nat.leb_spec (maxPlayers (settings room)) (osize (players room)));
    [exact Hst|].
  destruct (bool_decide _); [exact Hst|].
  destruct (List.find _ _); [exact Hst|].
  destruct (Hst _ _ Hroom) as [H1 H2 H3 H4 H5 H6].
  assert (Hok : room_ok (jd_roomCode data)
            (set_gameState
               (set_scores (oset s 0 (scores (gameState room))) (gameState room))
               (set_players
                  (oset s (mkPlayer s (jd_name data) (jd_avatar data) false true)
                     (players room)) room))).
  { split; simpl; try assumption.
    - apply NoDup_oset, H2.
    - rewrite osize_oset. destruct (oget s (players room)); lia.
    - apply elem_okeys_oset. right. exact H6. }
  simpl. destruct (playerRefs st !! s); simpl; apply server_ok_insert; auto.
Qed.

Lemma on_start_game_ok rnd s data st :
  server_ok st -> server_ok (fst (on_start_game rnd s data st)).
Proof.
  intros Hst. unfold on_start_game.
  destruct (rooms st !! sd_roomCode data) as [room|] eqn:Hroom; [|exact Hst].
  destruct (negb _); [exact Hst|]. destruct (_ <? _)%nat; [exact Hst|].
  simpl. apply server_ok_insert; [exact Hst|].
  apply assignCharacters_ok. destruct (Hst _ _ Hroom) as [H1 H2 H3 H4 H5 H6].
  split; simpl; assumption.
Qed.

Lemma on_make_guess_ok s data st : server_ok st -> server_ok (fst (on_make_guess s data st)).
Proof.
  intros Hst. unfold on_make_guess.
  destruct (rooms st !! gd_roomCode data) as [room|] eqn:Hroom; [|exact Hst].
  destruct (negb _); [exact Hst|].
  simpl. apply server_ok_insert; [exact Hst|].
  destruct (Hst _ _ Hroom) as [H1 H2 H3 H4 H5 H6]. split; simpl; assumption.
Qed.

Lemma on_next_round_ok rnd s c st : server_ok st -> server_ok (fst (on_next_round rnd s c st)).
Proof.
  intros Hst. unfold on_next_round.
  destruct (rooms st !! c) as [room|] eqn:Hroom; [|exact Hst].
  destruct (negb _); [exact Hst|].
  destruct (Hst _ _ Hroom) as [H1 H2 H3 H4 H5 H6].
  simpl. destruct (_ <? _); simpl; (apply server_ok_insert; [exact Hst|]).
  - split; simpl; assumption.
  - apply assignCharacters_ok. split; simpl; assumption.
Qed.

Lemma room_of_Some s st c room :
  room_of s st = Some (c, room) -> c <> "" /\ rooms st !! c = Some room.
Proof.
  unfold room_of. destruct (playerRefs st !! s) as [p|]; [|discriminate].
  destruct (roomCode p) as [c'|]; [|discriminate].
  destruct (String.eqb_spec c' ""); [discriminate|].
  destruct (rooms st !! c') eqn:Hc; [|discriminate].
  intros [= <- <-]. auto.
Qed.

Lemma on_disconnect_ok s st : server_ok st -> server_ok (fst (on_disconnect s st)).
Proof.
  intros Hst. unfold on_disconnect.
  destruct (room_of s st) as [[c room]|] eqn:Hro; [|exact Hst].
  apply room_of_Some in Hro as [_ Hroom].
  destruct (Hst _ _ Hroom) as [H1 H2 H3 H4 H5 H6]. simpl.
  destruct (String.eqb_spec (hostId room) s) as [Hh|Hh].
  - destruct (okeys (odel s (players room))) as [|h ks] eqn:Hks; simpl.
    + intros c' r'. simpl. rewrite lookup_delete.
      destruct (decide (c = c')); [discriminate | apply Hst].
    + apply server_ok_insert; [exact Hst|]. split; simpl; try assumption.
      * rewrite okeys_promote. apply NoDup_odel, H2.
      * unfold osize. rewrite <- (length_map fst). fold (okeys (promote h (odel s (players room)))).
        rewrite okeys_promote. unfold okeys. rewrite length_map.
        pose proof (osize_odel_le s (players room)) as Hle. unfold osize in *. lia.
      * rewrite okeys_promote, Hks. apply list_elem_of_here.
  - simpl. apply server_ok_insert; [exact Hst|]. split; simpl; try assumption.
    + apply NoDup_odel, H2.
    + pose proof (osize_odel_le s (players room)). lia.
    + apply elem_okeys_odel; [exact H2|]. split; [exact Hh | exact H6].
Qed.

Lemma on_cleanup_ok st : server_ok st -> server_ok (fst (on_cleanup st)).
Proof.
  intros Hst c room. simpl. intros H.
  apply map_lookup_filter_Some in H as [H _]. apply Hst, H.
Qed.

Lemma handle_ok a st st' out : server_ok st -> handle a st = Some (st', out) -> server_ok st'.
Proof.
  intros Hst. destruct a; simpl.
  - intros [= <- <-]. exact Hst.
  - apply on_create_room_ok, Hst.
  - intros H. injection H as H. rewrite (surjective_pairing (on_join_room _ _ _)) in H.
    injection H as <- _. apply on_join_room_ok, Hst.
  - intros H. injection H as H. rewrite (surjective_pairing (on_start_game _ _ _ _)) in H.
    injection H as <- _. apply on_start_game_ok, Hst.
  - intros H. injection H as H. rewrite (surjective_pairing (on_make_guess _ _ _)) in H.
    injection H as <- _. apply on_make_guess_ok, Hst.
  - intros H. injection H as H. rewrite (surjective_pairing (on_next_round _ _ _ _)) in H.
    injection H as <- _. apply on_next_round_ok, Hst.
  - intros H. injection H as H. rewrite (surjective_pairing (on_disconnect _ _)) in H.
    injection H as <- _. apply on_disconnect_ok, Hst.
  - intros [= <- <-]. apply on_cleanup_ok, Hst.
Qed.

Lemma reachable_ok st : reachable st -> server_ok st.
Proof.
  induction 1 as [|st a st' out _ IH _ Hh].
  - intros c room. simpl. rewrite lookup_empty. discriminate.
  - eapply handle_ok; eauto.
Qed.

Lemma state_after_reachable acts :
  is_Some (run acts initial) -> reachable (state_after acts).
Proof.
  intros [st Hst]. apply (run_reachable acts initial); [constructor|].
  unfold state_after. rewrite Hst. reflexivity.
Qed.

Lemma shuffle_keep : shuffleArray rnd_keep all_characters = [Raja; Mantri; Chor; Sipahi].
Proof. reflexivity. Qed.

Lemma shuffle_chor_last :
  shuffleArray rnd_chor_last all_characters = [Raja; Mantri; Sipahi; Chor].
Proof. reflexivity. Qed.

(** When the last label of the shuffle is [c] and fewer than four members
    are present, nobody receives [c]. *)
Lemma assigned_from_short c0 c1 c2 c ids p :
  c0 <> c -> c1 <> c -> c2 <> c -> (length ids < 4)%nat ->
  (p, c) ∉ assigned_from [c0; c1; c2; c] 0 ids.
Proof.
  intros H0 H1 H2 Hlen Hin.
  destruct ids as [|p0 [|p1 [|p2 [|p3 ids]]]]; simpl in *; try lia;
    unfold pick in Hin; simpl in Hin;
    repeat (apply elem_of_cons in Hin as [Hin|Hin]; [congruence|]);
    apply elem_of_nil in Hin; contradiction.
Qed.

(** C10.  [assignCharacters] overwrites [sipahiId] (respectively [chorId])
    only when some current member receives the Sipahi (Chor) label, and
    then with a member that received it; when no member receives the
    label, which can happen with fewer than four members, the cached id
    keeps its previous value.  Every field of the room and of its game
    state other than [characters], [sipahiId] and [chorId] is left as it
    was. *)
Theorem C10_assignCharacters_frame rnd room :
  let room' := assignCharacters rnd room in
  let g := gameState room in
  let g' := gameState room' in
  (((forall p, (p, Sipahi) ∉ assigned rnd room) /\ sipahiId g' = sipahiId g) \/
   (exists p, (p, Sipahi) ∈ assigned rnd room /\ sipahiId g' = Some p)) /\
  (((forall p, (p, Chor) ∉ assigned rnd room) /\ chorId g' = chorId g) \/
   (exists p, (p, Chor) ∈ assigned rnd room /\ chorId g' = Some p)) /\
  ((osize (players room) < 4)%nat ->
     (exists rnd0, forall p, (p, Sipahi) ∉ assigned rnd0 room) /\
     (exists rnd0, forall p, (p, Chor) ∉ assigned rnd0 room)) /\
  code room' = code room /\ hostId room' = hostId room /\
  players room' = players room /\ settings room' = settings room /\
  status g' = status g /\ currentRound g' = currentRound g /\
  totalRounds g' = totalRounds g /\ scores g' = scores g /\
  currentGuess g' = currentGuess g /\ roundResults g' = roundResults g.
Proof.
  simpl. split; [apply assign_loop_sipahiId|]. split; [apply assign_loop_chorId|].
  split.
  - intros Hsz. unfold osize in Hsz. rewrite <- (length_map fst) in Hsz.
    split.
    + exists rnd_keep. intros p. unfold assigned. rewrite shuffle_keep.
      apply assigned_from_short; [discriminate..|exact Hsz].
    + exists rnd_chor_last. intros p. unfold assigned. rewrite shuffle_chor_last.
      apply assigned_from_short; [discriminate..|exact Hsz].
  - repeat (split; [reflexivity|]). apply assign_loop_frame.
Qed.

(** Role assignment over at most four distinct members. *)
Lemma assignCharacters_roles rnd room :
  NoDup (okeys (players room)) -> (osize (players room) <= 4)%nat ->
  let room' := assignCharacters rnd room in
  roles_distinct room' /\
  (forall p c, holds room' p c <-> (p, c) ∈ assigned rnd room).
Proof.
  intros Hnd Hsz. simpl.
  assert (Hholds : forall p c,
             holds (assignCharacters rnd room) p c <-> (p, c) ∈ assigned rnd room).
  { intros p c. unfold holds. simpl. split.
    - intros [Hp Hc]. destruct (assigned_characters rnd room p Hnd Hp) as [Heq _].
      simpl in Heq. rewrite Heq in Hc. apply oget_Some_elem, Hc.
    - intros Hin.
      assert (Hp : p ∈ okeys (players room)).
      { apply elem_okeys in Hin. unfold assigned in Hin.
        rewrite okeys_assigned_from in Hin. exact Hin. }
      split; [exact Hp|]. destruct (assigned_characters rnd room p Hnd Hp) as [Heq _].
      simpl in Heq. rewrite Heq. apply elem_oget; [|exact Hin].
      unfold assigned. rewrite okeys_assigned_from. exact Hnd. }
  split; [|exact Hholds]. split.
  - intros p Hp. destruct (assigned_characters rnd room p Hnd Hp) as [Heq Hs].
    simpl in *. rewrite Heq. exact Hs.
  - intros p q c Hp Hq. apply Hholds in Hp, Hq.
    eapply NoDup_snd_inj; [apply (assigned_labels_NoDup rnd room Hsz) | exact Hp | exact Hq].
Qed.

(** The room that start-game stores is the result of [assignCharacters] on
    a playing room with the membership of the room it found. *)
Lemma on_start_game_assigns rnd s data st room :
  rooms st !! sd_roomCode data = Some room ->
  hostId room = s -> (2 <= osize (players room))%nat ->
  exists room0,
    players room0 = players room /\ status (gameState room0) = playing /\
    fst (on_start_game rnd s data st) =
      update_room (sd_roomCode data) (assignCharacters rnd room0) st.
Proof.
  intros Hroom Hhost Hsz. unfold on_start_game. rewrite Hroom, Hhost, String.eqb_refl.
  destruct (Nat.ltb_spec (osize (players room)) 2) as [Hlt|_]; [lia|]. simpl.
  eexists. split; [|split; [|reflexivity]]; reflexivity.
Qed.

(** C1 (amended).  In every room the server can hold, a role assignment
    gives each current member exactly one role and gives no role to two
    members.  With exactly four members exactly one member holds Sipahi and
    exactly one holds Chor, and they are the ones cached in [sipahiId] and
    [chorId].  ([room0] is the room at the call of [assignCharacters]:
    start-game and next-round first update status, round counter and
    scores, never the membership.) *)
Theorem C1_roles_after_assignment st c room room0 rnd :
  reachable st -> rooms st !! c = Some room -> players room0 = players room ->
  let room' := assignCharacters rnd room0 in
  roles_distinct room' /\
  (osize (players room) = 4%nat ->
     one_holder room' Sipahi /\ one_holder room' Chor /\
     (exists p, sipahiId (gameState room') = Some p /\ holds room' p Sipahi) /\
     (exists p, chorId (gameState room') = Some p /\ holds room' p Chor)).
Proof.
  intros Hreach Hroom Hplayers.
  destruct (reachable_ok st Hreach c room Hroom) as [_ Hnd _ Hsz _ _].
  rewrite <- Hplayers in Hnd, Hsz.
  destruct (assignCharacters_roles rnd room0 Hnd Hsz) as [Hdist Hholds].
  simpl in *. split; [exact Hdist|]. intros H4. rewrite <- Hplayers in H4.
  assert (Hone : forall ch, one_holder (assignCharacters rnd room0) ch).
  { intros ch. destruct (assigned_labels_full rnd room0 ch H4) as [p Hp].
    exists p. split; [apply Hholds, Hp|]. intros q Hq.
    destruct Hdist as [_ Hinj]. eapply Hinj; [exact Hq | apply Hholds, Hp]. }
  split; [apply Hone|]. split; [apply Hone|]. split.
  - destruct (assign_loop_sipahiId (shuffleArray rnd all_characters) 0
                (okeys (players room0)) (gameState room0)) as [[Hno _]|(p & Hp & Heq)].
    + destruct (assigned_labels_full rnd room0 Sipahi H4) as [p Hp].
      exfalso. exact (Hno p Hp).
    + exists p. split; [exact Heq | apply Hholds, Hp].
  - destruct (assign_loop_chorId (shuffleArray rnd all_characters) 0
                (okeys (players room0)) (gameState room0)) as [[Hno _]|(p & Hp & Heq)].
    + destruct (assigned_labels_full rnd room0 Chor H4) as [p Hp].
      exfalso. exact (Hno p Hp).
    + exists p. split; [exact Heq | apply Hholds, Hp].
Qed.

Lemma C1_roles_after_assignment_witness :
  let room := room_in (state_after lobby_four) in
  let room' := assignCharacters rnd_sipahi_first room in
  roles_distinct room' /\
  (osize (players room) = 4%nat ->
     one_holder room' Sipahi /\ one_holder room' Chor /\
     (exists p, sipahiId (gameState room') = Some p /\ holds room' p Sipahi) /\
     (exists p, chorId (gameState room') = Some p /\ holds room' p Chor)).
Proof.
  apply (C1_roles_after_assignment (state_after lobby_four) "ABC123").
  - apply state_after_reachable. vm_compute. eexists. reflexivity.
  - vm_compute. reflexivity.
  - reflexivity.
Defined.

(** C1, as stated, fails: after a start-game with two members and a shuffle
    that leaves Sipahi in the last position, the room is playing, has two
    members, and no member holds Sipahi. *)
Lemma C1_counterexample :
  let st := state_after game_without_sipahi in
  let room := room_in st in
  reachable st /\ rooms st !! "ABC123" = Some room /\
  status (gameState room) = playing /\ (2 <= osize (players room))%nat /\
  ~ one_holder room Sipahi.
Proof.
  simpl. split; [apply state_after_reachable; vm_compute; eexists; reflexivity|].
  split; [vm_compute; reflexivity|]. split; [vm_compute; reflexivity|].
  split; [vm_compute; lia|].
  intros (p & [Hp Hc] & _). revert Hp Hc. vm_compute. intros Hp.
  repeat (apply elem_of_cons in Hp as [->|Hp]; [discriminate|]).
  apply elem_of_nil in Hp. contradiction.
Qed.

(** ** Round results *)

Lemma oget_fold_award (chars : omap Character) (pc : omap Z) k :
  NoDup (okeys chars) ->
  oget k (fold_left award chars pc) =
    match oget k chars with
    | Some Raja => Some (points Raja)
    | Some Mantri => Some (points Mantri)
    | _ => oget k pc
    end.
Proof.
  revert pc. induction chars as [|[k0 c0] chars IH]; simpl; intros pc Hnd; [reflexivity|].
  apply NoDup_cons in Hnd as [Hk0 Hnd]. rewrite IH by exact Hnd.
  destruct (String.eqb_spec k k0) as [->|Hne].
  - apply oget_None in Hk0. rewrite Hk0.
    destruct c0; unfold award; simpl; rewrite ?oget_oset_eq; reflexivity.
  - destruct (oget k chars) as [[]|]; try reflexivity;
      destruct c0; unfold award; simpl; rewrite ?oget_oset_ne by exact Hne; reflexivity.
Qed.

Lemma NoDup_fold_award (chars : omap Character) (pc : omap Z) :
  NoDup (okeys pc) -> NoDup (okeys (fold_left award chars pc)).
Proof.
  revert pc. induction chars as [|[k0 c0] chars IH]; simpl; intros pc Hnd; [exact Hnd|].
  apply IH. destruct c0; unfold award; simpl; auto using NoDup_oset.
Qed.

Lemma point_changes_delta room suspected k :
  NoDup (okeys (characters (gameState room))) ->
  oget k (point_changes room suspected) = delta room suspected k.
Proof.
  intros Hnd. unfold point_changes, delta. rewrite oget_fold_award by exact Hnd.
  assert (Hrest :
    oget k
      (if bool_decide (suspected = chorId (gameState room))
       then oset (key_of (chorId (gameState room))) (points Chor)
              (oset (key_of (sipahiId (gameState room))) (points Sipahi)
                 (fold_left (fun pc playerId => oset playerId 0 pc)
                    (okeys (players room)) []))
       else oset (key_of (chorId (gameState room))) (points Sipahi)
              (oset (key_of (sipahiId (gameState room))) (points Chor)
                 (fold_left (fun pc playerId => oset playerId 0 pc)
                    (okeys (players room)) []))) =
    if String.eqb k (key_of (chorId (gameState room)))
    then Some (if bool_decide (suspected = chorId (gameState room))
               then points Chor else points Sipahi)
    else if String.eqb k (key_of (sipahiId (gameState room)))
    then Some (if bool_decide (suspected = chorId (gameState room))
               then points Sipahi else points Chor)
    else if bool_decide (k ∈ okeys (players room)) then Some 0 else None).
  { destruct (bool_decide (suspected = chorId (gameState room)));
      rewrite !oget_oset, oget_fold_const; simpl;
      destruct (String.eqb k (key_of (chorId (gameState room))));
      destruct (String.eqb k (key_of (sipahiId (gameState room))));
      reflexivity. }
  rewrite Hrest. reflexivity.
Qed.

Lemma point_changes_NoDup room suspected : NoDup (okeys (point_changes room suspected)).
Proof.
  unfold point_changes. apply NoDup_fold_award.
  destruct (bool_decide _); repeat apply NoDup_oset; apply NoDup_fold_const, NoDup_nil_2.
Qed.

(** The scores after "Update actual scores". *)
Lemma oget_fold_add_points (pc sc : omap Z) k :
  NoDup (okeys pc) ->
  oget k (fold_left add_points pc sc) =
    match oget k pc with
    | Some d => Some (or_default (oget k sc) 0 + d)
    | None => oget k sc
    end.
Proof.
  revert sc. induction pc as [|[k0 d0] pc IH]; simpl; intros sc Hnd; [reflexivity|].
  apply NoDup_cons in Hnd as [Hk0 Hnd]. rewrite IH by exact Hnd.
  unfold add_points. simpl.
  destruct (String.eqb_spec k k0) as [->|Hne].
  - apply oget_None in Hk0. rewrite Hk0. apply oget_oset_eq.
  - rewrite oget_oset_ne by exact Hne. reflexivity.
Qed.

(** C2 (amended).  In a room the server can hold whose cached [sipahiId]
    and [chorId] name the ids that hold Sipahi and Chor in [characters], a
    guess resolution gives the Sipahi 700 and the Chor 0 when the suspected
    id is the Chor's, and the Sipahi 0 and the Chor 700 otherwise; every id
    holding Raja or Mantri in [characters] receives 2000 or 900; every other
    current member receives 0; the score of every id with a delta becomes
    its old score (0 when missing) plus the delta, the other scores are
    untouched, and nothing but the scores changes in the room. *)
Theorem C2_round_deltas st c room suspected s ch :
  reachable st -> rooms st !! c = Some room ->
  sipahiId (gameState room) = Some s -> chorId (gameState room) = Some ch ->
  oget s (characters (gameState room)) = Some Sipahi ->
  oget ch (characters (gameState room)) = Some Chor ->
  let results := fst (calculateRoundResults room suspected) in
  let room' := snd (calculateRoundResults room suspected) in
  let pc := pointChanges results in
  let chars := characters (gameState room) in
  isCorrectGuess results = bool_decide (suspected = Some ch) /\
  (suspected = Some ch -> oget s pc = Some 700 /\ oget ch pc = Some 0) /\
  (suspected <> Some ch -> oget s pc = Some 0 /\ oget ch pc = Some 700) /\
  (forall p, oget p chars = Some Raja -> oget p pc = Some 2000) /\
  (forall p, oget p chars = Some Mantri -> oget p pc = Some 900) /\
  (forall p, p ∈ okeys (players room) -> p <> s -> p <> ch ->
     oget p chars <> Some Raja -> oget p chars <> Some Mantri ->
     oget p pc = Some 0) /\
  (forall p d, oget p pc = Some d ->
     oget p (scores (gameState room')) =
       Some (or_default (oget p (scores (gameState room))) 0 + d)) /\
  (forall p, oget p pc = None ->
     oget p (scores (gameState room')) = oget p (scores (gameState room))) /\
  room' = set_gameState (set_scores (scores (gameState room')) (gameState room)) room.
Proof.
  intros Hreach Hroom Hs Hch Hcs Hcc.
  destruct (reachable_ok st Hreach c room Hroom) as [_ _ Hnd _ _ _].
  simpl.
  assert (Hne : s <> ch) by (intros ->; congruence).
  assert (Hd : forall k, oget k (point_changes room suspected) = delta room suspected k)
    by (intros k; apply point_changes_delta, Hnd).
  split; [rewrite Hch; reflexivity|].
  split; [|split; [|split; [|split; [|split; [|split; [|split]]]]]].
  - intros ->. rewrite !Hd. unfold delta. rewrite Hcs, Hcc, Hch, Hs. simpl.
    rewrite !String.eqb_refl, bool_decide_eq_true_2 by reflexivity.
    destruct (String.eqb_spec s ch); [contradiction|]. split; reflexivity.
  - intros Hsus. rewrite !Hd. unfold delta. rewrite Hcs, Hcc, Hch, Hs. simpl.
    rewrite !String.eqb_refl, bool_decide_eq_false_2 by exact Hsus.
    destruct (String.eqb_spec s ch); [contradiction|]. split; reflexivity.
  - intros p Hp. rewrite Hd. unfold delta. rewrite Hp. reflexivity.
  - intros p Hp. rewrite Hd. unfold delta. rewrite Hp. reflexivity.
  - intros p Hp Hps Hpc HR HM. rewrite Hd. unfold delta. rewrite Hch, Hs. simpl.
    destruct (String.eqb_spec p ch); [contradiction|].
    destruct (String.eqb_spec p s); [contradiction|].
    rewrite bool_decide_eq_true_2 by exact Hp.
    destruct (oget p (characters (gameState room))) as [[]|]; congruence.
  - intros p d Hp. rewrite oget_fold_add_points by apply point_changes_NoDup.
    rewrite Hp. reflexivity.
  - intros p Hp. rewrite oget_fold_add_points by apply point_changes_NoDup.
    rewrite Hp. reflexivity.
  - reflexivity.
Qed.

Lemma C2_round_deltas_witness :
  let room := room_in (state_after game_of_four) in
  let results := fst (calculateRoundResults room (Some "B")) in
  let room' := snd (calculateRoundResults room (Some "B")) in
  let pc := pointChanges results in
  let chars := characters (gameState room) in
  isCorrectGuess results = bool_decide (Some "B" = Some "B") /\
  (Some "B" = Some "B" -> oget "A" pc = Some 700 /\ oget "B" pc = Some 0) /\
  (Some "B" <> Some "B" -> oget "A" pc = Some 0 /\ oget "B" pc = Some 700) /\
  (forall p, oget p chars = Some Raja -> oget p pc = Some 2000) /\
  (forall p, oget p chars = Some Mantri -> oget p pc = Some 900) /\
  (forall p, p ∈ okeys (players room) -> p <> "A" -> p <> "B" ->
     oget p chars <> Some Raja -> oget p chars <> Some Mantri ->
     oget p pc = Some 0) /\
  (forall p d, oget p pc = Some d ->
     oget p (scores (gameState room')) =
       Some (or_default (oget p (scores (gameState room))) 0 + d)) /\
  (forall p, oget p pc = None ->
     oget p (scores (gameState room')) = oget p (scores (gameState room))) /\
  room' = set_gameState (set_scores (scores (gameState room')) (gameState room)) room.
Proof.
  apply (C2_round_deltas (state_after game_of_four) "ABC123").
  - apply state_after_reachable. vm_compute. eexists. reflexivity.
  - vm_compute. reflexivity.
  - vm_compute. reflexivity.
  - vm_compute. reflexivity.
  - vm_compute. reflexivity.
  - vm_compute. reflexivity.
Defined.

(** C2, as stated, fails: in a reachable room Bob holds Sipahi and is the
    cached [sipahiId], the suspected id ["A"] differs from [chorId], and
    yet the Sipahi's delta is 700, not 0 ([chorId] is a leftover of the
    previous round and names Bob too). *)
Lemma C2_counterexample :
  let st := state_after game_stale_chor in
  let room := room_in st in
  reachable st /\ rooms st !! "ABC123" = Some room /\
  holds room "B" Sipahi /\ sipahiId (gameState room) = Some "B" /\
  Some "A" <> chorId (gameState room) /\
  oget "B" (pointChanges (fst (calculateRoundResults room (Some "A")))) = Some 700.
Proof.
  simpl. split; [apply state_after_reachable; vm_compute; eexists; reflexivity|].
  split; [vm_compute; reflexivity|].
  split; [split; [apply (bool_decide_unpack _) | ]; vm_compute; reflexivity|].
  split; [vm_compute; reflexivity|].
  split; [vm_compute; discriminate | vm_compute; reflexivity].
Qed.

(** ** The make-guess handler *)

Lemma on_make_guess_reject s data st :
  (forall room, rooms st !! gd_roomCode data = Some room ->
     sipahiId (gameState room) <> Some s) ->
  on_make_guess s data st =
    (st, [(ToSocket s, error "Not your turn or invalid room")]).
Proof.
  intros Hno. unfold on_make_guess.
  destruct (rooms st !! gd_roomCode data) as [room|]; [|reflexivity].
  rewrite bool_decide_eq_false_2 by (apply Hno; reflexivity). reflexivity.
Qed.

Lemma on_make_guess_accept s data st room :
  rooms st !! gd_roomCode data = Some room ->
  sipahiId (gameState room) = Some s ->
  on_make_guess s data st =
    (update_room (gd_roomCode data) (guessed room (gd_suspectedPlayerId data)) st,
     [(ToRoom (gd_roomCode data),
       round_results (fst (calculateRoundResults room (gd_suspectedPlayerId data)))
         (scores (gameState (guessed room (gd_suspectedPlayerId data))))
         (characters (gameState room)) (currentRound (gameState room)))]).
Proof.
  intros Hroom Hs. unfold on_make_guess. rewrite Hroom.
  rewrite bool_decide_eq_true_2 by exact Hs. reflexivity.
Qed.

(** C3 (amended).  A make-guess is rejected, with an error to the caller
    and the state unchanged, exactly when the room code has no entry in the
    registry or the cached [sipahiId] of the room is not the caller's id.
    Otherwise it is accepted whatever the game status is: the round
    results are computed and stored. *)
Theorem C3_guess_guard s data st :
  ((forall room, rooms st !! gd_roomCode data = Some room ->
      sipahiId (gameState room) <> Some s) /\
   on_make_guess s data st =
     (st, [(ToSocket s, error "Not your turn or invalid room")]))
  \/
  (exists room,
     rooms st !! gd_roomCode data = Some room /\
     sipahiId (gameState room) = Some s /\
     on_make_guess s data st =
       (update_room (gd_roomCode data) (guessed room (gd_suspectedPlayerId data)) st,
        [(ToRoom (gd_roomCode data),
          round_results (fst (calculateRoundResults room (gd_suspectedPlayerId data)))
            (scores (gameState (guessed room (gd_suspectedPlayerId data))))
            (characters (gameState room)) (currentRound (gameState room)))])).
Proof.
  destruct (rooms st !! gd_roomCode data) as [room|] eqn:Hroom.
  - destruct (decide (sipahiId (gameState room) = Some s)) as [Hs|Hs].
    + right. exists room. split; [reflexivity|]. split; [exact Hs|].
      apply on_make_guess_accept; assumption.
    + left. assert (Hno : forall room0, rooms st !! gd_roomCode data = Some room0 ->
                            sipahiId (gameState room0) <> Some s).
      { intros room0. rewrite Hroom. intros [= <-]. exact Hs. }
      split; [intros room0 [= <-]; exact Hs | apply on_make_guess_reject, Hno].
  - left. split; [discriminate|]. apply on_make_guess_reject. rewrite Hroom. discriminate.
Qed.

(** C3, as stated, fails: in a reachable room whose game is finished the
    make-guess of the cached Sipahi is accepted and raises her score. *)
Lemma C3_counterexample :
  let st := state_after game_finished_two in
  let data := mkGuessData "ABC123" (Some "B") in
  reachable st /\ rooms st !! "ABC123" = Some (room_in st) /\
  status (gameState (room_in st)) = finished /\
  oget "A" (scores (gameState (room_in st))) = Some 0 /\
  oget "A" (scores (gameState (room_in (fst (on_make_guess "A" data st))))) = Some 700 /\
  exists results sc chars n,
    snd (on_make_guess "A" data st) = [(ToRoom "ABC123", round_results results sc chars n)].
Proof.
  simpl. split; [apply state_after_reachable; vm_compute; eexists; reflexivity|].
  repeat (split; [vm_compute; reflexivity|]).
  vm_compute. do 4 eexists. reflexivity.
Qed.

(** ** The join-room handler *)

Lemma find_name_None (ps : list Player) n :
  List.find (fun p => String.eqb (name p) n) ps = None <->
  forall p, p ∈ ps -> name p <> n.
Proof.
  induction ps as [|p0 ps IH]; simpl.
  - split; [intros _ p Hp; apply elem_of_nil in Hp; contradiction | reflexivity].
  - destruct (String.eqb_spec (name p0) n) as [Heq|Hne].
    + split; [discriminate|]. intros H. exfalso. apply (H p0); [apply list_elem_of_here | exact Heq].
    + rewrite IH. split.
      * intros H p Hp. apply elem_of_cons in Hp as [->|Hp]; auto.
      * intros H p Hp. apply H, list_elem_of_further, Hp.
Qed.

(** C4 (amended).  For a connected caller, join-room adds the caller as a
    member exactly when the room exists, has fewer than [maxPlayers]
    members, is not in status [playing] (it may be [waiting] or
    [finished]) and no current member has the requested name; otherwise
    the caller receives an error and the state is unchanged. *)
Theorem C4_join_guard s data st :
  connected s st = true ->
  (join_allowed data st ->
   exists room room',
     rooms st !! jd_roomCode data = Some room /\
     rooms (fst (on_join_room s data st)) !! jd_roomCode data = Some room' /\
     players room' =
       oset s (mkPlayer s (jd_name data) (jd_avatar data) false true) (players room) /\
     s ∈ okeys (players room') /\
     scores (gameState room') = oset s 0 (scores (gameState room)) /\
     snd (on_join_room s data st) =
       [(ToRoom (jd_roomCode data),
         player_joined (ovalues (players room')) (jd_name data));
        (ToSocket s,
         room_joined (jd_roomCode data) (ovalues (players room')) (settings room))]) /\
  (~ join_allowed data st ->
   exists message, on_join_room s data st = (st, [(ToSocket s, error message)])).
Proof.
  unfold connected. intros Hconn. apply bool_decide_eq_true in Hconn as [ref Href].
  unfold join_allowed, on_join_room.
  destruct (rooms st !! jd_roomCode data) as [room|] eqn:Hroom.
  2: { split; [intros (room & [=] & _)|]. intros _. eexists. reflexivity. }
  destruct (Nat.leb_spec (maxPlayers (settings room)) (osize (players room))) as [Hfull|Hfree].
  { split; [intros (r & [= <-] & Hlt & _); lia|]. intros _. eexists. reflexivity. }
  destruct (decide (status (gameState room) = playing)) as [Hst|Hst].
  { rewrite bool_decide_eq_true_2 by exact Hst.
    split; [intros (r & [= <-] & _ & Hnp & _); contradiction|].
    intros _. eexists. reflexivity. }
  rewrite bool_decide_eq_false_2 by exact Hst.
  destruct (List.find _ _) as [p|] eqn:Hfind.
  { split; [|intros _; eexists; reflexivity].
    intros (r & [= <-] & _ & _ & Hnames).
    apply find_name_None in Hnames. congruence. }
  split; [|intros Hno; exfalso; apply Hno; exists room;
           repeat split; try assumption; apply find_name_None, Hfind].
  intros _. simpl. rewrite Href. simpl.
  eexists room, _. split; [reflexivity|]. split; [apply lookup_insert_eq|]. simpl.
  split; [reflexivity|]. split; [apply elem_okeys_oset; left; reflexivity|].
  split; reflexivity.
Qed.

Lemma C4_join_guard_witness :
  let st := state_after (lobby_two ++ [connection "C"]) in
  let data := mkJoinData "ABC123" "Carol" "owl" in
  (join_allowed data st ->
   exists room room',
     rooms st !! jd_roomCode data = Some room /\
     rooms (fst (on_join_room "C" data st)) !! jd_roomCode data = Some room' /\
     players room' =
       oset "C" (mkPlayer "C" (jd_name data) (jd_avatar data) false true) (players room) /\
     "C" ∈ okeys (players room') /\
     scores (gameState room') = oset "C" 0 (scores (gameState room)) /\
     snd (on_join_room "C" data st) =
       [(ToRoom (jd_roomCode data),
         player_joined (ovalues (players room')) (jd_name data));
        (ToSocket "C",
         room_joined (jd_roomCode data) (ovalues (players room')) (settings room))]) /\
  (~ join_allowed data st ->
   exists message, on_join_room "C" data st = (st, [(ToSocket "C", error message)])).
Proof.
  apply (C4_join_guard "C" (mkJoinData "ABC123" "Carol" "owl")
           (state_after (lobby_two ++ [connection "C"]))).
  vm_compute. reflexivity.
Defined.

(** C4, as stated, fails: the game of a reachable room is finished, not
    waiting, and a join-room of a newly connected socket is accepted. *)
Lemma C4_counterexample :
  let st := state_after (game_finished_two ++ [connection "C"]) in
  let data := mkJoinData "ABC123" "Carol" "owl" in
  reachable st /\ rooms st !! "ABC123" = Some (room_in st) /\
  status (gameState (room_in st)) = finished /\
  connected "C" st = true /\
  okeys (players (room_in st)) = ["A"; "B"] /\
  okeys (players (room_in (fst (on_join_room "C" data st)))) = ["A"; "B"; "C"] /\
  exists ps1 ps2 s2,
    snd (on_join_room "C" data st) =
      [(ToRoom "ABC123", player_joined ps1 "Carol");
       (ToSocket "C", room_joined "ABC123" ps2 s2)].
Proof.
  simpl. split; [apply state_after_reachable; vm_compute; eexists; reflexivity|].
  repeat (split; [vm_compute; reflexivity|]).
  vm_compute. do 3 eexists. reflexivity.
Qed.

(** ** Repeated guesses *)

Lemma or_default_0 (x : option Z) : or_default x 0 = default 0 x.
Proof. destruct x as [v|]; simpl; [|reflexivity]. destruct (Z.eqb_spec v 0); congruence. Qed.

(** The ids that have a delta do not depend on the suspected id. *)
Lemma delta_domain room x y k : is_Some (delta room x k) -> is_Some (delta room y k).
Proof.
  unfold delta.
  destruct (oget k (characters (gameState room))) as [[]|];
    destruct (String.eqb k (key_of (chorId (gameState room))));
    destruct (String.eqb k (key_of (sipahiId (gameState room))));
    destruct (bool_decide (k ∈ okeys (players room)));
    intros [? [=]]; eexists; reflexivity.
Qed.

Lemma guessed_scores room x k :
  NoDup (okeys (characters (gameState room))) ->
  oget k (scores (gameState (guessed room x))) =
    match delta room x k with
    | Some d => Some (or_default (oget k (scores (gameState room))) 0 + d)
    | None => oget k (scores (gameState room))
    end.
Proof.
  intros Hnd. unfold guessed. simpl.
  rewrite oget_fold_add_points by apply point_changes_NoDup.
  rewrite point_changes_delta by exact Hnd. reflexivity.
Qed.

Lemma guess_all_spec s c suspects : forall st room,
  rooms st !! c = Some room ->
  NoDup (okeys (characters (gameState room))) ->
  sipahiId (gameState room) = Some s ->
  exists room_n,
    rooms (guess_all s c suspects st) !! c = Some room_n /\
    players room_n = players room /\
    characters (gameState room_n) = characters (gameState room) /\
    sipahiId (gameState room_n) = Some s /\
    chorId (gameState room_n) = chorId (gameState room) /\
    status (gameState room_n) = status (gameState room) /\
    currentRound (gameState room_n) = currentRound (gameState room) /\
    (forall k, is_Some (delta room None k) ->
       or_default (oget k (scores (gameState room_n))) 0 =
         or_default (oget k (scores (gameState room))) 0 + total_delta room suspects k) /\
    (forall k, delta room None k = None ->
       oget k (scores (gameState room_n)) = oget k (scores (gameState room))).
Proof.
  induction suspects as [|x rest IH]; intros st room Hroom Hnd Hs.
  - exists room. simpl. repeat (split; [reflexivity || assumption|]).
    split; [intros k _; lia | reflexivity].
  - simpl. rewrite (on_make_guess_accept s (mkGuessData c x) st room Hroom Hs). simpl.
    destruct (IH (update_room c (guessed room x) st) (guessed room x))
      as (room_n & Hn & Hp & Hc & Hsi & Hch & Hst & Hr & Hsc & Hfr).
    { simpl. apply lookup_insert_eq. }
    { exact Hnd. }
    { exact Hs. }
    exists room_n. split; [exact Hn|].
    repeat (split; [assumption|]). split.
    + intros k Hk. rewrite Hsc by (apply (delta_domain room None None k), Hk).
      rewrite guessed_scores by exact Hnd.
      destruct (delta_domain room None x k Hk) as [d Hd]. rewrite Hd.
      rewrite (or_default_0 (Some _)). simpl.
      replace (total_delta (guessed room x) rest k) with (total_delta room rest k)
        by (clear; induction rest as [|y rest IH]; simpl; [reflexivity | rewrite IH; reflexivity]).
      lia.
    + intros k Hk. rewrite Hfr by exact Hk. rewrite guessed_scores by exact Hnd.
      destruct (delta room x k) as [d|] eqn:Hd; [|reflexivity].
      assert (Hsome : is_Some (delta room None k))
        by (apply (delta_domain room x None k); rewrite Hd; eexists; reflexivity).
      rewrite Hk in Hsome. destruct Hsome as [? [=]].
Qed.

(** C9.  In a room the server can hold, whose cached Sipahi is [s], any
    sequence of make-guess events of [s] is accepted without the round
    counter moving, there being no once-per-round guard: after the guesses
    [suspects] the score of every id with a delta has grown by the sum of
    its deltas over all these guesses, and one more guess is accepted and
    computes the full set of deltas of the round again. *)
Theorem C9_guess_repeats st c room s suspects x :
  reachable st -> rooms st !! c = Some room ->
  sipahiId (gameState room) = Some s ->
  let st_n := guess_all s c suspects st in
  exists room_n,
    rooms st_n !! c = Some room_n /\
    currentRound (gameState room_n) = currentRound (gameState room) /\
    status (gameState room_n) = status (gameState room) /\
    sipahiId (gameState room_n) = Some s /\
    (forall k, is_Some (delta room None k) ->
       or_default (oget k (scores (gameState room_n))) 0 =
         or_default (oget k (scores (gameState room))) 0 + total_delta room suspects k) /\
    (forall k, delta room None k = None ->
       oget k (scores (gameState room_n)) = oget k (scores (gameState room))) /\
    on_make_guess s (mkGuessData c x) st_n =
      (update_room c (guessed room_n x) st_n,
       [(ToRoom c,
         round_results (fst (calculateRoundResults room_n x))
           (scores (gameState (guessed room_n x)))
           (characters (gameState room_n)) (currentRound (gameState room)))]) /\
    (forall k, oget k (pointChanges (fst (calculateRoundResults room_n x))) = delta room x k) /\
    (forall k d, delta room x k = Some d ->
       oget k (scores (gameState (guessed room_n x))) =
         Some (or_default (oget k (scores (gameState room_n))) 0 + d)).
Proof.
  intros Hreach Hroom Hs. cbv zeta.
  destruct (reachable_ok st Hreach c room Hroom) as [_ _ Hnd _ _ _].
  destruct (guess_all_spec s c suspects st room Hroom Hnd Hs)
    as (room_n & Hn & Hp & Hc & Hsi & Hch & Hst & Hr & Hsc & Hfr).
  assert (Hnd' : NoDup (okeys (characters (gameState room_n)))) by (rewrite Hc; exact Hnd).
  assert (Hdelta : forall y k, delta room_n y k = delta room y k).
  { intros y k. unfold delta. rewrite Hp, Hc, Hsi, Hch, Hs. reflexivity. }
  exists room_n. repeat (split; [assumption|]).
  split; [|split].
  - rewrite <- Hr. apply (on_make_guess_accept s (mkGuessData c x)); assumption.
  - intros k. unfold calculateRoundResults. simpl.
    rewrite point_changes_delta by exact Hnd'. apply Hdelta.
  - intros k d Hd. rewrite guessed_scores by exact Hnd'. rewrite Hdelta, Hd. reflexivity.
Qed.

Lemma C9_guess_repeats_witness :
  let st := state_after game_of_four in
  let st_n := guess_all "A" "ABC123" [Some "B"; Some "C"; Some "B"] st in
  let room := room_in st in
  let x := Some "B" in
  exists room_n,
    rooms st_n !! "ABC123" = Some room_n /\
    currentRound (gameState room_n) = currentRound (gameState room) /\
    status (gameState room_n) = status (gameState room) /\
    sipahiId (gameState room_n) = Some "A" /\
    (forall k, is_Some (delta room None k) ->
       or_default (oget k (scores (gameState room_n))) 0 =
         or_default (oget k (scores (gameState room))) 0 +
         total_delta room [Some "B"; Some "C"; Some "B"] k) /\
    (forall k, delta room None k = None ->
       oget k (scores (gameState room_n)) = oget k (scores (gameState room))) /\
    on_make_guess "A" (mkGuessData "ABC123" x) st_n =
      (update_room "ABC123" (guessed room_n x) st_n,
       [(ToRoom "ABC123",
         round_results (fst (calculateRoundResults room_n x))
           (scores (gameState (guessed room_n x)))
           (characters (gameState room_n)) (currentRound (gameState room)))]) /\
    (forall k, oget k (pointChanges (fst (calculateRoundResults room_n x))) = delta room x k) /\
    (forall k d, delta room x k = Some d ->
       oget k (scores (gameState (guessed room_n x))) =
         Some (or_default (oget k (scores (gameState room_n))) 0 + d)).
Proof.
  apply (C9_guess_repeats (state_after game_of_four) "ABC123" (room_in (state_after game_of_four))
           "A" [Some "B"; Some "C"; Some "B"] (Some "B")).
  - apply state_after_reachable. vm_compute. eexists. reflexivity.
  - vm_compute. reflexivity.
  - vm_compute. reflexivity.
Defined.

(** Three guesses in one round of the game of four: Alice, the Sipahi, has
    collected 700 twice, and Bob, the Chor, 700 once. *)
Example three_guesses_scores :
  scores (gameState (room_in
    (guess_all "A" "ABC123" [Some "B"; Some "C"; Some "B"] (state_after game_of_four)))) =
  [("A", 1400); ("B", 700); ("C", 2700); ("D", 6000)].
Proof. vm_compute. reflexivity. Qed.

(** ** The keys of the scores *)

Lemma scores_within_insert c room (rs : gmap string Room) :
  (forall c' r', rs !! c' = Some r' -> scores_within r') ->
  scores_within room ->
  forall c' r', <[c := room]> rs !! c' = Some r' -> scores_within r'.
Proof.
  intros Hst Hroom c' r'. rewrite lookup_insert.
  destruct (decide (c = c')) as [->|Hne]; [intros [= <-]; exact Hroom | apply Hst].
Qed.

(** Every event but make-guess keeps the scores within the membership. *)
(** The state a handler leaves, from the equation of [handle]. *)
Ltac handler_state :=
  let H := fresh "Hstep" in
  intros H; injection H as H; apply (f_equal fst) in H; cbn [fst] in H; subst.

Lemma scores_within_step a st st' out :
  server_ok st ->
  (forall c room, rooms st !! c = Some room -> scores_within room) ->
  is_make_guess a = false ->
  handle a st = Some (st', out) ->
  forall c room, rooms st' !! c = Some room -> scores_within room.
Proof.
  intros Hok Hst Ha. destruct a; simpl in *; try discriminate.
  - unfold on_connection. intros [= <- <-]. exact Hst.
  - unfold on_create_room, createRoom.
    destruct (fresh_code (rooms st) draws) as [c0|]; [|discriminate]. simpl.
    assert (Hnew : scores_within (new_room c0 socketId data)).
    { split; simpl; [apply NoDup_singleton | auto]. }
    destruct (playerRefs st !! socketId); intros [= <- <-];
      simpl; apply scores_within_insert; assumption.
  - handler_state. unfold on_join_room.
    destruct (rooms st !! jd_roomCode data) as [room|] eqn:Hroom; [|exact Hst].
    destruct (_ <=? _)%nat; [exact Hst|]. destruct (bool_decide _); [exact Hst|].
    destruct (List.find _ _); [exact Hst|].
    destruct (Hst _ _ Hroom) as [Hnd Hsub].
    assert (Hnew : scores_within
              (set_gameState
                 (set_scores (oset socketId 0 (scores (gameState room))) (gameState room))
                 (set_players
                    (oset socketId
                       (mkPlayer socketId (jd_name data) (jd_avatar data) false true)
                       (players room)) room))).
    { split; simpl; [apply NoDup_oset, Hnd|]. intros k Hk.
      apply elem_okeys_oset in Hk as [->|Hk]; apply elem_okeys_oset; auto. }
    simpl. destruct (playerRefs st !! socketId); simpl;
      simpl; apply scores_within_insert; assumption.
  - handler_state. unfold on_start_game.
    destruct (rooms st !! sd_roomCode data) as [room|] eqn:Hroom; [|exact Hst].
    destruct (negb _); [exact Hst|]. destruct (_ <? _)%nat; [exact Hst|].
    destruct (Hst _ _ Hroom) as [Hnd Hsub].
    simpl. simpl; apply scores_within_insert; [exact Hst|]. split; simpl.
    + destruct (assign_loop_frame (shuffleArray rnd all_characters) 0 (okeys (players room))
                  (set_scores
                     (fold_left (fun sc playerId => oset playerId 0 sc) (okeys (players room))
                        (scores (gameState room)))
                     (set_currentRound 1
                        (set_status playing
                           (set_totalRounds
                              (or_default (sd_rounds data) (rounds (settings room)))
                              (gameState room))))))
        as (_ & _ & _ & -> & _). simpl. apply NoDup_fold_const, Hnd.
    + destruct (assign_loop_frame (shuffleArray rnd all_characters) 0 (okeys (players room))
                  (set_scores
                     (fold_left (fun sc playerId => oset playerId 0 sc) (okeys (players room))
                        (scores (gameState room)))
                     (set_currentRound 1
                        (set_status playing
                           (set_totalRounds
                              (or_default (sd_rounds data) (rounds (settings room)))
                              (gameState room))))))
        as (_ & _ & _ & -> & _). simpl.
      intros k Hk. apply elem_okeys_fold_const in Hk as [Hk|Hk]; auto.
  - handler_state. unfold on_next_round.
    destruct (rooms st !! roomCode0) as [room|] eqn:Hroom; [|exact Hst].
    destruct (negb _); [exact Hst|].
    destruct (Hst _ _ Hroom) as [Hnd Hsub].
    simpl. destruct (_ <? _); simpl; (simpl; apply scores_within_insert; [exact Hst|]).
    + split; simpl; assumption.
    + split; simpl;
        destruct (assign_loop_frame (shuffleArray rnd all_characters) 0 (okeys (players room))
                    (set_currentRound (currentRound (gameState room) + 1) (gameState room)))
          as (_ & _ & _ & -> & _); simpl; assumption.
  - handler_state. unfold on_disconnect.
    destruct (room_of socketId st) as [[c0 room]|] eqn:Hro; [|exact Hst].
    apply room_of_Some in Hro as [_ Hroom].
    destruct (Hst _ _ Hroom) as [Hnd Hsub].
    destruct (Hok _ _ Hroom) as [_ Hndp _ _ _ _].
    assert (Hdel : forall k, k ∈ okeys (odel socketId (scores (gameState room))) ->
                     k ∈ okeys (odel socketId (players room))).
    { intros k Hk. apply elem_okeys_odel in Hk as [Hne Hk]; [|exact Hnd].
      apply elem_okeys_odel; auto. }
    simpl. destruct (String.eqb (hostId room) socketId).
    + destruct (okeys (odel socketId (players room))) as [|h ks] eqn:Hks; simpl.
      * intros c' r'. simpl. rewrite lookup_delete.
        destruct (decide (c0 = c')); [discriminate | apply Hst].
      * simpl; apply scores_within_insert; [exact Hst|]. split; simpl.
        -- apply NoDup_odel, Hnd.
        -- intros k Hk. rewrite okeys_promote, Hks. apply Hdel, Hk.
    + simpl. simpl; apply scores_within_insert; [exact Hst|]. split; simpl.
      * apply NoDup_odel, Hnd.
      * exact Hdel.
  - unfold on_cleanup. intros [= <- <-] c room. simpl. intros H.
    apply map_lookup_filter_Some in H as [H _]. apply (Hst _ _ H).
Qed.

(** C5.  The keys of the scores do not always stay within the ids of the
    current members.  In this run Bob, the Chor of the round, leaves, which
    removes him from the members and from the scores; the guess of Alice,
    the Sipahi, then writes a score under Bob's id again, through the
    cached [chorId]. *)
Theorem C5_scores_keep_departed :
  let st := state_after game_chor_left in
  let st' := fst (on_make_guess "A" (mkGuessData "ABC123" (Some "B")) st) in
  reachable st /\ connected "A" st = true /\
  okeys (players (room_in st)) = ["A"] /\
  okeys (scores (gameState (room_in st))) = ["A"] /\
  rooms st' !! "ABC123" = Some (room_in st') /\
  okeys (players (room_in st')) = ["A"] /\
  scores (gameState (room_in st')) = [("A", 700); ("B", 0)].
Proof.
  simpl. split; [apply state_after_reachable; vm_compute; eexists; reflexivity|].
  repeat (split; [vm_compute; reflexivity|]). vm_compute. reflexivity.
Qed.

(** ** The winner *)

Section winner.
Context {A : Type} (score : A -> Z).



End winner.




Lemma assigned_from_lookup sh i ids j p :
  ids !! j = Some p -> assigned_from sh i ids !! j = Some (p, pick sh (i + j)).
Proof.
  revert i j. induction ids as [|q ids IH]; intros i [|j]; simpl; try discriminate.
  - intros [= ->]. rewrite Nat.add_0_r. reflexivity.
  - intros Hj. rewrite (IH (S i) j Hj). do 3 f_equal. lia.
Qed.





(** The last next-round of the game of four after Alice's right guess:
    Dave, the Raja, is announced with 2000 points. *)
Example winner_last_round :
  snd (on_next_round rnd_keep "A" "ABC123" (state_after game_last_round)) =
    [(ToRoom "ABC123",
      game_finished (Some (mkPlayer "D" "Dave" "fox" false true, 2000))
        [("A", 700); ("B", 0); ("C", 900); ("D", 2000)]
        [mkPlayer "A" "Alice" "cat" true true; mkPlayer "B" "Bob" "dog" false true;
         mkPlayer "C" "Carol" "owl" false true; mkPlayer "D" "Dave" "fox" false true])].
Proof. vm_compute. reflexivity. Qed.

(** A next-round in the first of three rounds, with a shuffle that swaps
    nothing: the four members hold Raja, Mantri, Chor and Sipahi in
    membership order, and Dave is the Sipahi. *)
Example roles_reassigned :
  let room := room_in (fst (on_next_round rnd_keep "A" "ABC123" (state_after game_of_four))) in
  characters (gameState room) = [("A", Raja); ("B", Mantri); ("C", Chor); ("D", Sipahi)] /\
  sipahiId (gameState room) = Some "D" /\ chorId (gameState room) = Some "C" /\
  currentRound (gameState room) = 2 /\ status (gameState room) = playing.
Proof. vm_compute. repeat split; reflexivity. Qed.

(** A finished game of two with equal scores: the winner announced is
    Alice, the first member. *)
Example winner_tie_first :
  winner_of (room_in (state_after game_finished_two)) =
    Some (mkPlayer "A" "Alice" "cat" true true, 0).
Proof. vm_compute. reflexivity. Qed.

(** ** Disconnection *)






(** The host of a lobby of two leaves: Bob is the host, and flagged so. *)
Example host_handoff :
  let room := room_in (fst (on_disconnect "A" (state_after lobby_two))) in
  hostId room = "B" /\ players room = [("B", mkPlayer "B" "Bob" "dog" true true)].
Proof. vm_compute. split; reflexivity. Qed.

(** The sole member of a room leaves: the registry is empty again. *)
Example sole_member_leaves :
  rooms (state_after
           [connection "A";
            create_room "A" (mkHostData "Alice" "cat" None) ["ABC123"];
            disconnect "A"]) !! "ABC123" = None.
Proof. vm_compute. reflexivity. Qed.

(** ** Room codes *)

(** C8.  In a state the server can reach, a create-room whose draws of
    [generateRoomCode] contain a code the registry does not hold completes:
    the code of the new room is one of the draws, it had no entry in the
    registry when the room was registered, the registration leaves every
    other room in place under a different code, and in the resulting
    registry two entries whose rooms have the same code are one and the
    same entry. *)
Theorem C8_fresh_room_code st s data draws d :
  reachable st -> d ∈ draws -> rooms st !! d = None ->
  exists room st' out,
    on_create_room draws s data st = Some (st', out) /\
    code room ∈ draws /\ rooms st !! code room = None /\
    rooms st' = <[code room := room]> (rooms st) /\
    (forall c' r', rooms st !! c' = Some r' ->
       rooms st' !! c' = Some r' /\ code r' <> code room) /\
    (forall c1 c2 r1 r2,
       rooms st' !! c1 = Some r1 -> rooms st' !! c2 = Some r2 ->
       code r1 = code r2 -> c1 = c2 /\ r1 = r2).
Proof.
  intros Hreach Hd Hfree. pose proof (reachable_ok st Hreach) as Hok.
  destruct (fresh_code_complete (rooms st) draws d Hd Hfree) as [c Hc].
  destruct (fresh_code_spec _ _ _ Hc) as [Hin Hnone].
  assert (Hcreate : exists st' out, on_create_room draws s data st = Some (st', out) /\
                      rooms st' = <[c := new_room c s data]> (rooms st)).
  { unfold on_create_room, createRoom. rewrite Hc. simpl.
    destruct (playerRefs st !! s); do 2 eexists; split; reflexivity. }
  destruct Hcreate as (st' & out & Hrun & Hrooms).
  exists (new_room c s data), st', out. simpl.
  split; [exact Hrun|]. split; [exact Hin|]. split; [exact Hnone|].
  split; [exact Hrooms|]. split.
  - intros c' r' Hr'. destruct (Hok _ _ Hr') as [Hcode _ _ _ _ _].
    assert (c' <> c) by congruence.
    split; [rewrite Hrooms, lookup_insert_ne by congruence; exact Hr' | congruence].
  - intros c1 c2 r1 r2 H1 H2 Heq.
    pose proof (on_create_room_ok _ _ _ _ _ _ Hok Hrun) as Hok'.
    pose proof (ok_code _ _ (Hok' _ _ H1)) as Hc1.
    pose proof (ok_code _ _ (Hok' _ _ H2)) as Hc2.
    assert (Hcc : c1 = c2) by congruence.
    split; [exact Hcc|]. rewrite Hcc in H1. congruence.
Qed.

Lemma C8_fresh_room_code_witness :
  let st := state_after (lobby_two ++ [connection "C"]) in
  let draws := ["ABC123"; "XYZ789"] in
  let data := mkHostData "Carol" "owl" (Some 2) in
  exists room st' out,
    on_create_room draws "C" data st = Some (st', out) /\
    code room ∈ draws /\ rooms st !! code room = None /\
    rooms st' = <[code room := room]> (rooms st) /\
    (forall c' r', rooms st !! c' = Some r' ->
       rooms st' !! c' = Some r' /\ code r' <> code room) /\
    (forall c1 c2 r1 r2,
       rooms st' !! c1 = Some r1 -> rooms st' !! c2 = Some r2 ->
       code r1 = code r2 -> c1 = c2 /\ r1 = r2).
Proof.
  apply (C8_fresh_room_code (state_after (lobby_two ++ [connection "C"])) "C"
           (mkHostData "Carol" "owl" (Some 2)) ["ABC123"; "XYZ789"] "XYZ789").
  - apply state_after_reachable. vm_compute. eexists. reflexivity.
  - apply list_elem_of_further, list_elem_of_here.
  - vm_compute. reflexivity.
Defined.

(** The first draw is taken, the second one is used. *)
Example second_draw_used :
  fresh_code (rooms (state_after lobby_two)) ["ABC123"; "XYZ789"] = Some "XYZ789".
Proof. vm_compute. reflexivity. Qed.

(** * Further properties of the handlers *)

(** ** Entries of insertion-ordered maps *)

Section omap_entries.
Context {V : Type}.
Implicit Types (m : omap V) (k : string) (v : V).

Lemma Forall_oset (P : string * V -> Prop) k v m :
  P (k, v) -> Forall P m -> Forall P (oset k v m).
Proof.
  intros Hv. induction m as [|[k0 v0] m IH]; simpl; intros Hm.
  - constructor; [exact Hv | constructor].
  - apply Forall_cons in Hm as [H0 Hm]. destruct (String.eqb k k0).
    + constructor; assumption.
    + constructor; [exact H0 | apply IH, Hm].
Qed.

Lemma Forall_odel (P : string * V -> Prop) k m : Forall P m -> Forall P (odel k m).
Proof.
  induction m as [|[k0 v0] m IH]; simpl; intros Hm; [constructor|].
  apply Forall_cons in Hm as [H0 Hm]. destruct (String.eqb k k0); [exact Hm|].
  constructor; [exact H0 | apply IH, Hm].
Qed.

Lemma Forall_fold_const (P : string * V -> Prop) (ks : list string) v m :
  (forall k, P (k, v)) -> Forall P m ->
  Forall P (fold_left (fun m k' => oset k' v m) ks m).
Proof.
  intros Hv. revert m. induction ks as [|k0 ks IH]; simpl; intros m Hm; [exact Hm|].
  apply IH, Forall_oset; [apply Hv | exact Hm].
Qed.

Lemma elem_ovalues k v m : (k, v) ∈ m -> v ∈ ovalues m.
Proof. intros H. apply (list_elem_of_fmap_2 snd) in H. exact H. Qed.

Lemma elem_okeys_odel_ne k k' m : k' <> k -> k' ∈ okeys m -> k' ∈ okeys (odel k m).
Proof.
  intros Hne. rewrite <- !oget_is_Some, oget_odel_ne by exact Hne. auto.
Qed.

Lemma elem_oset_inv k v k' v' m :
  (k', v') ∈ oset k v m -> (k' = k /\ v' = v) \/ (k', v') ∈ m.
Proof.
  induction m as [|[k0 v0] m IH]; simpl.
  - intros H. apply list_elem_of_singleton in H. injection H as -> ->. auto.
  - destruct (String.eqb k k0).
    + intros H. apply elem_of_cons in H as [H|H].
      * injection H as -> ->. auto.
      * right. apply list_elem_of_further, H.
    + intros H. apply elem_of_cons in H as [H|H].
      * right. rewrite H. apply list_elem_of_here.
      * destruct (IH H) as [?|?]; [auto | right; apply list_elem_of_further; assumption].
Qed.

Lemma elem_odel_inv k k' v' m : (k', v') ∈ odel k m -> (k', v') ∈ m.
Proof.
  induction m as [|[k0 v0] m IH]; simpl; [auto|].
  destruct (String.eqb k k0).
  - intros H. apply list_elem_of_further, H.
  - intros H. apply elem_of_cons in H as [H|H].
    + rewrite H. apply list_elem_of_here.
    + apply list_elem_of_further, IH, H.
Qed.

Context {B : Type} (f : V -> B).

(** Writing a value whose image under [f] is new keeps the images distinct. *)
Lemma NoDup_images_oset k v m :
  NoDup (map f (ovalues m)) ->
  (forall k' v', (k', v') ∈ m -> f v' <> f v) ->
  NoDup (map f (ovalues (oset k v m))).
Proof.
  induction m as [|[k0 v0] m IH]; simpl; intros Hnd Hnew.
  - apply NoDup_singleton.
  - apply NoDup_cons in Hnd as [H0 Hnd]. destruct (String.eqb k k0); simpl.
    + apply NoDup_cons. split; [|exact Hnd].
      intros Hin. apply list_elem_of_fmap in Hin as (v' & Hv' & Hin).
      apply list_elem_of_fmap in Hin as ([k' v''] & -> & Hin).
      apply (Hnew k' v''); [apply list_elem_of_further, Hin | symmetry; exact Hv'].
    + apply NoDup_cons. split.
      * intros Hin. apply list_elem_of_fmap in Hin as (v' & Hv' & Hin).
        apply list_elem_of_fmap in Hin as ([k' v''] & -> & Hin).
        apply elem_oset_inv in Hin as [[-> ->]|Hin].
        -- apply (Hnew k0 v0); [apply list_elem_of_here | exact Hv'].
        -- apply H0. simpl in Hv'. rewrite Hv'.
           apply (list_elem_of_fmap_2 f), (elem_ovalues k'), Hin.
      * apply IH; [exact Hnd|]. intros k' v' Hin. apply (Hnew k' v').
        apply list_elem_of_further, Hin.
Qed.

(** Overwriting an entry by a value with the same image changes no image. *)
Lemma images_oset_same k v m p :
  oget k m = Some p -> f v = f p ->
  map f (ovalues (oset k v m)) = map f (ovalues m).
Proof.
  intros Hp Hf. unfold ovalues.
  induction m as [|[k0 v0] m IH]; simpl in *; [discriminate|].
  destruct (String.eqb k k0); simpl.
  - injection Hp as ->. rewrite Hf. reflexivity.
  - rewrite IH by exact Hp. reflexivity.
Qed.

Lemma NoDup_images_odel k m :
  NoDup (map f (ovalues m)) -> NoDup (map f (ovalues (odel k m))).
Proof.
  induction m as [|[k0 v0] m IH]; simpl; [auto|].
  intros Hnd. apply NoDup_cons in Hnd as [H0 Hnd].
  destruct (String.eqb k k0); simpl; [exact Hnd|].
  apply NoDup_cons. split; [|apply IH, Hnd].
  intros Hin. apply H0. apply list_elem_of_fmap in Hin as (v' & Hv' & Hin).
  apply list_elem_of_fmap in Hin as ([k' v''] & -> & Hin).
  rewrite Hv'. apply (list_elem_of_fmap_2 f), (elem_ovalues k'), (elem_odel_inv k), Hin.
Qed.
End omap_entries.

(** ** Names, flags, scores and the round counter *)

Lemma Forall_fold_award (P : string * Z -> Prop) (chars : omap Character) (pc : omap Z) :
  (forall k, P (k, points Raja)) -> (forall k, P (k, points Mantri)) ->
  Forall P pc -> Forall P (fold_left award chars pc).
Proof.
  intros HR HM. revert pc. induction chars as [|[k0 c0] chars IH]; simpl; intros pc Hpc;
    [exact Hpc|].
  apply IH. destruct c0; unfold award; simpl; auto using Forall_oset.
Qed.

Lemma point_changes_nonneg room suspected :
  Forall (fun e => 0 <= snd e) (point_changes room suspected).
Proof.
  unfold point_changes. apply Forall_fold_award; simpl; try (intros; lia).
  destruct (bool_decide _); repeat apply Forall_oset; simpl; try lia;
    (apply Forall_fold_const; [intros; simpl; lia | apply Forall_nil; exact I]).
Qed.

Lemma or_default_nonneg (sc : omap Z) k :
  Forall (fun e => 0 <= snd e) sc -> 0 <= or_default (oget k sc) 0.
Proof.
  intros Hsc. rewrite or_default_0. destruct (oget k sc) as [v|] eqn:Hv; simpl; [|lia].
  apply oget_Some_elem in Hv. rewrite Forall_forall in Hsc. apply (Hsc _ Hv).
Qed.

Lemma fold_add_points_nonneg (pc sc : omap Z) :
  Forall (fun e => 0 <= snd e) pc -> Forall (fun e => 0 <= snd e) sc ->
  Forall (fun e => 0 <= snd e) (fold_left add_points pc sc).
Proof.
  revert sc. induction pc as [|[k d] pc IH]; simpl; intros sc Hpc Hsc; [exact Hsc|].
  apply Forall_cons in Hpc as [Hd Hpc]. apply IH; [exact Hpc|].
  unfold add_points. simpl. apply Forall_oset; [|exact Hsc]. simpl in *.
  pose proof (or_default_nonneg sc k Hsc). lia.
Qed.

Lemma NoDup_fold_add_points (pc sc : omap Z) :
  NoDup (okeys sc) -> NoDup (okeys (fold_left add_points pc sc)).
Proof.
  revert sc. induction pc as [|e pc IH]; simpl; intros sc Hnd; [exact Hnd|].
  apply IH, NoDup_oset, Hnd.
Qed.

Lemma assignCharacters_fine rnd room : room_fine room -> room_fine (assignCharacters rnd room).
Proof.
  intros [H1 H2 H3 H4 H5 H6].
  destruct (assign_loop_frame (shuffleArray rnd all_characters) 0 (okeys (players room))
              (gameState room)) as (_ & Hr & _ & Hs & _).
  split; simpl; try assumption.
  - rewrite Hs. exact H4.
  - rewrite Hr. exact H5.
  - rewrite Hs. exact H6.
Qed.

Lemma new_room_fine c h data : room_fine (new_room c h data).
Proof.
  split; simpl.
  - apply NoDup_singleton.
  - constructor; [reflexivity | constructor].
  - constructor; [reflexivity | constructor].
  - constructor; [simpl; lia | constructor].
  - lia.
  - apply NoDup_singleton.
Qed.

Lemma server_fine_insert c room (rs : gmap string Room) :
  (forall c' r', rs !! c' = Some r' -> room_fine r') ->
  room_fine room ->
  forall c' r', <[c := room]> rs !! c' = Some r' -> room_fine r'.
Proof.
  intros Hst Hroom c' r'. rewrite lookup_insert.
  destruct (decide (c = c')) as [->|Hne]; [intros [= <-]; exact Hroom | apply Hst].
Qed.

Lemma promote_fine s h room :
  NoDup (okeys (players room)) -> room_fine room -> hostId room = s ->
  room_fine
    (set_players (promote h (odel s (players room)))
       (set_hostId h
          (set_gameState
             (set_scores (odel s (scores (gameState room))) (gameState room))
             (set_players (odel s (players room)) room)))).
Proof.
  intros Hnd [H1 H2 H3 H4 H5 H6] Hhost.
  assert (Hflag : Forall (fun e => isHost (snd e) = true -> fst e = h)
                    (odel s (players room))).
  { apply Forall_forall. intros [k p] Hin Hp. exfalso. simpl in *.
    assert (Hk : k ∈ okeys (odel s (players room))) by (eapply elem_okeys, Hin).
    apply elem_okeys_odel in Hk as [Hne _]; [|exact Hnd]. apply Hne.
    apply elem_odel_inv in Hin. rewrite Forall_forall in H3.
    rewrite <- Hhost. apply (H3 _ Hin Hp). }
  split; simpl.
  - unfold promote. destruct (oget h (odel s (players room))) as [p|] eqn:Hp.
    + rewrite (images_oset_same name h _ _ p Hp) by reflexivity.
      apply NoDup_images_odel, H1.
    + apply NoDup_images_odel, H1.
  - unfold promote. destruct (oget h (odel s (players room))) as [p|] eqn:Hp.
    + apply Forall_oset; [|apply Forall_odel, H2]. simpl.
      apply oget_Some_elem, elem_odel_inv in Hp. rewrite Forall_forall in H2.
      apply (H2 _ Hp).
    + apply Forall_odel, H2.
  - unfold promote. destruct (oget h (odel s (players room))) as [p|] eqn:Hp.
    + apply Forall_oset; [reflexivity | exact Hflag].
    + exact Hflag.
  - apply Forall_odel, H4.
  - exact H5.
  - apply NoDup_odel, H6.
Qed.

Lemma handle_fine a st st' out :
  server_ok st -> server_fine st -> handle a st = Some (st', out) -> server_fine st'.
Proof.
  intros Hok Hst. unfold server_fine. destruct a; simpl.
  - unfold on_connection. intros [= <- <-]. exact Hst.
  - unfold on_create_room, createRoom.
    destruct (fresh_code (rooms st) draws) as [c0|]; [|discriminate]. simpl.
    destruct (playerRefs st !! socketId); intros [= <- <-]; simpl;
      apply server_fine_insert; auto using new_room_fine.
  - handler_state. unfold on_join_room.
    destruct (rooms st !! jd_roomCode data) as [room|] eqn:Hroom; [|exact Hst].
    destruct (_ <=? _)%nat; [exact Hst|]. destruct (bool_decide _); [exact Hst|].
    destruct (List.find _ _) eqn:Hfind; [exact Hst|].
    destruct (Hst _ _ Hroom) as [H1 H2 H3 H4 H5 H6].
    assert (Hnew : room_fine
              (set_gameState
                 (set_scores (oset socketId 0 (scores (gameState room))) (gameState room))
                 (set_players
                    (oset socketId
                       (mkPlayer socketId (jd_name data) (jd_avatar data) false true)
                       (players room)) room))).
    { split; simpl; try assumption.
      - apply NoDup_images_oset; [exact H1|]. intros k' p' Hin. simpl.
        apply (proj1 (find_name_None _ _) Hfind). eapply elem_ovalues, Hin.
      - apply Forall_oset; [reflexivity | exact H2].
      - apply Forall_oset; [discriminate | exact H3].
      - apply Forall_oset; [simpl; lia | exact H4].
      - apply NoDup_oset, H6. }
    simpl. destruct (playerRefs st !! socketId); simpl;
      apply server_fine_insert; assumption.
  - handler_state. unfold on_start_game.
    destruct (rooms st !! sd_roomCode data) as [room|] eqn:Hroom; [|exact Hst].
    destruct (negb _); [exact Hst|]. destruct (_ <? _)%nat; [exact Hst|].
    destruct (Hst _ _ Hroom) as [H1 H2 H3 H4 H5 H6].
    simpl. apply server_fine_insert; [exact Hst|]. apply assignCharacters_fine.
    split; simpl; try assumption; [|lia|apply NoDup_fold_const, H6].
    apply Forall_fold_const; [intros; simpl; lia | exact H4].
  - handler_state. unfold on_make_guess.
    destruct (rooms st !! gd_roomCode data) as [room|] eqn:Hroom; [|exact Hst].
    destruct (negb _); [exact Hst|].
    destruct (Hst _ _ Hroom) as [H1 H2 H3 H4 H5 H6].
    simpl. apply server_fine_insert; [exact Hst|]. split; simpl; try assumption.
    + apply fold_add_points_nonneg; [apply point_changes_nonneg | exact H4].
    + apply NoDup_fold_add_points, H6.
  - handler_state. unfold on_next_round.
    destruct (rooms st !! roomCode0) as [room|] eqn:Hroom; [|exact Hst].
    destruct (negb _); [exact Hst|].
    destruct (Hst _ _ Hroom) as [H1 H2 H3 H4 H5 H6].
    simpl. destruct (_ <? _); simpl; (apply server_fine_insert; [exact Hst|]).
    + split; simpl; try assumption. lia.
    + apply assignCharacters_fine. split; simpl; try assumption. lia.
  - handler_state. unfold on_disconnect.
    destruct (room_of socketId st) as [[c0 room]|] eqn:Hro; [|exact Hst].
    apply room_of_Some in Hro as [_ Hroom].
    pose proof (Hst _ _ Hroom) as Hfine. destruct (Hfine) as [H1 H2 H3 H4 H5 H6].
    destruct (Hok _ _ Hroom) as [_ Hnd _ _ _ _].
    simpl. destruct (String.eqb_spec (hostId room) socketId) as [Hh|Hh].
    + destruct (okeys (odel socketId (players room))) as [|h ks] eqn:Hks; simpl.
      * intros c' r'. rewrite lookup_delete.
        destruct (decide (c0 = c')); [discriminate | apply Hst].
      * apply server_fine_insert; [exact Hst|].
        apply (promote_fine socketId h room Hnd Hfine Hh).
    + simpl. apply server_fine_insert; [exact Hst|]. split; simpl.
      * apply NoDup_images_odel, H1.
      * apply Forall_odel, H2.
      * apply Forall_odel, H3.
      * apply Forall_odel, H4.
      * exact H5.
      * apply NoDup_odel, H6.
  - unfold on_cleanup. intros [= <- <-] c room. simpl. intros H.
    apply map_lookup_filter_Some in H as [H _]. apply (Hst _ _ H).
Qed.

Lemma reachable_fine st : reachable st -> server_fine st.
Proof.
  induction 1 as [|st a st' out Hreach IH _ Hh].
  - intros c room. simpl. rewrite lookup_empty. discriminate.
  - eapply handle_fine; eauto using reachable_ok.
Qed.

(** ** The room recorded for a socket *)

Lemma members_kept_insert (rs : gmap string Room) c0 room0 room' :
  rs !! c0 = Some room0 ->
  (forall s, s ∈ okeys (players room0) -> s ∈ okeys (players room')) ->
  forall c room s, rs !! c = Some room -> s ∈ okeys (players room) ->
    exists r', <[c0 := room']> rs !! c = Some r' /\ s ∈ okeys (players r').
Proof.
  intros H0 Hsub c room s Hc Hs. rewrite lookup_insert.
  destruct (decide (c0 = c)) as [->|Hne].
  - exists room'. split; [reflexivity|]. apply Hsub. congruence.
  - exists room. auto.
Qed.

Lemma members_kept_fresh (rs : gmap string Room) c0 room' :
  rs !! c0 = None ->
  forall c room s, rs !! c = Some room -> s ∈ okeys (players room) ->
    exists r', <[c0 := room']> rs !! c = Some r' /\ s ∈ okeys (players r').
Proof.
  intros H0 c room s Hc Hs. exists room. split; [|exact Hs].
  rewrite lookup_insert_ne by congruence. exact Hc.
Qed.

(** A handler that rewrites one room without losing members, and leaves the
    global [players] map alone, keeps the recorded rooms valid. *)
Lemma refs_ok_update st c0 room0 room' :
  refs_ok st -> rooms st !! c0 = Some room0 ->
  (forall s, s ∈ okeys (players room0) -> s ∈ okeys (players room')) ->
  refs_ok (update_room c0 room' st).
Proof.
  intros Hst H0 Hsub s ref c Href Hc. simpl in *.
  destruct (Hst s ref c Href Hc) as (room & Hroom & Hs).
  eapply members_kept_insert; eauto.
Qed.

Lemma handle_refs_ok a st st' out :
  refs_ok st -> handle a st = Some (st', out) -> refs_ok st'.
Proof.
  intros Hst. destruct a; simpl.
  - unfold on_connection. intros [= <- <-] s ref c. simpl. rewrite lookup_insert.
    destruct (decide (socketId = s)); [intros [= <-]; discriminate | apply Hst].
  - unfold on_create_room, createRoom.
    destruct (fresh_code (rooms st) draws) as [c0|] eqn:Hc0; [|discriminate].
    apply fresh_code_spec in Hc0 as [_ Hfree]. simpl.
    destruct (playerRefs st !! socketId) as [p|]; intros [= <- <-] s ref c; simpl.
    + rewrite lookup_insert. destruct (decide (socketId = s)) as [->|Hne].
      * intros [= <-] [= <-]. simpl. rewrite lookup_insert_eq. eexists. split; [reflexivity|].
        simpl. apply list_elem_of_here.
      * intros Href Hc. destruct (Hst s ref c Href Hc) as (room & Hroom & Hs).
        eapply members_kept_fresh; eauto.
    + intros Href Hc. destruct (Hst s ref c Href Hc) as (room & Hroom & Hs).
      eapply members_kept_fresh; eauto.
  - handler_state. unfold on_join_room.
    destruct (rooms st !! jd_roomCode data) as [room|] eqn:Hroom; [|exact Hst].
    destruct (_ <=? _)%nat; [exact Hst|]. destruct (bool_decide _); [exact Hst|].
    destruct (List.find _ _); [exact Hst|]. simpl.
    assert (Hkept : forall c r s, rooms st !! c = Some r -> s ∈ okeys (players r) ->
              exists r', <[jd_roomCode data :=
                            set_gameState
                              (set_scores (oset socketId 0 (scores (gameState room)))
                                 (gameState room))
                              (set_players
                                 (oset socketId
                                    (mkPlayer socketId (jd_name data) (jd_avatar data)
                                       false true) (players room)) room)]>
                           (rooms st) !! c = Some r' /\ s ∈ okeys (players r')).
    { apply (members_kept_insert _ _ room); [exact Hroom|]. simpl.
      intros s Hs. apply elem_okeys_oset. auto. }
    destruct (playerRefs st !! socketId) as [p|]; simpl; intros s ref c; simpl.
    + rewrite lookup_insert. destruct (decide (socketId = s)) as [->|Hne].
      * intros [= <-] [= <-]. rewrite lookup_insert_eq. eexists. split; [reflexivity|].
        simpl. apply elem_okeys_oset. auto.
      * intros Href Hc. destruct (Hst s ref c Href Hc) as (r & Hr & Hs). eauto.
    + intros Href Hc. destruct (Hst s ref c Href Hc) as (r & Hr & Hs). eauto.
  - handler_state. unfold on_start_game.
    destruct (rooms st !! sd_roomCode data) as [room|] eqn:Hroom; [|exact Hst].
    destruct (negb _); [exact Hst|]. destruct (_ <? _)%nat; [exact Hst|]. simpl.
    apply (refs_ok_update st _ room); auto.
  - handler_state. unfold on_make_guess.
    destruct (rooms st !! gd_roomCode data) as [room|] eqn:Hroom; [|exact Hst].
    destruct (negb _); [exact Hst|]. simpl.
    apply (refs_ok_update st _ room); auto.
  - handler_state. unfold on_next_round.
    destruct (rooms st !! roomCode0) as [room|] eqn:Hroom; [|exact Hst].
    destruct (negb _); [exact Hst|]. simpl.
    destruct (_ <? _); simpl; apply (refs_ok_update st _ room); auto.
  - handler_state. unfold on_disconnect.
    destruct (room_of socketId st) as [[c0 room]|] eqn:Hro.
    2: { intros s ref c. simpl. rewrite lookup_delete.
         destruct (decide (socketId = s)); [discriminate | apply Hst]. }
    apply room_of_Some in Hro as [_ Hroom]. simpl.
    assert (Hkept : forall s, s <> socketId -> s ∈ okeys (players room) ->
                      s ∈ okeys (odel socketId (players room))).
    { intros s Hne Hs. apply elem_okeys_odel_ne; assumption. }
    destruct (String.eqb (hostId room) socketId).
    + destruct (okeys (odel socketId (players room))) as [|h ks] eqn:Hks; simpl;
        intros s ref c; simpl; rewrite lookup_delete;
        (destruct (decide (socketId = s)) as [->|Hne]; [discriminate|]);
        intros Href Hc; destruct (Hst s ref c Href Hc) as (r & Hr & Hs).
      * rewrite lookup_delete. destruct (decide (c0 = c)) as [->|Hne0].
        -- exfalso. rewrite Hroom in Hr. injection Hr as <-.
           apply Hkept in Hs; [|congruence].
           apply elem_of_nil in Hs. exact Hs.
        -- eauto.
      * rewrite lookup_insert. destruct (decide (c0 = c)) as [->|Hne0]; [|eauto].
        eexists. split; [reflexivity|]. simpl. rewrite okeys_promote, Hks.
        rewrite Hroom in Hr. injection Hr as <-. apply Hkept; [congruence | exact Hs].
    + simpl. intros s ref c. simpl. rewrite lookup_delete.
      destruct (decide (socketId = s)) as [->|Hne]; [discriminate|].
      intros Href Hc. destruct (Hst s ref c Href Hc) as (r & Hr & Hs).
      rewrite lookup_insert. destruct (decide (c0 = c)) as [->|Hne0]; [|eauto].
      eexists. split; [reflexivity|]. simpl.
      rewrite Hroom in Hr. injection Hr as <-. apply Hkept; [congruence | exact Hs].
  - unfold on_cleanup. intros [= <- <-] s ref c. simpl. intros Href Hc.
    destruct (Hst s ref c Href Hc) as (r & Hr & Hs). exists r. split; [|exact Hs].
    apply map_lookup_filter_Some. split; [exact Hr|]. simpl.
    unfold osize. destruct (players r); [|discriminate].
    apply elem_of_nil in Hs. contradiction.
Qed.

Lemma reachable_refs_ok st : reachable st -> refs_ok st.
Proof.
  induction 1 as [|st a st' out Hreach IH _ Hh].
  - intros s ref c. simpl. rewrite lookup_empty. discriminate.
  - eapply handle_refs_ok; eauto.
Qed.

(** ** The shuffle *)

(** X1.  Whatever the draws, [shuffleArray] returns a rearrangement of its
    argument: the same elements with the same multiplicities, hence the
    same length. *)
Theorem X1_shuffle_is_permutation {A : Type} (rnd : nat -> nat) (array : list A) :
  shuffleArray rnd array ≡ₚ array /\
  length (shuffleArray rnd array) = length array.
Proof.
  assert (H : shuffleArray rnd array ≡ₚ array) by apply shuffle_loop_Permutation.
  split; [exact H | rewrite H; reflexivity].
Qed.

(** The shuffle of the four labels reads three draws, each through its
    residue. *)
Lemma shuffle_draws3 rnd :
  shuffleArray rnd all_characters =
    shuffleArray (draws3 (rnd 3 mod 4) (rnd 2 mod 3) (rnd 1 mod 2))%nat all_characters.
Proof.
  unfold shuffleArray. cbn [length all_characters Nat.sub shuffle_loop draws3 Nat.add].
  rewrite !Nat.Div0.mod_mod. reflexivity.
Qed.

(** One of the 24 triples of draws. *)
Ltac find_draws :=
  first
    [ exists 0%nat, 0%nat, 0%nat; split; [lia | reflexivity]
    | exists 0%nat, 0%nat, 1%nat; split; [lia | reflexivity]
    | exists 0%nat, 1%nat, 0%nat; split; [lia | reflexivity]
    | exists 0%nat, 1%nat, 1%nat; split; [lia | reflexivity]
    | exists 0%nat, 2%nat, 0%nat; split; [lia | reflexivity]
    | exists 0%nat, 2%nat, 1%nat; split; [lia | reflexivity]
    | exists 1%nat, 0%nat, 0%nat; split; [lia | reflexivity]
    | exists 1%nat, 0%nat, 1%nat; split; [lia | reflexivity]
    | exists 1%nat, 1%nat, 0%nat; split; [lia | reflexivity]
    | exists 1%nat, 1%nat, 1%nat; split; [lia | reflexivity]
    | exists 1%nat, 2%nat, 0%nat; split; [lia | reflexivity]
    | exists 1%nat, 2%nat, 1%nat; split; [lia | reflexivity]
    | exists 2%nat, 0%nat, 0%nat; split; [lia | reflexivity]
    | exists 2%nat, 0%nat, 1%nat; split; [lia | reflexivity]
    | exists 2%nat, 1%nat, 0%nat; split; [lia | reflexivity]
    | exists 2%nat, 1%nat, 1%nat; split; [lia | reflexivity]
    | exists 2%nat, 2%nat, 0%nat; split; [lia | reflexivity]
    | exists 2%nat, 2%nat, 1%nat; split; [lia | reflexivity]
    | exists 3%nat, 0%nat, 0%nat; split; [lia | reflexivity]
    | exists 3%nat, 0%nat, 1%nat; split; [lia | reflexivity]
    | exists 3%nat, 1%nat, 0%nat; split; [lia | reflexivity]
    | exists 3%nat, 1%nat, 1%nat; split; [lia | reflexivity]
    | exists 3%nat, 2%nat, 0%nat; split; [lia | reflexivity]
    | exists 3%nat, 2%nat, 1%nat; split; [lia | reflexivity] ].

(** X2.  The shuffle of the four role labels is unbiased in its draws:
    every arrangement of the labels is produced by some in-range draws,
    and two runs that produce the same arrangement made the same three
    draws (up to the reduction into range). *)
Theorem X2_shuffle_all_arrangements :
  (forall l, l ≡ₚ all_characters ->
     exists a b c, (a < 4 /\ b < 3 /\ c < 2)%nat /\
       shuffleArray (draws3 a b c) all_characters = l) /\
  (forall rnd1 rnd2,
     shuffleArray rnd1 all_characters = shuffleArray rnd2 all_characters ->
     (rnd1 3 mod 4 = rnd2 3 mod 4 /\ rnd1 2 mod 3 = rnd2 2 mod 3 /\
      rnd1 1 mod 2 = rnd2 1 mod 2)%nat).
Proof.
  split.
  - intros l Hl. symmetry in Hl. apply permutations_Permutation in Hl.
    vm_compute in Hl.
    repeat (apply elem_of_cons in Hl as [->|Hl]; [find_draws|]).
    apply elem_of_nil in Hl. contradiction.
  - intros rnd1 rnd2. rewrite (shuffle_draws3 rnd1), (shuffle_draws3 rnd2).
    pose proof (Nat.mod_upper_bound (rnd1 3%nat) 4) as Ha1.
    pose proof (Nat.mod_upper_bound (rnd1 2%nat) 3) as Hb1.
    pose proof (Nat.mod_upper_bound (rnd1 1%nat) 2) as Hc1.
    pose proof (Nat.mod_upper_bound (rnd2 3%nat) 4) as Ha2.
    pose proof (Nat.mod_upper_bound (rnd2 2%nat) 3) as Hb2.
    pose proof (Nat.mod_upper_bound (rnd2 1%nat) 2) as Hc2.
    generalize dependent (rnd1 3 mod 4)%nat. intros a1 Ha1.
    generalize dependent (rnd1 2 mod 3)%nat. intros b1 Hb1.
    generalize dependent (rnd1 1 mod 2)%nat. intros c1 Hc1.
    generalize dependent (rnd2 3 mod 4)%nat. intros a2 Ha2.
    generalize dependent (rnd2 2 mod 3)%nat. intros b2 Hb2.
    generalize dependent (rnd2 1 mod 2)%nat. intros c2 Hc2.
    assert (Ha1' : (a1 < 4)%nat) by (apply Ha1; lia).
    assert (Hb1' : (b1 < 3)%nat) by (apply Hb1; lia).
    assert (Hc1' : (c1 < 2)%nat) by (apply Hc1; lia).
    assert (Ha2' : (a2 < 4)%nat) by (apply Ha2; lia).
    assert (Hb2' : (b2 < 3)%nat) by (apply Hb2; lia).
    assert (Hc2' : (c2 < 2)%nat) by (apply Hc2; lia).
    clear Ha1 Hb1 Hc1 Ha2 Hb2 Hc2.
    destruct a1 as [|[|[|[|?]]]]; try lia;
      destruct b1 as [|[|[|?]]]; try lia;
      destruct c1 as [|[|?]]; try lia;
      destruct a2 as [|[|[|[|?]]]]; try lia;
      destruct b2 as [|[|[|?]]]; try lia;
      destruct c2 as [|[|?]]; try lia;
      vm_compute; intros H; first [discriminate H | auto].
Qed.

(** ** Role assignment in the rooms of the registry *)

(** X3.  In a room of the registry the member at position [i] of the
    membership order receives the label at position [i] of the shuffle;
    the fallback [characters[index % characters.length]] is never used,
    because a room has at most four members. *)
Theorem X3_member_gets_shuffled_label st c room rnd i p :
  reachable st -> rooms st !! c = Some room ->
  okeys (players room) !! i = Some p ->
  is_Some (shuffleArray rnd all_characters !! i) /\
  oget p (characters (gameState (assignCharacters rnd room))) =
    shuffleArray rnd all_characters !! i.
Proof.
  intros Hreach Hroom Hi.
  destruct (reachable_ok st Hreach c room Hroom) as [_ Hnd _ Hsz _ _].
  assert (Hlt : (i < 4)%nat).
  { apply lookup_lt_Some in Hi. unfold okeys in Hi. rewrite length_map in Hi.
    unfold osize in Hsz. lia. }
  assert (Hsome : is_Some (shuffleArray rnd all_characters !! i)).
  { apply lookup_lt_is_Some. rewrite shuffled_length. exact Hlt. }
  split; [exact Hsome|]. destruct Hsome as [ch Hch].
  assert (Hp : p ∈ okeys (players room)) by (apply list_elem_of_lookup; eauto).
  destruct (assigned_characters rnd room p Hnd Hp) as [-> _].
  rewrite Hch. apply elem_oget.
  - unfold assigned. rewrite okeys_assigned_from. exact Hnd.
  - apply list_elem_of_lookup. exists i. unfold assigned.
    rewrite (assigned_from_lookup _ 0 _ i p Hi). simpl. unfold pick. rewrite Hch.
    reflexivity.
Qed.

Lemma X3_member_gets_shuffled_label_witness :
  is_Some (shuffleArray rnd_sipahi_first all_characters !! 1%nat) /\
  oget "B" (characters (gameState
              (assignCharacters rnd_sipahi_first (room_in (state_after lobby_four))))) =
    shuffleArray rnd_sipahi_first all_characters !! 1%nat.
Proof.
  apply (X3_member_gets_shuffled_label (state_after lobby_four) "ABC123"
           (room_in (state_after lobby_four)) rnd_sipahi_first 1%nat "B").
  - apply state_after_reachable. vm_compute. eexists. reflexivity.
  - vm_compute. reflexivity.
  - vm_compute. reflexivity.
Defined.

(** ** Invariants of the registry *)

(** X4.  A room of the registry is never empty and never has more than
    four members; its member ids are distinct and its [maxPlayers] is 4. *)
Theorem X4_room_capacity st c room :
  reachable st -> rooms st !! c = Some room ->
  (1 <= osize (players room) <= 4)%nat /\
  maxPlayers (settings room) = 4%nat /\
  NoDup (okeys (players room)).
Proof.
  intros Hreach Hroom.
  destruct (reachable_ok st Hreach c room Hroom) as [_ Hnd _ Hsz Hmax Hhost].
  split; [|auto]. split; [|exact Hsz].
  unfold osize. destruct (players room); [|simpl; lia].
  apply elem_of_nil in Hhost. contradiction.
Qed.

Lemma X4_room_capacity_witness :
  (1 <= osize (players (room_in (state_after lobby_four))) <= 4)%nat /\
  maxPlayers (settings (room_in (state_after lobby_four))) = 4%nat /\
  NoDup (okeys (players (room_in (state_after lobby_four)))).
Proof.
  apply (X4_room_capacity (state_after lobby_four) "ABC123").
  - apply state_after_reachable. vm_compute. eexists. reflexivity.
  - vm_compute. reflexivity.
Defined.

(** X5.  The display names of the members of a room of the registry are
    pairwise distinct. *)
Theorem X5_names_unique st c room k1 k2 p1 p2 :
  reachable st -> rooms st !! c = Some room ->
  oget k1 (players room) = Some p1 -> oget k2 (players room) = Some p2 ->
  name p1 = name p2 -> k1 = k2.
Proof.
  intros Hreach Hroom H1 H2 Hname.
  destruct (reachable_fine st Hreach c room Hroom) as [Hnames _ _ _ _ _].
  apply oget_Some_elem in H1, H2. revert Hnames H1 H2.
  generalize (players room). intros ps.
  induction ps as [|[k p] ps IH]; simpl; intros Hnd H1 H2.
  - apply elem_of_nil in H1. contradiction.
  - apply NoDup_cons in Hnd as [Hp Hnd].
    apply elem_of_cons in H1 as [H1|H1]; apply elem_of_cons in H2 as [H2|H2].
    + congruence.
    + injection H1 as -> ->. exfalso. apply Hp. rewrite Hname.
      apply (list_elem_of_fmap_2 name), (elem_ovalues k2), H2.
    + injection H2 as -> ->. exfalso. apply Hp. rewrite <- Hname.
      apply (list_elem_of_fmap_2 name), (elem_ovalues k1), H1.
    + auto.
Qed.

Lemma X5_names_unique_witness : "B" = "B".
Proof.
  apply (X5_names_unique (state_after lobby_four) "ABC123"
           (room_in (state_after lobby_four)) "B" "B"
           (mkPlayer "B" "Bob" "dog" false true) (mkPlayer "B" "Bob" "dog" false true)).
  - apply state_after_reachable. vm_compute. eexists. reflexivity.
  - vm_compute. reflexivity.
  - vm_compute. reflexivity.
  - vm_compute. reflexivity.
  - reflexivity.
Defined.

(** X6.  In a room of the registry the entry stored under a socket id
    carries that id, and a member whose [isHost] flag is set is the host of
    the room. *)
Theorem X6_host_flag st c room k p :
  reachable st -> rooms st !! c = Some room ->
  oget k (players room) = Some p ->
  id p = k /\ (isHost p = true -> hostId room = k).
Proof.
  intros Hreach Hroom Hp.
  destruct (reachable_fine st Hreach c room Hroom) as [_ Hids Hflag _ _ _].
  apply oget_Some_elem in Hp. rewrite Forall_forall in Hids, Hflag.
  split; [apply (Hids _ Hp)|]. intros Hh. symmetry. apply (Hflag _ Hp Hh).
Qed.

Lemma X6_host_flag_witness :
  id (mkPlayer "A" "Alice" "cat" true true) = "A" /\
  (isHost (mkPlayer "A" "Alice" "cat" true true) = true ->
   hostId (room_in (state_after lobby_four)) = "A").
Proof.
  apply (X6_host_flag (state_after lobby_four) "ABC123").
  - apply state_after_reachable. vm_compute. eexists. reflexivity.
  - vm_compute. reflexivity.
  - vm_compute. reflexivity.
Defined.

(** X7.  The room code recorded for a connected socket in the global
    [players] map always names a room of the registry, and the socket is a
    member of that room. *)
Theorem X7_recorded_room st s ref c :
  reachable st -> playerRefs st !! s = Some ref -> roomCode ref = Some c ->
  exists room,
    rooms st !! c = Some room /\ code room = c /\ s ∈ okeys (players room).
Proof.
  intros Hreach Href Hc.
  destruct (reachable_refs_ok st Hreach s ref c Href Hc) as (room & Hroom & Hs).
  exists room. split; [exact Hroom|]. split; [|exact Hs].
  apply (ok_code _ _ (reachable_ok st Hreach c room Hroom)).
Qed.

Lemma X7_recorded_room_witness :
  exists room,
    rooms (state_after lobby_four) !! "ABC123" = Some room /\
    code room = "ABC123" /\ "D" ∈ okeys (players room).
Proof.
  apply (X7_recorded_room (state_after lobby_four) "D" (mkPlayerRef "D" (Some "ABC123"))).
  - apply state_after_reachable. vm_compute. eexists. reflexivity.
  - vm_compute. reflexivity.
  - reflexivity.
Defined.

(** X9.  In a room of the registry no score is negative and the round
    counter is at least 1. *)
Theorem X9_scores_nonnegative st c room :
  reachable st -> rooms st !! c = Some room ->
  (forall k v, oget k (scores (gameState room)) = Some v -> 0 <= v) /\
  1 <= currentRound (gameState room).
Proof.
  intros Hreach Hroom.
  destruct (reachable_fine st Hreach c room Hroom) as [_ _ _ Hsc Hr _].
  split; [|exact Hr]. intros k v Hv. apply oget_Some_elem in Hv.
  rewrite Forall_forall in Hsc. apply (Hsc _ Hv).
Qed.

Lemma X9_scores_nonnegative_witness :
  (forall k v,
     oget k (scores (gameState (room_in (state_after game_of_four)))) = Some v -> 0 <= v) /\
  1 <= currentRound (gameState (room_in (state_after game_of_four))).
Proof.
  apply (X9_scores_nonnegative (state_after game_of_four) "ABC123").
  - apply state_after_reachable. vm_compute. eexists. reflexivity.
  - vm_compute. reflexivity.
Defined.

(** X16.  In a state the server can reach the periodic clean-up finds no
    empty room: it changes nothing and sends nothing. *)
Theorem X16_cleanup_changes_nothing st : reachable st -> on_cleanup st = (st, []).
Proof.
  intros Hreach. unfold on_cleanup. f_equal.
  destruct st as [rs pr]. simpl. f_equal. apply map_filter_id.
  intros c room Hroom. simpl.
  destruct (reachable_ok _ Hreach c room Hroom) as [_ _ _ _ _ Hhost].
  unfold osize. destruct (players room); [|discriminate].
  apply elem_of_nil in Hhost. contradiction.
Qed.

Lemma X16_cleanup_changes_nothing_witness :
  on_cleanup (state_after lobby_four) = (state_after lobby_four, []).
Proof.
  apply X16_cleanup_changes_nothing.
  apply state_after_reachable. vm_compute. eexists. reflexivity.
Defined.

(** ** The deltas of a round *)

(** X8.  A guess resolution takes no points away: every delta is
    non-negative, and the score of every id, read as [scores[id] || 0], is
    afterwards at least what it was. *)
Theorem X8_guess_never_lowers st c room suspected k :
  reachable st -> rooms st !! c = Some room ->
  let results := fst (calculateRoundResults room suspected) in
  let room' := snd (calculateRoundResults room suspected) in
  (forall d, oget k (pointChanges results) = Some d -> 0 <= d) /\
  or_default (oget k (scores (gameState room))) 0 <=
    or_default (oget k (scores (gameState room'))) 0.
Proof.
  intros Hreach Hroom. simpl.
  assert (Hd : forall d, oget k (point_changes room suspected) = Some d -> 0 <= d).
  { intros d Hd. apply oget_Some_elem in Hd.
    pose proof (point_changes_nonneg room suspected) as Hnn.
    rewrite Forall_forall in Hnn. apply (Hnn _ Hd). }
  split; [exact Hd|].
  rewrite oget_fold_add_points by apply point_changes_NoDup.
  destruct (oget k (point_changes room suspected)) as [d|]; [|lia].
  rewrite (or_default_0 (Some _)). simpl. specialize (Hd d eq_refl). lia.
Qed.

Lemma X8_guess_never_lowers_witness :
  let room := room_in (state_after game_of_four) in
  let results := fst (calculateRoundResults room (Some "C")) in
  let room' := snd (calculateRoundResults room (Some "C")) in
  (forall d, oget "B" (pointChanges results) = Some d -> 0 <= d) /\
  or_default (oget "B" (scores (gameState room))) 0 <=
    or_default (oget "B" (scores (gameState room'))) 0.
Proof.
  apply (X8_guess_never_lowers (state_after game_of_four) "ABC123").
  - apply state_after_reachable. vm_compute. eexists. reflexivity.
  - vm_compute. reflexivity.
Defined.

(** X10.  The ids that receive a delta in a guess resolution are the
    current members, the cached [sipahiId] and [chorId] (the key ["null"]
    when one of them is [null]) and every id whose entry of [characters] is
    Raja or Mantri, and no other. *)
Theorem X10_point_changes_keys st c room suspected k :
  reachable st -> rooms st !! c = Some room ->
  let g := gameState room in
  k ∈ okeys (pointChanges (fst (calculateRoundResults room suspected))) <->
  k ∈ okeys (players room) \/ k = key_of (sipahiId g) \/ k = key_of (chorId g) \/
  oget k (characters g) = Some Raja \/ oget k (characters g) = Some Mantri.
Proof.
  intros Hreach Hroom. simpl.
  destruct (reachable_ok st Hreach c room Hroom) as [_ _ Hnd _ _ _].
  rewrite <- oget_is_Some, point_changes_delta by exact Hnd. unfold delta. split.
  - intros [d Hd].
    destruct (oget k (characters (gameState room))) as [[]|]; auto;
      (destruct (String.eqb_spec k (key_of (chorId (gameState room)))); [auto|]);
      (destruct (String.eqb_spec k (key_of (sipahiId (gameState room)))); [auto|]);
      (destruct (decide (k ∈ okeys (players room))); [auto|]);
      rewrite bool_decide_eq_false_2 in Hd by assumption; discriminate.
  - intros H.
    destruct (oget k (characters (gameState room))) as [[]|] eqn:Hc;
      try (eexists; reflexivity);
      (destruct (String.eqb_spec k (key_of (chorId (gameState room))));
         [eexists; reflexivity|]);
      (destruct (String.eqb_spec k (key_of (sipahiId (gameState room))));
         [eexists; reflexivity|]);
      destruct H as [H|[H|[H|[H|H]]]]; try congruence;
      rewrite bool_decide_eq_true_2 by exact H; eexists; reflexivity.
Qed.

Lemma X10_point_changes_keys_witness :
  let room := room_in (state_after game_without_sipahi) in
  let g := gameState room in
  "null" ∈ okeys (pointChanges (fst (calculateRoundResults room (Some "B")))) <->
  "null" ∈ okeys (players room) \/ "null" = key_of (sipahiId g) \/
  "null" = key_of (chorId g) \/
  oget "null" (characters g) = Some Raja \/ oget "null" (characters g) = Some Mantri.
Proof.
  apply (X10_point_changes_keys (state_after game_without_sipahi) "ABC123").
  - apply state_after_reachable. vm_compute. eexists. reflexivity.
  - vm_compute. reflexivity.
Defined.

Lemma sum_Permutation (l1 l2 : list Z) :
  l1 ≡ₚ l2 -> fold_right Z.add 0 l1 = fold_right Z.add 0 l2.
Proof. induction 1; simpl; lia. Qed.

(** The values of a map, read through its lookups. *)
Lemma values_by_keys (m : omap Z) (f : string -> option Z) :
  NoDup (okeys m) -> (forall k, oget k m = f k) ->
  map snd m = map (fun k => default 0 (f k)) (okeys m).
Proof.
  intros Hnd Hf. unfold okeys. rewrite map_map. apply map_ext_in.
  intros [k v] Hin. apply list_elem_of_In in Hin. simpl.
  rewrite <- Hf, (elem_oget k v m Hnd Hin). reflexivity.
Qed.

(** X11.  When roles are assigned in a room of four members whose
    [characters] mapping has entries of current members only, the deltas
    of the round add up to 3600 = 2000 + 900 + 700 + 0, whether the guess
    is right or wrong.  ([room0] is the room at the call of
    [assignCharacters], with the membership and the [characters] of the
    room as the handler found it.) *)
Theorem X11_round_total st c room room0 rnd suspected :
  reachable st -> rooms st !! c = Some room ->
  players room0 = players room ->
  characters (gameState room0) = characters (gameState room) ->
  osize (players room) = 4%nat ->
  (forall k, k ∈ okeys (characters (gameState room)) -> k ∈ okeys (players room)) ->
  total (pointChanges (fst (calculateRoundResults (assignCharacters rnd room0) suspected)))
    = 3600.
Proof.
  intros Hreach Hroom Hp Hc H4 Hsub.
  destruct (reachable_ok st Hreach c room Hroom) as [_ Hnd Hndc Hsz _ _].
  rewrite <- Hp in Hnd, Hsz, H4, Hsub. rewrite <- Hc in Hndc, Hsub.
  set (R := assignCharacters rnd room0).
  set (sh := shuffleArray rnd all_characters).
  destruct (assignCharacters_roles rnd room0 Hnd Hsz) as [_ Hholds]. fold R in Hholds.
  assert (Hkeys : okeys (assigned rnd room0) = okeys (players room0))
    by (unfold assigned; apply okeys_assigned_from).
  assert (HndA : NoDup (okeys (assigned rnd room0))) by (rewrite Hkeys; exact Hnd).
  assert (HndR : NoDup (okeys (characters (gameState R)))).
  { unfold R. simpl. rewrite assign_loop_characters. apply NoDup_fold_oset, Hndc. }
  assert (Hsip : exists s, (s, Sipahi) ∈ assigned rnd room0 /\ sipahiId (gameState R) = Some s).
  { destruct (assign_loop_sipahiId sh 0 (okeys (players room0)) (gameState room0))
      as [[Hno _]|H]; [|exact H].
    destruct (assigned_labels_full rnd room0 Sipahi H4) as [p Hin].
    exfalso. exact (Hno p Hin). }
  assert (Hchor : exists s, (s, Chor) ∈ assigned rnd room0 /\ chorId (gameState R) = Some s).
  { destruct (assign_loop_chorId sh 0 (okeys (players room0)) (gameState room0))
      as [[Hno _]|H]; [|exact H].
    destruct (assigned_labels_full rnd room0 Chor H4) as [p Hin].
    exfalso. exact (Hno p Hin). }
  destruct Hsip as (s & Hs & HsR). destruct Hchor as (ch & Hch & HchR).
  set (g := fun c0 : Character =>
              match c0 with
              | Raja => 2000
              | Mantri => 900
              | Chor => if bool_decide (suspected = Some ch) then 0 else 700
              | Sipahi => if bool_decide (suspected = Some ch) then 700 else 0
              end).
  assert (HF : forall k c0, (k, c0) ∈ assigned rnd room0 -> delta R suspected k = Some (g c0)).
  { intros k c0 Hin. pose proof (proj2 (Hholds k c0) Hin) as [_ Hk].
    unfold delta. rewrite Hk, HsR, HchR. simpl. destruct c0; try reflexivity.
    - assert (k = ch)
        by (eapply NoDup_snd_inj; [apply (assigned_labels_NoDup rnd room0 Hsz) | exact Hin | exact Hch]).
      subst k. rewrite String.eqb_refl. reflexivity.
    - assert (k = s)
        by (eapply NoDup_snd_inj; [apply (assigned_labels_NoDup rnd room0 Hsz) | exact Hin | exact Hs]).
      subst k. destruct (String.eqb_spec s ch) as [->|Hne].
      + pose proof (elem_oget _ _ _ HndA Hin) as E1.
        pose proof (elem_oget _ _ _ HndA Hch) as E2. congruence.
      + rewrite String.eqb_refl. reflexivity. }
  assert (Hdom : forall k, k ∈ okeys (point_changes R suspected) <-> k ∈ okeys (players room0)).
  { intros k. rewrite <- oget_is_Some, point_changes_delta by exact HndR. split.
    - intros [d Hd].
      assert (Hchars : is_Some (oget k (characters (gameState R))) -> k ∈ okeys (players room0)).
      { unfold R. simpl. rewrite assign_loop_characters, oget_fold_oset by exact HndA.
        change (assigned_from (shuffleArray rnd all_characters) 0 (okeys (players room0)))
          with (assigned rnd room0).
        destruct (oget k (assigned rnd room0)) eqn:Ha.
        - intros _. rewrite <- Hkeys. apply oget_is_Some. rewrite Ha. eexists. reflexivity.
        - intros Hk. apply Hsub, oget_is_Some, Hk. }
      unfold delta in Hd. rewrite HsR, HchR in Hd. cbn [key_of] in Hd.
      destruct (oget k (characters (gameState R))) as [[]|] eqn:Hk;
        try (apply Hchars; eexists; reflexivity);
        (destruct (String.eqb_spec k ch) as [->|_];
           [rewrite <- Hkeys; eapply elem_okeys, Hch|]);
        (destruct (String.eqb_spec k s) as [->|_];
           [rewrite <- Hkeys; eapply elem_okeys, Hs|]);
        (destruct (decide (k ∈ okeys (players room0))); [assumption|]);
        rewrite bool_decide_eq_false_2 in Hd by assumption; discriminate Hd.
    - intros Hk. rewrite <- Hkeys in Hk. apply oget_is_Some in Hk as [c0 Hc0].
      apply oget_Some_elem in Hc0. rewrite (HF k c0 Hc0). eexists. reflexivity. }
  assert (Hperm : okeys (point_changes R suspected) ≡ₚ okeys (assigned rnd room0)).
  { apply NoDup_Permutation; [apply point_changes_NoDup | exact HndA|].
    intros k. rewrite Hkeys. apply Hdom. }
  unfold total. simpl.
  rewrite (values_by_keys _ (delta R suspected) (point_changes_NoDup R suspected))
    by (intros k; apply point_changes_delta, HndR).
  rewrite (sum_Permutation _ _
             (Permutation_map (fun k => default 0 (delta R suspected k)) Hperm)).
  unfold okeys. rewrite map_map.
  rewrite (map_ext_in _ (fun e => g (snd e))).
  2: { intros [k c0] Hin. apply list_elem_of_In in Hin. simpl.
       rewrite (HF k c0 Hin). reflexivity. }
  rewrite <- (map_map snd g).
  assert (Hlabels : map snd (assigned rnd room0) ≡ₚ all_characters).
  { unfold assigned. rewrite labels_assigned_from.
    - rewrite drop_0. unfold okeys. rewrite length_map. unfold osize in H4. rewrite H4.
      rewrite <- (shuffled_length rnd), firstn_all. apply shuffleArray_Permutation.
    - rewrite shuffled_length. unfold okeys. rewrite length_map. unfold osize in H4. lia. }
  rewrite (sum_Permutation _ _ (Permutation_map g Hlabels)).
  simpl. destruct (bool_decide (suspected = Some ch)); reflexivity.
Qed.

Lemma X11_round_total_witness :
  total (pointChanges (fst (calculateRoundResults
           (assignCharacters rnd_sipahi_second (room_in (state_after lobby_four)))
           (Some "A")))) = 3600.
Proof.
  apply (X11_round_total (state_after lobby_four) "ABC123" (room_in (state_after lobby_four))).
  - apply state_after_reachable. vm_compute. eexists. reflexivity.
  - vm_compute. reflexivity.
  - reflexivity.
  - reflexivity.
  - vm_compute. reflexivity.
  - vm_compute. intros k Hk. apply elem_of_nil in Hk. contradiction.
Defined.

(** ** The start-game and next-round handlers *)

(** X12.  A start-game is answered in one of three ways.  When the room
    code has no entry or the caller is not the host, the caller gets "Not
    authorized to start game"; when the host's room has fewer than two
    members, "Need at least 2 players"; in both cases the state is
    unchanged.  Otherwise, whatever the status of the room, the game
    (re)starts: status [playing], round 1, [totalRounds] taken from the
    payload or else from the settings, the score of every member reset to
    0, scores under other keys and the membership untouched, and one
    [character-assigned] message per member after [game-started]. *)
Theorem X12_start_game rnd s data st :
  ((forall room, rooms st !! sd_roomCode data = Some room -> hostId room <> s) /\
   on_start_game rnd s data st =
     (st, [(ToSocket s, error "Not authorized to start game")]))
  \/
  (exists room,
     rooms st !! sd_roomCode data = Some room /\ hostId room = s /\
     (osize (players room) < 2)%nat /\
     on_start_game rnd s data st = (st, [(ToSocket s, error "Need at least 2 players")]))
  \/
  (exists room room',
     rooms st !! sd_roomCode data = Some room /\ hostId room = s /\
     (2 <= osize (players room))%nat /\
     fst (on_start_game rnd s data st) = update_room (sd_roomCode data) room' st /\
     status (gameState room') = playing /\
     currentRound (gameState room') = 1 /\
     totalRounds (gameState room') = or_default (sd_rounds data) (rounds (settings room)) /\
     players room' = players room /\ hostId room' = s /\
     (forall k, k ∈ okeys (players room) -> oget k (scores (gameState room')) = Some 0) /\
     (forall k, k ∉ okeys (players room) ->
        oget k (scores (gameState room')) = oget k (scores (gameState room))) /\
     snd (on_start_game rnd s data st) =
       (ToRoom (sd_roomCode data),
        game_started 1 (or_default (sd_rounds data) (rounds (settings room))))
         :: character_messages room' /\
     length (character_messages room') = osize (players room)).
Proof.
  unfold on_start_game.
  destruct (rooms st !! sd_roomCode data) as [room|] eqn:Hroom.
  2: { left. split; [discriminate | reflexivity]. }
  destruct (String.eqb_spec (hostId room) s) as [Hh|Hh]; simpl.
  2: { left. split; [intros r [= <-]; exact Hh | reflexivity]. }
  destruct (Nat.ltb_spec (osize (players room)) 2) as [Hlt|Hge].
  { right. left. exists room. auto. }
  right. right. eexists room, _. split; [reflexivity|]. split; [exact Hh|].
  split; [exact Hge|]. split; [reflexivity|].
  destruct (assign_loop_frame (shuffleArray rnd all_characters) 0 (okeys (players room))
              (set_scores
                 (fold_left (fun sc playerId => oset playerId 0 sc) (okeys (players room))
                    (scores (gameState room)))
                 (set_currentRound 1
                    (set_status playing
                       (set_totalRounds
                          (or_default (sd_rounds data) (rounds (settings room)))
                          (gameState room))))))
    as (Hs & Hr & Ht & Hsc & _).
  simpl in *. rewrite Hs, Hr, Ht, Hsc.
  repeat (split; [reflexivity || assumption|]).
  split; [|split; [|split; [reflexivity|]]].
  - intros k Hk. rewrite oget_fold_const, bool_decide_eq_true_2 by exact Hk. reflexivity.
  - intros k Hk. rewrite oget_fold_const, bool_decide_eq_false_2 by exact Hk. reflexivity.
  - unfold character_messages, okeys, osize. simpl. rewrite !length_map. reflexivity.
Qed.

(** X13.  A next-round is rejected, with "Not authorized" and the state
    unchanged, exactly when the room code has no entry or the caller is not
    the host.  Otherwise, whatever the status of the room, the round
    counter grows by exactly one, the status becomes [finished] when the
    counter passes [totalRounds] and keeps its value otherwise, and the
    membership, the host, the scores and [totalRounds] are unchanged. *)
Theorem X13_next_round_guard rnd s c st :
  ((forall room, rooms st !! c = Some room -> hostId room <> s) /\
   on_next_round rnd s c st = (st, [(ToSocket s, error "Not authorized")]))
  \/
  (exists room room',
     rooms st !! c = Some room /\ hostId room = s /\
     fst (on_next_round rnd s c st) = update_room c room' st /\
     currentRound (gameState room') = currentRound (gameState room) + 1 /\
     status (gameState room') =
       (if totalRounds (gameState room) <? currentRound (gameState room) + 1
        then finished else status (gameState room)) /\
     totalRounds (gameState room') = totalRounds (gameState room) /\
     players room' = players room /\ hostId room' = s /\
     scores (gameState room') = scores (gameState room)).
Proof.
  unfold on_next_round.
  destruct (rooms st !! c) as [room|] eqn:Hroom.
  2: { left. split; [discriminate | reflexivity]. }
  destruct (String.eqb_spec (hostId room) s) as [Hh|Hh]; simpl.
  2: { left. split; [intros r [= <-]; exact Hh | reflexivity]. }
  right. destruct (totalRounds (gameState room) <? currentRound (gameState room) + 1) eqn:Hlt;
    simpl; eexists room, _; (split; [reflexivity|]); (split; [exact Hh|]);
    (split; [reflexivity|]); simpl; rewrite Hlt.
  - repeat split; try reflexivity; exact Hh.
  - destruct (assign_loop_frame (shuffleArray rnd all_characters) 0 (okeys (players room))
                (set_currentRound (currentRound (gameState room) + 1) (gameState room)))
      as (Hs & Hr & Ht & Hsc & _).
    simpl in *. rewrite Hs, Hr, Ht, Hsc. repeat split; try reflexivity; exact Hh.
Qed.

(** ** The create-room handler *)

(** X14.  A create-room of a connected socket whose draws contain a free
    code registers a room in which the caller is the only member and the
    host, flagged [isHost] and [isReady]; the room is [waiting] in round 1
    with an empty role assignment, the caller's score is 0, [maxPlayers]
    is 4, and the number of rounds is the requested one, or 5 when the
    request has none or 0.  The caller's record in the global [players] map
    points to the new room. *)
Theorem X14_create_room st s data draws d :
  connected s st = true -> d ∈ draws -> rooms st !! d = None ->
  exists room st',
    on_create_room draws s data st =
      Some (st', [(ToSocket s,
                   room_created (code room)
                     [mkPlayer s (hd_name data) (hd_avatar data) true true]
                     (mkSettings 4 (or_default (hd_rounds data) 5)))]) /\
    rooms st' !! code room = Some room /\
    players room = [(s, mkPlayer s (hd_name data) (hd_avatar data) true true)] /\
    hostId room = s /\
    settings room = mkSettings 4 (or_default (hd_rounds data) 5) /\
    gameState room =
      mkGameState waiting 1 (or_default (hd_rounds data) 5) [] [(s, 0)]
        None None None None /\
    (roomCode <$> playerRefs st' !! s) = Some (Some (code room)) /\
    (forall s', s' <> s -> playerRefs st' !! s' = playerRefs st !! s').
Proof.
  unfold connected. intros Hconn Hd Hfree.
  apply bool_decide_eq_true in Hconn as [ref Href].
  destruct (fresh_code_complete (rooms st) draws d Hd Hfree) as [c Hc].
  unfold on_create_room, createRoom. rewrite Hc. simpl. rewrite Href.
  eexists (new_room c s data), _. split; [reflexivity|]. simpl.
  split; [apply lookup_insert_eq|]. repeat (split; [reflexivity|]).
  split; [rewrite lookup_insert_eq; reflexivity|].
  intros s' Hne. apply lookup_insert_ne. congruence.
Qed.

Lemma X14_create_room_witness :
  let st := state_after (lobby_two ++ [connection "C"]) in
  let data := mkHostData "Carol" "owl" (Some 0) in
  exists room st',
    on_create_room ["ABC123"; "XYZ789"] "C" data st =
      Some (st', [(ToSocket "C",
                   room_created (code room)
                     [mkPlayer "C" (hd_name data) (hd_avatar data) true true]
                     (mkSettings 4 (or_default (hd_rounds data) 5)))]) /\
    rooms st' !! code room = Some room /\
    players room = [("C", mkPlayer "C" (hd_name data) (hd_avatar data) true true)] /\
    hostId room = "C" /\
    settings room = mkSettings 4 (or_default (hd_rounds data) 5) /\
    gameState room =
      mkGameState waiting 1 (or_default (hd_rounds data) 5) [] [("C", 0)]
        None None None None /\
    (roomCode <$> playerRefs st' !! "C") = Some (Some (code room)) /\
    (forall s', s' <> "C" -> playerRefs st' !! s' = playerRefs st !! s').
Proof.
  apply (X14_create_room (state_after (lobby_two ++ [connection "C"])) "C"
           (mkHostData "Carol" "owl" (Some 0)) ["ABC123"; "XYZ789"] "XYZ789").
  - vm_compute. reflexivity.
  - apply list_elem_of_further, list_elem_of_here.
  - vm_compute. reflexivity.
Defined.

(** ** The disconnect handler *)

Lemma on_disconnect_unknown s st :
  playerRefs st !! s = None -> on_disconnect s st = (st, []).
Proof.
  intros Hs. unfold on_disconnect, room_of. rewrite Hs.
  rewrite (delete_id _ _ Hs). destruct st; reflexivity.
Qed.

Lemma on_disconnect_forgets s st : playerRefs (fst (on_disconnect s st)) !! s = None.
Proof.
  unfold on_disconnect. destruct (room_of s st) as [[c room]|]; simpl.
  - destruct (String.eqb _ _); [destruct (okeys _)|]; simpl; apply lookup_delete_eq.
  - apply lookup_delete_eq.
Qed.

(** X15.  The disconnect of a socket that the global [players] map does
    not know changes nothing and sends nothing; in particular a second
    disconnect of the same socket is without effect. *)
Theorem X15_disconnect_idempotent s st :
  (playerRefs st !! s = None -> on_disconnect s st = (st, [])) /\
  on_disconnect s (fst (on_disconnect s st)) = (fst (on_disconnect s st), []).
Proof.
  split; [apply on_disconnect_unknown|].
  apply on_disconnect_unknown, on_disconnect_forgets.
Qed.

(** ** What an event leaves alone *)

Lemma room_step_refl r : room_step r r.
Proof. unfold room_step. auto. Qed.

Lemma room_step_insert (rs : gmap string Room) c0 r0 r1 :
  rs !! c0 = Some r0 -> room_step r0 r1 ->
  forall c room room',
    rs !! c = Some room -> <[c0 := r1]> rs !! c = Some room' -> room_step room room'.
Proof.
  intros H0 Hstep c room room' Hc. rewrite lookup_insert.
  destruct (decide (c0 = c)) as [->|Hne].
  - intros [= <-]. rewrite H0 in Hc. injection Hc as <-. exact Hstep.
  - intros H. rewrite Hc in H. injection H as <-. apply room_step_refl.
Qed.

(** X17.  No event changes the code or the settings of a room that stays
    in the registry, and none takes a game back to [waiting]: once a game
    has started its room is [playing] or [finished] for as long as it
    exists. *)
Theorem X17_never_back_to_waiting a st st' out c room room' :
  handle a st = Some (st', out) ->
  rooms st !! c = Some room -> rooms st' !! c = Some room' ->
  room_step room room'.
Proof.
  intros Hh Hroom. revert Hh. destruct a; simpl.
  - unfold on_connection. intros [= <- <-]. simpl. rewrite Hroom.
    intros [= <-]. apply room_step_refl.
  - unfold on_create_room, createRoom.
    destruct (fresh_code (rooms st) draws) as [c0|] eqn:Hc0; [|discriminate].
    apply fresh_code_spec in Hc0 as [_ Hfree]. simpl.
    destruct (playerRefs st !! socketId); intros [= <- <-]; simpl;
      rewrite lookup_insert_ne by congruence; rewrite Hroom;
      intros [= <-]; apply room_step_refl.
  - handler_state. unfold on_join_room.
    destruct (rooms st !! jd_roomCode data) as [r0|] eqn:Hr0.
    2: { simpl. rewrite Hroom. intros [= <-]. apply room_step_refl. }
    destruct (_ <=? _)%nat; [simpl; rewrite Hroom; intros [= <-]; apply room_step_refl|].
    destruct (bool_decide _); [simpl; rewrite Hroom; intros [= <-]; apply room_step_refl|].
    destruct (List.find _ _); [simpl; rewrite Hroom; intros [= <-]; apply room_step_refl|].
    simpl. destruct (playerRefs st !! socketId); simpl;
      apply (room_step_insert _ _ r0); auto; unfold room_step; simpl; auto.
  - handler_state. unfold on_start_game.
    destruct (rooms st !! sd_roomCode data) as [r0|] eqn:Hr0.
    2: { simpl. rewrite Hroom. intros [= <-]. apply room_step_refl. }
    destruct (negb _); [simpl; rewrite Hroom; intros [= <-]; apply room_step_refl|].
    destruct (_ <? _)%nat; [simpl; rewrite Hroom; intros [= <-]; apply room_step_refl|].
    simpl. apply (room_step_insert _ _ r0); auto. unfold room_step. simpl.
    split; [reflexivity|]. split; [reflexivity|]. intros _.
    destruct (assign_loop_frame (shuffleArray rnd all_characters) 0 (okeys (players r0))
                (set_scores
                   (fold_left (fun sc playerId => oset playerId 0 sc) (okeys (players r0))
                      (scores (gameState r0)))
                   (set_currentRound 1
                      (set_status playing
                         (set_totalRounds
                            (or_default (sd_rounds data) (rounds (settings r0)))
                            (gameState r0)))))) as (Hs & _).
    simpl in Hs. rewrite Hs. discriminate.
  - handler_state. unfold on_make_guess.
    destruct (rooms st !! gd_roomCode data) as [r0|] eqn:Hr0.
    2: { simpl. rewrite Hroom. intros [= <-]. apply room_step_refl. }
    destruct (negb _); [simpl; rewrite Hroom; intros [= <-]; apply room_step_refl|].
    simpl. apply (room_step_insert _ _ r0); auto. unfold room_step. simpl. auto.
  - handler_state. unfold on_next_round.
    destruct (rooms st !! roomCode0) as [r0|] eqn:Hr0.
    2: { simpl. rewrite Hroom. intros [= <-]. apply room_step_refl. }
    destruct (negb _); [simpl; rewrite Hroom; intros [= <-]; apply room_step_refl|].
    simpl. destruct (_ <? _); simpl; apply (room_step_insert _ _ r0); auto;
      unfold room_step; simpl.
    + split; [reflexivity|]. split; [reflexivity|]. discriminate.
    + destruct (assign_loop_frame (shuffleArray rnd all_characters) 0 (okeys (players r0))
                  (set_currentRound (currentRound (gameState r0) + 1) (gameState r0)))
        as (Hs & _).
      simpl in Hs. rewrite Hs. auto.
  - handler_state. unfold on_disconnect.
    destruct (room_of socketId st) as [[c0 r0]|] eqn:Hro.
    2: { simpl. rewrite Hroom. intros [= <-]. apply room_step_refl. }
    apply room_of_Some in Hro as [_ Hr0]. simpl.
    destruct (String.eqb (hostId r0) socketId).
    + destruct (okeys (odel socketId (players r0))) as [|h ks]; simpl.
      * rewrite lookup_delete. destruct (decide (c0 = c)); [discriminate|].
        rewrite Hroom. intros [= <-]. apply room_step_refl.
      * apply (room_step_insert _ _ r0); auto. unfold room_step. simpl. auto.
    + simpl. apply (room_step_insert _ _ r0); auto. unfold room_step. simpl. auto.
  - unfold on_cleanup. intros [= <- <-]. simpl. intros H.
    apply map_lookup_filter_Some in H as [H _]. rewrite Hroom in H.
    injection H as <-. apply room_step_refl.
Qed.

Lemma X17_never_back_to_waiting_witness :
  room_step (room_in (state_after game_finished_two))
    (room_in (fst (on_start_game rnd_keep "A" (mkStartData "ABC123" None)
                     (state_after game_finished_two)))).
Proof.
  apply (X17_never_back_to_waiting
           (start_game "A" (mkStartData "ABC123" None) rnd_keep)
           (state_after game_finished_two)
           (fst (on_start_game rnd_keep "A" (mkStartData "ABC123" None)
                   (state_after game_finished_two)))
           (snd (on_start_game rnd_keep "A" (mkStartData "ABC123" None)
                   (state_after game_finished_two)))
           "ABC123").
  - vm_compute. reflexivity.
  - vm_compute. reflexivity.
  - vm_compute. reflexivity.
Defined.

(** X22.  An event of a socket touches the record of no other socket in
    the global [players] map and the entry of at most one room code in the
    registry. *)
Theorem X22_event_is_local a st st' out s :
  handle a st = Some (st', out) -> socket_of a = Some s ->
  (forall s', s' <> s -> playerRefs st' !! s' = playerRefs st !! s') /\
  (exists c, forall c', c' <> c -> rooms st' !! c' = rooms st !! c').
Proof.
  intros Hh Hs. revert Hh. destruct a; simpl in Hs; try discriminate;
    injection Hs as ->; simpl.
  - unfold on_connection. intros [= <- <-]. simpl. split.
    + intros s' Hne. apply lookup_insert_ne. congruence.
    + exists "". reflexivity.
  - unfold on_create_room, createRoom.
    destruct (fresh_code (rooms st) draws) as [c0|]; [|discriminate]. simpl.
    destruct (playerRefs st !! s); intros [= <- <-]; simpl; split;
      try (intros s' Hne; try apply lookup_insert_ne; congruence);
      exists c0; intros c' Hne; apply lookup_insert_ne; congruence.
  - handler_state. unfold on_join_room.
    destruct (rooms st !! jd_roomCode data) as [r0|];
      [|split; [reflexivity | exists ""; reflexivity]].
    destruct (_ <=? _)%nat; [split; [reflexivity | exists ""; reflexivity]|].
    destruct (bool_decide _); [split; [reflexivity | exists ""; reflexivity]|].
    destruct (List.find _ _); [split; [reflexivity | exists ""; reflexivity]|].
    simpl. destruct (playerRefs st !! s); simpl; split;
      try (intros s' Hne; try apply lookup_insert_ne; congruence);
      exists (jd_roomCode data); intros c' Hne; apply lookup_insert_ne; congruence.
  - handler_state. unfold on_start_game.
    destruct (rooms st !! sd_roomCode data) as [r0|];
      [|split; [reflexivity | exists ""; reflexivity]].
    destruct (negb _); [split; [reflexivity | exists ""; reflexivity]|].
    destruct (_ <? _)%nat; [split; [reflexivity | exists ""; reflexivity]|].
    simpl. split; [reflexivity|].
    exists (sd_roomCode data). intros c' Hne. apply lookup_insert_ne. congruence.
  - handler_state. unfold on_make_guess.
    destruct (rooms st !! gd_roomCode data) as [r0|];
      [|split; [reflexivity | exists ""; reflexivity]].
    destruct (negb _); [split; [reflexivity | exists ""; reflexivity]|].
    simpl. split; [reflexivity|].
    exists (gd_roomCode data). intros c' Hne. apply lookup_insert_ne. congruence.
  - handler_state. unfold on_next_round.
    destruct (rooms st !! roomCode0) as [r0|];
      [|split; [reflexivity | exists ""; reflexivity]].
    destruct (negb _); [split; [reflexivity | exists ""; reflexivity]|].
    simpl. destruct (_ <? _); simpl; (split; [reflexivity|]);
      exists roomCode0; intros c' Hne; apply lookup_insert_ne; congruence.
  - handler_state. unfold on_disconnect.
    destruct (room_of s st) as [[c0 r0]|]; simpl.
    + destruct (String.eqb _ _); [destruct (okeys _)|]; simpl; split;
        try (intros s' Hne; apply lookup_delete_ne; congruence);
        exists c0; intros c' Hne;
        first [apply lookup_delete_ne | apply lookup_insert_ne]; congruence.
    + split; [intros s' Hne; apply lookup_delete_ne; congruence | exists ""; reflexivity].
Qed.

Lemma X22_event_is_local_witness :
  let st := state_after game_of_four in
  let st' := fst (on_disconnect "B" st) in
  (forall s', s' <> "B" -> playerRefs st' !! s' = playerRefs st !! s') /\
  (exists c, forall c', c' <> c -> rooms st' !! c' = rooms st !! c').
Proof.
  apply (X22_event_is_local (disconnect "B") (state_after game_of_four)
           (fst (on_disconnect "B" (state_after game_of_four)))
           (snd (on_disconnect "B" (state_after game_of_four))) "B").
  - vm_compute. reflexivity.
  - reflexivity.
Defined.

(** ** The counts of the health check *)

Lemma size_lookup_pos {V} (m : gmap string V) i x : m !! i = Some x -> size m <> O.
Proof.
  intros H Hz. apply map_size_empty_iff in Hz. subst m.
  rewrite lookup_empty in H. discriminate.
Qed.

Lemma cleanup_keeps_rooms st :
  server_ok st ->
  filter (fun e => osize (players (snd e)) <> O) (rooms st) = rooms st.
Proof.
  intros Hok. apply map_filter_id. intros c room Hroom. simpl.
  destruct (Hok c room Hroom) as [_ _ _ _ _ Hhost].
  unfold osize. destruct (players room); [|discriminate].
  apply elem_of_nil in Hhost. contradiction.
Qed.

(** X18.  The counts that [/health] reports move with the events as
    follows, in every state the server can reach: a connection adds one
    player, a completed create-room adds one room, a disconnect removes one
    player and at most one room, and no other event (join-room, start-game,
    make-guess, next-round, the clean-up) changes either count. *)
Theorem X18_health_counts a st st' out :
  reachable st -> enabled a st = true -> handle a st = Some (st', out) ->
  match a with
  | connection _ => health st' = (fst (health st), S (snd (health st)))
  | create_room _ _ _ => health st' = (S (fst (health st)), snd (health st))
  | disconnect _ =>
      S (snd (health st')) = snd (health st) /\
      (fst (health st') = fst (health st) \/ S (fst (health st')) = fst (health st))
  | _ => health st' = health st
  end.
Proof.
  intros Hreach Hen. pose proof (reachable_ok st Hreach) as Hok.
  unfold health. destruct a; simpl in Hen; unfold connected in Hen; simpl.
  - apply negb_true_iff, bool_decide_eq_false in Hen.
    apply eq_None_not_Some in Hen.
    unfold on_connection. intros [= <- <-]. simpl.
    rewrite (map_size_insert_None _ _ _ Hen). reflexivity.
  - apply bool_decide_eq_true in Hen as [ref Href].
    unfold on_create_room, createRoom.
    destruct (fresh_code (rooms st) draws) as [c0|] eqn:Hc0; [|discriminate].
    apply fresh_code_spec in Hc0 as [_ Hfree]. simpl. rewrite Href.
    intros [= <- <-]. simpl.
    rewrite (map_size_insert_None _ _ _ Hfree), map_size_insert_Some by eauto.
    reflexivity.
  - apply bool_decide_eq_true in Hen as [ref Href].
    handler_state. unfold on_join_room.
    destruct (rooms st !! jd_roomCode data) as [r0|] eqn:Hr0; [|reflexivity].
    destruct (_ <=? _)%nat; [reflexivity|]. destruct (bool_decide _); [reflexivity|].
    destruct (List.find _ _); [reflexivity|]. simpl. rewrite Href. simpl.
    rewrite !map_size_insert_Some by eauto. reflexivity.
  - handler_state. unfold on_start_game.
    destruct (rooms st !! sd_roomCode data) as [r0|] eqn:Hr0; [|reflexivity].
    destruct (negb _); [reflexivity|]. destruct (_ <? _)%nat; [reflexivity|]. simpl.
    rewrite map_size_insert_Some by eauto. reflexivity.
  - handler_state. unfold on_make_guess.
    destruct (rooms st !! gd_roomCode data) as [r0|] eqn:Hr0; [|reflexivity].
    destruct (negb _); [reflexivity|]. simpl.
    rewrite map_size_insert_Some by eauto. reflexivity.
  - handler_state. unfold on_next_round.
    destruct (rooms st !! roomCode0) as [r0|] eqn:Hr0; [|reflexivity].
    destruct (negb _); [reflexivity|]. simpl.
    destruct (_ <? _); simpl; rewrite map_size_insert_Some by eauto; reflexivity.
  - apply bool_decide_eq_true in Hen as [ref Href].
    handler_state. unfold on_disconnect.
    assert (Hp : S (size (delete socketId (playerRefs st))) = size (playerRefs st)).
    { rewrite map_size_delete_Some by eauto.
      pose proof (size_lookup_pos _ _ _ Href). lia. }
    destruct (room_of socketId st) as [[c0 r0]|] eqn:Hro; simpl; [|auto].
    apply room_of_Some in Hro as [_ Hr0].
    destruct (String.eqb _ _); [destruct (okeys _)|]; simpl; (split; [exact Hp|]).
    + right. rewrite map_size_delete_Some by eauto.
      pose proof (size_lookup_pos _ _ _ Hr0). lia.
    + left. apply map_size_insert_Some. eauto.
    + left. apply map_size_insert_Some. eauto.
  - unfold on_cleanup. intros [= <- <-]. simpl.
    rewrite (cleanup_keeps_rooms st Hok). reflexivity.
Qed.

Lemma X18_health_counts_witness :
  let st := state_after lobby_two in
  let st' := fst (on_disconnect "B" st) in
  S (snd (health st')) = snd (health st) /\
  (fst (health st') = fst (health st) \/ S (fst (health st')) = fst (health st)).
Proof.
  apply (X18_health_counts (disconnect "B") (state_after lobby_two)
           (fst (on_disconnect "B" (state_after lobby_two)))
           (snd (on_disconnect "B" (state_after lobby_two)))).
  - apply state_after_reachable. vm_compute. eexists. reflexivity.
  - vm_compute. reflexivity.
  - vm_compute. reflexivity.
Defined.

(** ** Joining and the membership order *)

(** X19.  An accepted join-room puts the caller last in the membership
    order when it was not a member, and leaves the order as it is when it
    was one already; the caller's entry is the new one, with [isHost]
    false, even when the caller is the host of the room; no other entry,
    and neither the host nor the status of the room, changes. *)
Theorem X19_join_keeps_order s data st room :
  connected s st = true ->
  rooms st !! jd_roomCode data = Some room ->
  (osize (players room) < maxPlayers (settings room))%nat ->
  status (gameState room) <> playing ->
  (forall p, p ∈ ovalues (players room) -> name p <> jd_name data) ->
  exists room',
    rooms (fst (on_join_room s data st)) !! jd_roomCode data = Some room' /\
    okeys (players room') =
      (if bool_decide (s ∈ okeys (players room))
       then okeys (players room) else (okeys (players room) ++ [s])%list) /\
    oget s (players room') =
      Some (mkPlayer s (jd_name data) (jd_avatar data) false true) /\
    (forall k, k <> s -> oget k (players room') = oget k (players room)) /\
    hostId room' = hostId room /\
    status (gameState room') = status (gameState room) /\
    oget s (scores (gameState room')) = Some 0.
Proof.
  unfold connected. intros Hconn Hroom Hfree Hst Hnames.
  apply bool_decide_eq_true in Hconn as [ref Href].
  unfold on_join_room. rewrite Hroom.
  destruct (Nat.leb_spec (maxPlayers (settings room)) (osize (players room))); [lia|].
  rewrite bool_decide_eq_false_2 by exact Hst.
  rewrite (proj2 (find_name_None _ _) Hnames). simpl. rewrite Href. simpl.
  eexists. split; [apply lookup_insert_eq|]. simpl.
  split; [|split; [apply oget_oset_eq|split; [|split; [reflexivity|split;
    [reflexivity | apply oget_oset_eq]]]]].
  - rewrite okeys_oset. destruct (decide (s ∈ okeys (players room))) as [Hin|Hnin].
    + rewrite bool_decide_eq_true_2 by exact Hin.
      apply oget_is_Some in Hin as [p ->]. reflexivity.
    + rewrite bool_decide_eq_false_2 by exact Hnin.
      apply oget_None in Hnin. rewrite Hnin. reflexivity.
  - intros k Hk. apply oget_oset_ne, Hk.
Qed.

Lemma X19_join_keeps_order_witness :
  let st := state_after lobby_two in
  let data := mkJoinData "ABC123" "Alicia" "cat" in
  let room := room_in st in
  exists room',
    rooms (fst (on_join_room "A" data st)) !! jd_roomCode data = Some room' /\
    okeys (players room') =
      (if bool_decide ("A" ∈ okeys (players room))
       then okeys (players room) else (okeys (players room) ++ ["A"])%list) /\
    oget "A" (players room') =
      Some (mkPlayer "A" (jd_name data) (jd_avatar data) false true) /\
    (forall k, k <> "A" -> oget k (players room') = oget k (players room)) /\
    hostId room' = hostId room /\
    status (gameState room') = status (gameState room) /\
    oget "A" (scores (gameState room')) = Some 0.
Proof.
  apply (X19_join_keeps_order "A" (mkJoinData "ABC123" "Alicia" "cat")
           (state_after lobby_two) (room_in (state_after lobby_two))).
  - vm_compute. reflexivity.
  - vm_compute. reflexivity.
  - vm_compute. lia.
  - vm_compute. discriminate.
  - vm_compute. intros p Hp.
    repeat (apply elem_of_cons in Hp as [->|Hp]; [discriminate|]).
    apply elem_of_nil in Hp. contradiction.
Defined.

(** The host of a lobby joins her own room again under another name: she
    is still the host, and her entry is no longer flagged. *)
Example host_rejoins :
  let room := room_in (fst (on_join_room "A" (mkJoinData "ABC123" "Alicia" "cat")
                              (state_after lobby_two))) in
  hostId room = "A" /\ (isHost <$> oget "A" (players room)) = Some false.
Proof. vm_compute. split; reflexivity. Qed.

(** ** What a disconnect leaves behind *)

(** X20.  [room] is the room the disconnect handler resolves for the
    socket [s], the one recorded for it in the global [players] map.  When
    that room survives the disconnect of [s], its game state is the old
    one with the score of [s] deleted: the other scores, the role
    assignment [characters], the cached [sipahiId] and [chorId], the
    status and the round counters are as before, also when they name the
    socket that left.  (A room that [s] created or joined earlier is not
    touched at all, see C7.) *)
Theorem X20_disconnect_keeps_roles st s c room room' :
  reachable st -> room_of s st = Some (c, room) ->
  rooms (fst (on_disconnect s st)) !! c = Some room' ->
  gameState room' =
    set_scores (odel s (scores (gameState room))) (gameState room) /\
  oget s (scores (gameState room')) = None /\
  (forall k, k <> s ->
     oget k (scores (gameState room')) = oget k (scores (gameState room))) /\
  okeys (players room') = okeys (odel s (players room)) /\
  s ∉ okeys (players room').
Proof.
  intros Hreach Hro.
  destruct (room_of_Some _ _ _ _ Hro) as [_ Hroom].
  destruct (reachable_ok st Hreach c room Hroom) as [_ Hnd _ _ _ _].
  destruct (reachable_fine st Hreach c room Hroom) as [_ _ _ _ _ Hsk].
  assert (Hgone : s ∉ okeys (odel s (players room))).
  { intros Hin. apply elem_okeys_odel in Hin as [Hne _]; [congruence | exact Hnd]. }
  unfold on_disconnect. rewrite Hro. simpl.
  assert (Hgoal : forall r,
            gameState r = set_scores (odel s (scores (gameState room))) (gameState room) ->
            okeys (players r) = okeys (odel s (players room)) ->
            gameState r = set_scores (odel s (scores (gameState room))) (gameState room) /\
            oget s (scores (gameState r)) = None /\
            (forall k, k <> s ->
               oget k (scores (gameState r)) = oget k (scores (gameState room))) /\
            okeys (players r) = okeys (odel s (players room)) /\
            s ∉ okeys (players r)).
  { intros r Hg Hk. rewrite Hg, Hk. simpl.
    split; [reflexivity|]. split; [apply oget_odel_eq, Hsk|].
    split; [intros k Hne; apply oget_odel_ne, Hne|]. split; [reflexivity | exact Hgone]. }
  destruct (String.eqb (hostId room) s).
  - destruct (okeys (odel s (players room))) as [|h ks] eqn:Hks; simpl.
    + rewrite lookup_delete_eq. discriminate.
    + rewrite lookup_insert_eq. intros [= <-]. apply Hgoal; [reflexivity|].
      simpl. rewrite okeys_promote. exact Hks.
  - simpl. rewrite lookup_insert_eq. intros [= <-]. apply Hgoal; reflexivity.
Qed.

Lemma X20_disconnect_keeps_roles_witness :
  let st := state_after game_of_four in
  let room := room_in st in
  let room' := room_in (fst (on_disconnect "B" st)) in
  gameState room' =
    set_scores (odel "B" (scores (gameState room))) (gameState room) /\
  oget "B" (scores (gameState room')) = None /\
  (forall k, k <> "B" ->
     oget k (scores (gameState room')) = oget k (scores (gameState room))) /\
  okeys (players room') = okeys (odel "B" (players room)) /\
  "B" ∉ okeys (players room').
Proof.
  apply (X20_disconnect_keeps_roles (state_after game_of_four) "B" "ABC123").
  - apply state_after_reachable. vm_compute. eexists. reflexivity.
  - vm_compute. reflexivity.
  - vm_compute. reflexivity.
Defined.

(** Bob, the Chor of the round, has left: [chorId] still names him. *)
Example chor_left_still_cached :
  chorId (gameState (room_in (fst (on_disconnect "B" (state_after game_of_four))))) =
    Some "B".
Proof. vm_compute. reflexivity. Qed.

Lemma odel_empty_sole {V} s (m : omap V) :
  okeys (odel s m) = [] -> s ∈ okeys m -> okeys m = [s].
Proof.
  destruct m as [|[k v] m]; simpl.
  - intros _ Hin. apply elem_of_nil in Hin. contradiction.
  - destruct (String.eqb_spec s k) as [->|Hne]; simpl; [|discriminate].
    intros Hm _. destruct m; [reflexivity | discriminate Hm].
Qed.

(** X21.  A room leaves the registry in one way only: by the disconnect of
    its host when the host is its only member.  No other event, the
    periodic clean-up included, removes a room from a state the server can
    reach. *)
Theorem X21_room_removed_only_by_last_member a st st' out c room :
  reachable st -> handle a st = Some (st', out) ->
  rooms st !! c = Some room -> rooms st' !! c = None ->
  exists s,
    a = disconnect s /\ room_of s st = Some (c, room) /\
    hostId room = s /\ okeys (players room) = [s].
Proof.
  intros Hreach Hh Hroom. pose proof (reachable_ok st Hreach) as Hok.
  revert Hh. destruct a; simpl.
  - unfold on_connection. intros [= <- <-]. simpl. rewrite Hroom. discriminate.
  - unfold on_create_room, createRoom.
    destruct (fresh_code (rooms st) draws) as [c0|]; [|discriminate]. simpl.
    destruct (playerRefs st !! socketId); intros [= <- <-]; simpl;
      rewrite lookup_insert; (destruct (decide (c0 = c)); [discriminate|]);
      rewrite Hroom; discriminate.
  - handler_state. unfold on_join_room.
    destruct (rooms st !! jd_roomCode data) as [r0|];
      [|simpl; rewrite Hroom; discriminate].
    destruct (_ <=? _)%nat; [simpl; rewrite Hroom; discriminate|].
    destruct (bool_decide _); [simpl; rewrite Hroom; discriminate|].
    destruct (List.find _ _); [simpl; rewrite Hroom; discriminate|].
    simpl. destruct (playerRefs st !! socketId); simpl;
      rewrite lookup_insert; (destruct (decide (jd_roomCode data = c)); [discriminate|]);
      rewrite Hroom; discriminate.
  - handler_state. unfold on_start_game.
    destruct (rooms st !! sd_roomCode data) as [r0|];
      [|simpl; rewrite Hroom; discriminate].
    destruct (negb _); [simpl; rewrite Hroom; discriminate|].
    destruct (_ <? _)%nat; [simpl; rewrite Hroom; discriminate|].
    simpl. rewrite lookup_insert. destruct (decide (sd_roomCode data = c)); [discriminate|].
    rewrite Hroom. discriminate.
  - handler_state. unfold on_make_guess.
    destruct (rooms st !! gd_roomCode data) as [r0|];
      [|simpl; rewrite Hroom; discriminate].
    destruct (negb _); [simpl; rewrite Hroom; discriminate|].
    simpl. rewrite lookup_insert. destruct (decide (gd_roomCode data = c)); [discriminate|].
    rewrite Hroom. discriminate.
  - handler_state. unfold on_next_round.
    destruct (rooms st !! roomCode0) as [r0|];
      [|simpl; rewrite Hroom; discriminate].
    destruct (negb _); [simpl; rewrite Hroom; discriminate|].
    simpl. destruct (_ <? _); simpl; rewrite lookup_insert;
      (destruct (decide (roomCode0 = c)); [discriminate|]); rewrite Hroom; discriminate.
  - handler_state. unfold on_disconnect.
    destruct (room_of socketId st) as [[c0 r0]|] eqn:Hro;
      [|simpl; rewrite Hroom; discriminate].
    destruct (room_of_Some _ _ _ _ Hro) as [_ Hr0]. simpl.
    destruct (String.eqb_spec (hostId r0) socketId) as [Hhost|Hhost].
    + destruct (okeys (odel socketId (players r0))) as [|h ks] eqn:Hks; simpl.
      * rewrite lookup_delete. destruct (decide (c0 = c)) as [->|Hne];
          [|rewrite Hroom; discriminate].
        intros _. rewrite Hroom in Hr0. injection Hr0 as <-.
        exists socketId. split; [reflexivity|]. split; [exact Hro|].
        split; [exact Hhost|]. apply odel_empty_sole; [exact Hks|].
        rewrite <- Hhost. apply (ok_host _ _ (Hok _ _ Hroom)).
      * rewrite lookup_insert. destruct (decide (c0 = c)); [discriminate|].
        rewrite Hroom. discriminate.
    + simpl. rewrite lookup_insert. destruct (decide (c0 = c)); [discriminate|].
      rewrite Hroom. discriminate.
  - unfold on_cleanup. intros [= <- <-]. simpl.
    rewrite (cleanup_keeps_rooms st Hok), Hroom. discriminate.
Qed.

Lemma X21_room_removed_only_by_last_member_witness :
  let st := state_after [connection "A";
                         create_room "A" (mkHostData "Alice" "cat" None) ["ABC123"]] in
  exists s,
    disconnect "A" = disconnect s /\ room_of s st = Some ("ABC123", room_in st) /\
    hostId (room_in st) = s /\ okeys (players (room_in st)) = [s].
Proof.
  apply (X21_room_removed_only_by_last_member (disconnect "A")
           (state_after [connection "A";
                         create_room "A" (mkHostData "Alice" "cat" None) ["ABC123"]])
           (fst (on_disconnect "A"
                   (state_after [connection "A";
                                 create_room "A" (mkHostData "Alice" "cat" None)
                                   ["ABC123"]])))
           (snd (on_disconnect "A"
                   (state_after [connection "A";
                                 create_room "A" (mkHostData "Alice" "cat" None)
                                   ["ABC123"]])))
           "ABC123").
  - apply state_after_reachable. vm_compute. eexists. reflexivity.
  - vm_compute. reflexivity.
  - vm_compute. reflexivity.
  - vm_compute. reflexivity.
Defined.
